(** * ILI9488_T4: the buffering policy, the vsync clock and the transfer
      scheduler of [ILI9488Driver.cpp], as a shallow embedding.

    The driver object is a record of its member variables; every method is a
    function on that record.  Methods that may spin ([waitUpdateAsyncComplete],
    [while (_fb2full)]) take a bound on the number of hardware events they wait
    for and return [None] when the bound is reached.  The hardware is explicit:
    the interrupt or timer callback that is armed, the pixel memory behind the
    framebuffer pointers, the bytes put on the SPI bus, and the successive
    readings of the microsecond counters.

    [ILI9488Driver.h] and [DiffBuff.h] are not part of the sources at hand.
    The diff buffers are therefore an interface ([DiffBuffBase]); the inline
    helpers of the driver's header are modelled from their call sites and are
    marked as such. *)

From stdpp Require Import gmap list.
From Stdlib Require Import ZArith Lia Bool.
From Stdlib Require Import Floats.SpecFloat.

Open Scope Z_scope.

(** ** Machine integers *)

(** [int] is 32 bits wide on the Teensy 4; signed arithmetic wraps. *)
Definition to_int (z : Z) : Z := (z + 2 ^ 31) mod 2 ^ 32 - 2 ^ 31.
Definition to_u8 (z : Z) : Z := z mod 2 ^ 8.
Definition to_u16 (z : Z) : Z := z mod 2 ^ 16.
Definition to_u32 (z : Z) : Z := z mod 2 ^ 32.
Definition to_u64 (z : Z) : Z := z mod 2 ^ 64.

Definition INT_MIN : Z := - 2 ^ 31.
Definition INT_MAX : Z := 2 ^ 31 - 1.

(** C's [/] and [%] on [int] truncate towards zero. *)
Definition int_div (a b : Z) : Z := to_int (Z.quot a b).
Definition int_rem (a b : Z) : Z := to_int (Z.rem a b).
Definition int_add (a b : Z) : Z := to_int (a + b).
Definition int_sub (a b : Z) : Z := to_int (a - b).
Definition int_mul (a b : Z) : Z := to_int (a * b).
Definition int_neg (a : Z) : Z := to_int (- a).

(** Panel geometry: rotation 0 is "portrait 320x480" in [setRotation]. *)
Definition ILI9488_T4_TFTWIDTH : Z := 320.
Definition ILI9488_T4_TFTHEIGHT : Z := 480.
Definition ILI9488_T4_NB_PIXELS : Z := ILI9488_T4_TFTWIDTH * ILI9488_T4_TFTHEIGHT.

(** ** Single precision floats

    [float] is IEEE binary32: 24 bits of precision, exponents below 128. *)
Definition float := spec_float.
Definition prec32 : Z := 24.
Definition emax32 : Z := 128.

Definition float_of_Z (z : Z) : float := binary_normalize prec32 emax32 z 0 false.
Definition fdiv : float -> float -> float := SFdiv prec32 emax32.
Definition fmul : float -> float -> float := SFmul prec32 emax32.
Definition fadd : float -> float -> float := SFadd prec32 emax32.
Definition fsub : float -> float -> float := SFsub prec32 emax32.
Definition flt : float -> float -> bool := SFltb.
Definition fle : float -> float -> bool := SFleb.

(** [float ILI9488Driver::_refreshRateForMode(int mode) const] *)
Definition _refreshRateForMode (period_mode0 : Z) (mode : Z) : float :=
  let freq := fdiv (float_of_Z 1000000) (float_of_Z period_mode0) in
  let '(freq, mode) :=
    if 16 <=? mode then (fdiv freq (float_of_Z 2), int_sub mode 16) else (freq, mode) in
  fdiv (fmul freq (float_of_Z 16)) (fadd (float_of_Z 16) (float_of_Z mode)).

(** The [while (b - a > 1)] loop of [_modeForRefreshRate].  The interval
    [a, b] halves at each turn, so [n] turns are enough as soon as
    [b - a <= 2 ^ n]. *)
Fixpoint dichotomy (n : nat) (period_mode0 : Z) (hz : float) (a b : Z) : Z * Z :=
  match n with
  | O => (a, b)
  | S n' =>
      if 1 <? int_sub b a then
        let c := int_div (int_add a b) 2 in
        if flt hz (_refreshRateForMode period_mode0 c)
        then dichotomy n' period_mode0 hz c b
        else dichotomy n' period_mode0 hz a c
      else (a, b)
  end.

(** [int ILI9488Driver::_modeForRefreshRate(float hz) const] *)
Definition _modeForRefreshRate (period_mode0 : Z) (hz : float) : Z :=
  if fle hz (_refreshRateForMode period_mode0 31) then 31
  else if fle (_refreshRateForMode period_mode0 0) hz then 0
  else
    let '(a, b) := dichotomy 5 period_mode0 hz 0 31 in
    let da := fsub (_refreshRateForMode period_mode0 a) hz in
    let db := fsub hz (_refreshRateForMode period_mode0 b) in
    if flt da db then a else b.

(** The frequency of the period measured in mode 0, in Hz: the first line of
    [_refreshRateForMode]. *)
Definition baseHz (period_mode0 : Z) : float :=
  fdiv (float_of_Z 1000000) (float_of_Z period_mode0).

(** The calibration table is strictly decreasing in the mode, as seen by the
    float comparison. *)
Definition table_decreasing (period_mode0 : Z) : Prop :=
  forall i j, 0 <= i -> i < j -> j <= 31 ->
    flt (_refreshRateForMode period_mode0 j) (_refreshRateForMode period_mode0 i) = true.

(** The gap between two neighbouring entries, computed by the float
    subtraction, is not below the zero that [hz - hz] yields. *)
Definition gaps_not_negative (period_mode0 : Z) : Prop :=
  forall m, 1 <= m -> m <= 31 ->
    flt (fsub (_refreshRateForMode period_mode0 (m - 1)) (_refreshRateForMode period_mode0 m))
        (fsub (_refreshRateForMode period_mode0 m) (_refreshRateForMode period_mode0 m)) = false.

(** ** The vertical scroll address *)

(** The arithmetic of [void ILI9488Driver::setScroll(int offset)]: the value
    handed to [_writedata16_cont]. *)
Definition scroll_address (offset : Z) : Z :=
  let offset :=
    if offset <? 0
    then int_add offset
           (int_mul (int_add (int_div (int_neg offset) ILI9488_T4_TFTHEIGHT) 1)
                    ILI9488_T4_TFTHEIGHT)
    else offset in
  int_rem offset 320.

(** ** Diff buffers

    [computeDiff], [readDiff] and [copyfb] belong to [DiffBuffBase] and its two
    implementations [DiffBuff] and [DiffBuffDummy], declared in [DiffBuff.h].
    The driver only sees the virtual interface, which is what this class
    records.  A framebuffer is the list of its pixels. *)

Definition Frame := list Z.

(** A region [xmin, xmax] x [ymin, ymax]. *)
Record box := mkBox { xmin : Z; xmax : Z; ymin : Z; ymax : Z }.

Class DiffBuffBase := {
  diffbuf : Type;
  (** a diff object that has never been written *)
  newDiff : diffbuf;
  (** [void initRead()] *)
  initRead : diffbuf -> diffbuf;
  (** [int readDiff(int& x, int& y, int& len, int scanline)]: the returned
      code, the three reference arguments after the call, and the object. *)
  readDiff : diffbuf -> Z -> Z -> Z -> Z -> Z * (Z * Z * Z) * diffbuf;
  (** [computeDiff(fb_old, fb_new, rotation, gap, copy_new_over_old, mask)]:
      the object once the diff is computed. *)
  computeDiff : diffbuf -> Frame -> Frame -> Z -> Z -> bool -> Z -> diffbuf;
  (** [computeDiff(fb_old, diff_old, sub_fb, xmin, xmax, ymin, ymax, stride,
      rotation, gap, copy_new_over_old, mask)] *)
  computeDiff_region :
    diffbuf -> Frame -> option diffbuf -> Frame -> box -> Z -> Z -> Z -> bool -> Z -> diffbuf;
  (** [void computeDummyDiff()] *)
  computeDummyDiff : diffbuf -> diffbuf;
  (** [copyfb(fb_dest, fb_src, rotation)]: the destination after the copy *)
  copyfb : Frame -> Frame -> Z -> Frame;
  (** [copyfb(fb_dest, sub_fb, xmin, xmax, ymin, ymax, stride, rotation)] *)
  copyfb_region : Frame -> Frame -> box -> Z -> Z -> Frame;
  (** [rotationBox(rotation, xmin, xmax, ymin, ymax, x1, x2, y1, y2)] *)
  rotationBox : Z -> box -> box;
  (** Modelled from the spec: a copy of a whole frame overwrites the whole
      destination, so nothing of its former content is left. *)
  copyfb_overwrites :
    forall dst dst' src rotation, copyfb dst src rotation = copyfb dst' src rotation
}.

(** *** A diff buffer as the list of its spans

    Modelled from the spec: [DiffBuff] and [DiffBuffDummy] are declared in
    [DiffBuff.h].  A diff is the ordered sequence of its spans (row, start
    column, length); a dummy diff is one span covering the whole panel, with no
    comparison performed; [readDiff] answers "must wait" without advancing the
    cursor while the next span's row exceeds the scanline, and otherwise returns
    the span and advances; a negative code means that no span is left.  The
    first read after [initRead], which the driver makes at scanline 0 to learn
    where the diff starts, reports the first span without consuming it.  The
    frames are in the orientation of the panel (rotation 0); a mask of 0 is the
    strict comparison. *)

Record list_diff := mkListDiff {
  ld_dummy : bool;                  (* a [DiffBuffDummy] object *)
  ld_spans : list (Z * Z * Z);      (* the spans (x, y, len), in ascending row order *)
  ld_cursor : list (Z * Z * Z);     (* the spans not read yet *)
  ld_fresh : bool                   (* no read since [initRead] *)
}.

Definition pixel_differs (mask a b : Z) : bool :=
  if mask =? 0 then negb (a =? b) else negb (Z.land a mask =? Z.land b mask).

(** The runs of differing pixels of two frames, from pixel [i] on; [run] is the
    run being extended, if any. *)
Fixpoint diff_runs (mask : Z) (old new : Frame) (i : Z) (run : option (Z * Z))
  : list (Z * Z * Z) :=
  let close := match run with
               | Some (start, len) =>
                   [(start mod ILI9488_T4_TFTWIDTH, start / ILI9488_T4_TFTWIDTH, len)]
               | None => []
               end in
  match old, new with
  | a :: old', b :: new' =>
      if pixel_differs mask a b then
        diff_runs mask old' new' (i + 1)
          (Some match run with Some (start, len) => (start, len + 1) | None => (i, 1) end)
      else close ++ diff_runs mask old' new' (i + 1) None
  | [], b :: new' =>
      diff_runs mask [] new' (i + 1)
        (Some match run with Some (start, len) => (start, len + 1) | None => (i, 1) end)
  | _, [] => close
  end.

Definition dummy_spans : list (Z * Z * Z) := [(0, 0, ILI9488_T4_NB_PIXELS)].

Definition box_rows (b : box) : list (Z * Z * Z) :=
  map (fun k => (xmin b, ymin b + Z.of_nat k, xmax b - xmin b + 1))
      (seq 0 (Z.to_nat (ymax b - ymin b + 1))).

(** The pixels of a sub-framebuffer written over the region [b] of [dst]. *)
Definition paste_region (dst sub : Frame) (b : box) (stride : Z) : Frame :=
  fold_left
    (fun acc k =>
       let dx := Z.of_nat k mod (xmax b - xmin b + 1) in
       let dy := Z.of_nat k / (xmax b - xmin b + 1) in
       match sub !! Z.to_nat (dy * stride + dx) with
       | Some v => <[Z.to_nat ((ymin b + dy) * ILI9488_T4_TFTWIDTH + xmin b + dx) := v]> acc
       | None => acc
       end)
    (seq 0 (Z.to_nat ((xmax b - xmin b + 1) * (ymax b - ymin b + 1))))
    dst.

Definition list_diff_read (d : list_diff) (x y len scanline : Z)
  : Z * (Z * Z * Z) * list_diff :=
  match ld_cursor d with
  | [] => (-1, (x, y, len), d)
  | (sx, sy, sl) :: rest =>
      if ld_fresh d
      then (sy, (sx, sy, sl), mkListDiff (ld_dummy d) (ld_spans d) (ld_cursor d) false)
      else if scanline <? sy then (sy, (sx, sy, sl), d)
      else (0, (sx, sy, sl), mkListDiff (ld_dummy d) (ld_spans d) rest false)
  end.

Definition ListDiff : DiffBuffBase := {|
  diffbuf := list_diff;
  newDiff := mkListDiff false [] [] false;
  initRead d := mkListDiff (ld_dummy d) (ld_spans d) (ld_spans d) true;
  readDiff := list_diff_read;
  computeDiff d old new rotation gap copy mask :=
    mkListDiff (ld_dummy d)
      (if ld_dummy d then dummy_spans else diff_runs mask old new 0 None) [] false;
  computeDiff_region d old prev sub b stride rotation gap copy mask :=
    mkListDiff (ld_dummy d)
      (if ld_dummy d then box_rows b
       else match diff_runs mask old (paste_region old sub b stride) 0 None with
            | [] => []
            | _ => box_rows b
            end) [] false;
  computeDummyDiff d := mkListDiff (ld_dummy d) dummy_spans [] false;
  copyfb dst src rotation := src;
  copyfb_region dst sub b stride rotation := paste_region dst sub b stride;
  rotationBox rotation b := b;
  copyfb_overwrites dst dst' src rotation := eq_refl
|}.

(** ** The driver object *)

(** Addresses of framebuffers and of diff objects. *)
Definition ptr := nat.
Definition dptr := nat.

(** [ILI9488_T4_DMA_IDLE] and [ILI9488_T4_DMA_ON] *)
Inductive dma_state := ILI9488_T4_DMA_IDLE | ILI9488_T4_DMA_ON.

(** The methods handed to [_setCB]; [_buffer2fullCB] is the only one. *)
Inductive callback := buffer2fullCB.

(** What the hardware will call next: a timer callback set by [_setTimerIn] or
    [_setTimerAt], or the DMA completion interrupt. *)
Inductive irq :=
| NoIrq
| Irq_subFrameTimerStartcb
| Irq_subFrameTimerStartcb2
| Irq_dmaInterruptDiff
| Irq_subFrameInterruptDiff2.

Inductive command :=
| ILI9488_T4_NOP
| ILI9488_T4_CASET
| ILI9488_T4_PASET
| ILI9488_T4_RAMWR
| ILI9488_T4_VSCRSADD
| ILI9488_T4_FRMCTR1.

(** What goes out on the SPI bus. *)
Inductive bus_ev :=
| Cmd (c : command)
| Data8 (v : Z)
| Data16 (v : Z)
| Tx (v : Z)                                        (* a raw write to TDR *)
| Pixels (src : Frame) (x y len : Z)                (* one span of [src] *)
| RectPixels (src : Frame) (b : box) (stride : Z).  (* a rectangle of [src] *)

Inductive buffering_mode := NO_BUFFERING | DOUBLE_BUFFERING | TRIPLE_BUFFERING.

(** ** Colours

    The conversion at the head of the two [_write16BitColor]: a RGB565 colour
    becomes the three bytes that the panel takes in its 18 bit mode. *)
Definition color24 (color : Z) : Z :=
  let r := to_u8 (Z.shiftr (Z.land color 0xF800) 11) in
  let g := to_u8 (Z.shiftr (Z.land color 0x07E0) 5) in
  let b := to_u8 (Z.land color 0x001F) in
  let r := to_u8 (int_div (int_mul r 255) 31) in
  let g := to_u8 (int_div (int_mul g 255) 63) in
  let b := to_u8 (int_div (int_mul b 255) 31) in
  to_u32 (Z.lor (Z.lor (Z.shiftl (to_u32 r) 16) (Z.shiftl (to_u32 g) 8)) b).

(** [void ILI9488Driver::_write16BitColor(uint16_t color, bool last_pixel)]:
    the word written to [TDR].  [last_pixel] only chooses the frame flags and
    the wait that follows. *)
Definition _write16BitColor (color : Z) (last_pixel : bool) : list bus_ev :=
  [Tx (color24 (to_u16 color))].

(** The [while (count > 1)] loop of the second [_write16BitColor]; [count] is
    a [uint16_t]. *)
Fixpoint write16BitColor_loop (fuel : nat) (word count : Z) : option (list bus_ev * Z) :=
  if 1 <? count then
    match fuel with
    | O => None
    | S fuel' =>
        match write16BitColor_loop fuel' word (to_u16 (count - 1)) with
        | Some (evs, count') => Some (Tx word :: evs, count')
        | None => None
        end
    end
  else Some ([], count).

(** [void ILI9488Driver::_write16BitColor(uint16_t color, uint16_t count,
    bool last_pixel)]: the words written to [TDR]. *)
Definition _write16BitColor_count (color count : Z) (last_pixel : bool)
  : option (list bus_ev) :=
  let word := color24 (to_u16 color) in
  match write16BitColor_loop (Z.to_nat (to_u16 count)) word (to_u16 count) with
  | Some (evs, _) => Some (evs ++ [Tx word])
  | None => None
  end.

(** ** Pixels pushed in the four orientations *)

(** [fb[i]]; reading outside of the array is not defined. *)
Definition pixel (fb : list Z) (i : Z) : option Z :=
  if i <? 0 then None else fb !! Z.to_nat i.

(** The loop [while (len-- > 0)] of [_pushpixels_mode0], which sends the
    pixel under [p] and increments [p] ([step] is 1), and of
    [_pushpixels_mode2], which decrements it ([step] is -1); [n] is the
    number of turns. *)
Fixpoint pushpixels_run (n : nat) (fb : Frame) (i step : Z) : option (list bus_ev) :=
  match n with
  | O => Some []
  | S n' =>
      match pixel fb i, pushpixels_run n' fb (i + step) step with
      | Some c, Some evs => Some (_write16BitColor c false ++ evs)
      | _, _ => None
      end
  end.

(** [void ILI9488Driver::_pushpixels_mode0(const uint16_t* fb, int x, int y,
    int len)] *)
Definition _pushpixels_mode0 (fb : Frame) (x y len : Z) : option (list bus_ev) :=
  pushpixels_run (Z.to_nat len) fb (x + int_mul y ILI9488_T4_TFTWIDTH) 1.

(** [void ILI9488Driver::_pushpixels_mode2(const uint16_t* fb, int xx, int yy,
    int len)] *)
Definition _pushpixels_mode2 (fb : Frame) (xx yy len : Z) : option (list bus_ev) :=
  let x := int_sub (int_sub ILI9488_T4_TFTWIDTH 1) xx in
  let y := int_sub (int_sub ILI9488_T4_TFTHEIGHT 1) yy in
  pushpixels_run (Z.to_nat len) fb (x + int_mul y ILI9488_T4_TFTWIDTH) (-1).

(** The loop of [_pushpixels_mode1] when [down], which walks up a column of
    the landscape framebuffer and then moves to the next column, and of
    [_pushpixels_mode3] otherwise, which walks down and moves to the previous
    column. *)
Fixpoint pushpixels_columns (n : nat) (down : bool) (fb : Frame) (x y : Z)
  : option (list bus_ev) :=
  match n with
  | O => Some []
  | S n' =>
      let c := pixel fb (int_add x (int_mul ILI9488_T4_TFTHEIGHT y)) in
      let '(x, y) :=
        if down then
          let y := int_sub y 1 in
          if y <? 0 then (int_add x 1, int_sub ILI9488_T4_TFTWIDTH 1) else (x, y)
        else
          let y := int_add y 1 in
          if ILI9488_T4_TFTWIDTH <=? y then (int_sub x 1, 0) else (x, y) in
      match c, pushpixels_columns n' down fb x y with
      | Some c, Some evs => Some (_write16BitColor c false ++ evs)
      | _, _ => None
      end
  end.

(** [void ILI9488Driver::_pushpixels_mode1(const uint16_t* fb, int xx, int yy,
    int len)] *)
Definition _pushpixels_mode1 (fb : Frame) (xx yy len : Z) : option (list bus_ev) :=
  let x := yy in
  let y := int_sub (int_sub ILI9488_T4_TFTWIDTH 1) xx in
  pushpixels_columns (Z.to_nat len) true fb x y.

(** [void ILI9488Driver::_pushpixels_mode3(const uint16_t* fb, int xx, int yy,
    int len)] *)
Definition _pushpixels_mode3 (fb : Frame) (xx yy len : Z) : option (list bus_ev) :=
  let x := int_sub (int_sub ILI9488_T4_TFTHEIGHT 1) yy in
  let y := xx in
  pushpixels_columns (Z.to_nat len) false fb x y.

(** The pixel that the panel shows at the position [k] of its memory (row by
    row, 320 pixels a row) when the landscape framebuffer [fb] is displayed in
    rotation 1. *)
Definition landscape_index (k : Z) : Z :=
  k / ILI9488_T4_TFTWIDTH
  + ILI9488_T4_TFTHEIGHT * (ILI9488_T4_TFTWIDTH - 1 - k mod ILI9488_T4_TFTWIDTH).

(** ** The touch screen *)

Definition to_i16 (z : Z) : Z := (z + 2 ^ 15) mod 2 ^ 16 - 2 ^ 15.

(** [int16_t ILI9488Driver::_besttwoavg(int16_t x, int16_t y, int16_t z)] *)
Definition _besttwoavg (x y z : Z) : Z :=
  let da := if y <? x then to_i16 (int_sub x y) else to_i16 (int_sub y x) in
  let db := if z <? x then to_i16 (int_sub x z) else to_i16 (int_sub z x) in
  let dc := if y <? z then to_i16 (int_sub z y) else to_i16 (int_sub y z) in
  if (da <=? db) && (da <=? dc) then to_i16 (Z.shiftr (int_add x y) 1)
  else if (db <=? da) && (db <=? dc) then to_i16 (Z.shiftr (int_add x z) 1)
  else to_i16 (Z.shiftr (int_add y z) 1).

(** The landscape framebuffer [fb] as the panel stores it in rotation 1: the
    pixel at the position [k] of the panel memory is the pixel
    [landscape_index k] of [fb]. *)
Definition landscape_view (fb : list Z) : Frame :=
  map (fun k => default 0 (pixel fb (landscape_index k))) (seqZ 0 ILI9488_T4_NB_PIXELS).

(** The state of the touch screen.  [_touch_calib] is an array of four
    [int]. *)
Record touch := mkTouch {
  _touch_irq : Z;
  _touched : bool;
  _touch_x : Z;
  _touch_y : Z;
  _touch_z : Z;
  _touch_z_threshold : Z;
  _touch_has_calibration : bool;
  _touch_calib : Z * Z * Z * Z
}.

(** [int32_t ILI9488Driver::lastTouched()]; [em] is the reading of the
    millisecond counter [_em_touched_irq], an [unsigned long]. *)
Definition lastTouched (em : Z) (t : touch) : Z * touch :=
  let b := _touched t in
  let t := mkTouch (_touch_irq t) false (_touch_x t) (_touch_y t) (_touch_z t)
             (_touch_z_threshold t) (_touch_has_calibration t) (_touch_calib t) in
  (if b && negb (_touch_irq t =? 255) then to_int em else -1, t).

(** [void ILI9488Driver::setTouchCalibration(int touchCalibration[4])]; the
    argument may be null. *)
Definition setTouchCalibration (touchCalibration : option (Z * Z * Z * Z)) (t : touch)
  : touch :=
  match touchCalibration with
  | Some c =>
      mkTouch (_touch_irq t) (_touched t) (_touch_x t) (_touch_y t) (_touch_z t)
        (_touch_z_threshold t) true c
  | None =>
      mkTouch (_touch_irq t) (_touched t) (_touch_x t) (_touch_y t) (_touch_z t)
        (_touch_z_threshold t) false (_touch_calib t)
  end.

(** [bool ILI9488Driver::getTouchCalibration(int touchCalibration[4])]: the
    value returned and the array of the caller. *)
Definition getTouchCalibration (t : touch) (touchCalibration : Z * Z * Z * Z)
  : bool * (Z * Z * Z * Z) :=
  if _touch_has_calibration t then (true, _touch_calib t) else (false, touchCalibration).

Section Touch.

(** [_mapTouchX] and [_mapTouchY] are declared in [ILI9488Driver.h]: they map
    a raw measure and the two calibration bounds of its axis to a coordinate
    of the panel in orientation 0. *)
Variables _mapTouchX _mapTouchY : Z -> Z -> Z -> Z.

(** [bool ILI9488Driver::readTouch(int& x, int& y, int& z)], from the touch
    state [t] that its call to [_updateTouch] leaves; [rotation] is
    [_rotation].  The value returned, and [x], [y] and [z] after the call. *)
Definition readTouch (rotation : Z) (t : touch) (x y z : Z) : bool * (Z * Z * Z) :=
  if _touch_z t <? _touch_z_threshold t then (false, (x, y, z))
  else
    let z := _touch_z t in
    if _touch_has_calibration t then
      let '(c0, c1, c2, c3) := _touch_calib t in
      let xx := _mapTouchX (_touch_x t) c0 c1 in
      let yy := _mapTouchY (_touch_y t) c2 c3 in
      if rotation =? 0 then (true, (xx, yy, z))
      else if rotation =? 1 then
        (true, (yy, int_sub (int_sub ILI9488_T4_TFTWIDTH 1) xx, z))
      else if rotation =? 2 then
        (true, (int_sub (int_sub ILI9488_T4_TFTWIDTH 1) xx,
                int_sub (int_sub ILI9488_T4_TFTHEIGHT 1) yy, z))
      else if rotation =? 3 then
        (true, (int_sub (int_sub ILI9488_T4_TFTHEIGHT 1) yy, xx, z))
      else (true, (x, y, z))
    else (true, (_touch_x t, _touch_y t, z)).

End Touch.

(** The frame [fb], [w] pixels wide, shows under the touch that was
    [reported] the pixel that [push] sends for the position [(xx, yy)] of the
    panel. *)
Definition touch_on_pixel (push : Frame -> Z -> Z -> Z -> option (list bus_ev)) (w : Z)
    (reported : bool * (Z * Z * Z)) (fb : Frame) (xx yy : Z) : Prop :=
  exists x y z c,
    reported = (true, (x, y, z)) /\ 0 <= x < w /\ 0 <= y /\
    pixel fb (x + w * y) = Some c /\
    push fb xx yy 1 = Some (_write16BitColor c false).

(** [k] readings of the scanline of the panel, as [_getScanLine] asks for
    them. *)
Definition scanline_queries (k : nat) : list bus_ev :=
  concat (repeat [Tx 69; Tx 0; Tx 0] k).

(** The constants of [ILI9488Driver.h] whose value the sources at hand do not
    show. *)
Class DriverHeader := {
  ILI9488_T4_NB_SCANLINES : Z
}.

Section Driver.

Context `{DiffBuffBase} `{DriverHeader}.

Record driver := mkDriver {
  (* general *)
  _width : Z;
  _height : Z;
  _rotation : Z;
  _refreshmode : Z;
  (* buffering *)
  _late_start_ratio_override : bool;
  _diff_gap : Z;
  _vsync_spacing : Z;
  _diff1 : option dptr;
  _diff2 : option dptr;
  _fb1 : option ptr;
  _fb2 : option ptr;
  _dummydiff1 : dptr;
  _dummydiff2 : dptr;
  _mirrorfb : option ptr;
  _ongoingDiff : option dptr;
  _fb2full : bool;
  _compare_mask : Z;
  (* vsync *)
  _period : Z;
  _period_mode0 : Z;
  _synced_scanline : Z;
  (* dma *)
  _pcb : option callback;
  _fb : option ptr;
  _diff : option dptr;
  _dma_state : dma_state;
  _last_y : Z;
  _margin : Z;
  _slinitpos : Z;
  _prev_caset_x : Z;
  _prev_paset_y : Z;
  (* statistics *)
  _stats_nb_frame : Z;
  _nbteared : Z;
  _statsvar_margin : list Z;
  (* hardware *)
  armed : irq;                    (* the callback the hardware will call next *)
  mem : gmap ptr Frame;           (* the memory behind the framebuffer pointers *)
  diffs : gmap dptr diffbuf;      (* the diff objects *)
  bus : list bus_ev;              (* what was sent to the panel, oldest first *)
  clock : list Z                  (* the readings the counters will give *)
}.

(** Field update: the record rebuilt with one projection replaced. *)
Ltac setter proj :=
  let e := constr:(fun s : driver =>
    mkDriver (_width s) (_height s) (_rotation s) (_refreshmode s)
      (_late_start_ratio_override s) (_diff_gap s) (_vsync_spacing s) (_diff1 s) (_diff2 s)
      (_fb1 s) (_fb2 s) (_dummydiff1 s) (_dummydiff2 s) (_mirrorfb s) (_ongoingDiff s)
      (_fb2full s) (_compare_mask s) (_period s) (_period_mode0 s) (_synced_scanline s)
      (_pcb s) (_fb s) (_diff s) (_dma_state s) (_last_y s) (_margin s) (_slinitpos s)
      (_prev_caset_x s) (_prev_paset_y s) (_stats_nb_frame s) (_nbteared s)
      (_statsvar_margin s) (armed s) (mem s) (diffs s) (bus s) (clock s)) in
  match eval pattern proj in e with
  | ?f _ => let g := eval cbv beta in (fun v s => f (fun _ => v) s) in exact g
  end.

Definition set_width := ltac:(setter _width).
Definition set_height := ltac:(setter _height).
Definition set_rotation := ltac:(setter _rotation).
Definition set_refreshmode := ltac:(setter _refreshmode).
Definition set_late_start_ratio_override := ltac:(setter _late_start_ratio_override).
Definition set_vsync_spacing := ltac:(setter _vsync_spacing).
Definition set_diff1 := ltac:(setter _diff1).
Definition set_diff2 := ltac:(setter _diff2).
Definition set_fb1 := ltac:(setter _fb1).
Definition set_fb2 := ltac:(setter _fb2).
Definition set_dummydiff1 := ltac:(setter _dummydiff1).
Definition set_dummydiff2 := ltac:(setter _dummydiff2).
Definition set_mirrorfb := ltac:(setter _mirrorfb).
Definition set_ongoingDiff := ltac:(setter _ongoingDiff).
Definition set_fb2full := ltac:(setter _fb2full).
Definition set_period := ltac:(setter _period).
Definition set_synced_scanline := ltac:(setter _synced_scanline).
Definition set_pcb := ltac:(setter _pcb).
Definition set_fb := ltac:(setter _fb).
Definition set_diff := ltac:(setter _diff).
Definition set_dma_state := ltac:(setter _dma_state).
Definition set_last_y := ltac:(setter _last_y).
Definition set_margin := ltac:(setter _margin).
Definition set_slinitpos := ltac:(setter _slinitpos).
Definition set_prev_caset_x := ltac:(setter _prev_caset_x).
Definition set_prev_paset_y := ltac:(setter _prev_paset_y).
Definition set_stats_nb_frame := ltac:(setter _stats_nb_frame).
Definition set_nbteared := ltac:(setter _nbteared).
Definition set_statsvar_margin := ltac:(setter _statsvar_margin).
Definition set_armed := ltac:(setter armed).
Definition set_mem := ltac:(setter mem).
Definition set_diffs := ltac:(setter diffs).
Definition set_bus := ltac:(setter bus).
Definition set_clock := ltac:(setter clock).

(** Sequencing of steps that may not return. *)
Notation "'let?' x ':=' e 'in' k" :=
  (match e with Some x => k | None => None end)
  (at level 10, x pattern, e at level 200, k at level 200).

(** *** The hardware *)

(** The next reading of a microsecond counter ([_synced_em], [_em_async]) or of
    a register of the panel. *)
Definition tick (s : driver) : option (Z * driver) :=
  match clock s with
  | [] => None
  | c :: rest => Some (c, set_clock rest s)
  end.

Definition send (evs : list bus_ev) (s : driver) : driver :=
  set_bus (bus s ++ evs) s.

(** The content of a framebuffer; memory never written reads as no pixels. *)
Definition frame_at (p : ptr) (s : driver) : Frame := default [] (mem s !! p).
Definition diff_at (d : dptr) (s : driver) : diffbuf := default newDiff (diffs s !! d).
Definition store_frame (p : ptr) (f : Frame) (s : driver) : driver :=
  set_mem (<[p := f]> (mem s)) s.
Definition store_diff (d : dptr) (v : diffbuf) (s : driver) : driver :=
  set_diffs (<[d := v]> (diffs s)) s.

(** [memset(fb, 0, ILI9488_T4_NB_PIXELS * 2)] *)
Definition zero_frame : Frame := repeat 0 (Z.to_nat ILI9488_T4_NB_PIXELS).

(** *** Inline helpers of the header *)

(** Modelled from the spec: [asyncUpdateActive] is declared in
    [ILI9488Driver.h]; a transfer is active until the scheduler is idle. *)
Definition asyncUpdateActive (s : driver) : bool :=
  match _dma_state s with
  | ILI9488_T4_DMA_IDLE => false
  | ILI9488_T4_DMA_ON => true
  end.

(** Modelled from the spec: [bufferingMode] is declared in [ILI9488Driver.h];
    no owned buffer, one owned buffer, two owned buffers. *)
Definition bufferingMode (s : driver) : buffering_mode :=
  match _fb1 s, _fb2 s with
  | None, _ => NO_BUFFERING
  | Some _, None => DOUBLE_BUFFERING
  | Some _, Some _ => TRIPLE_BUFFERING
  end.

(** Modelled from the spec: [_clip] is declared in [ILI9488Driver.h]; the value
    clamped into [vmin, vmax]. *)
Definition _clip (v vmin vmax : Z) : Z :=
  if v <? vmin then vmin else if vmax <? v then vmax else v.

(** Modelled from the spec: [resync] is declared in [ILI9488Driver.h]; the
    one-shot override that forces a hard resynchronisation. *)
Definition resync (s : driver) : driver := set_late_start_ratio_override true s.

(** Modelled from its call sites: [_setCB] is declared in [ILI9488Driver.h];
    it installs the completion callback, or removes it when called without
    argument. *)
Definition _setCB (cb : option callback) (s : driver) : driver := set_pcb cb s.

(** Modelled from their call sites: [_swapdiff], [_swapdummydiff] and [_swapfb]
    are declared in [ILI9488Driver.h]; each exchanges two pointers. *)
Definition _swapdiff (s : driver) : driver :=
  set_diff2 (_diff1 s) (set_diff1 (_diff2 s) s).
Definition _swapdummydiff (s : driver) : driver :=
  set_dummydiff2 (_dummydiff1 s) (set_dummydiff1 (_dummydiff2 s) s).
Definition _swapfb (s : driver) : driver :=
  set_fb2 (_fb1 s) (set_fb1 (_fb2 s) s).

(** Modelled from its call sites: [_startframe] is declared in
    [ILI9488Driver.h]; it restarts the per-frame timers of the statistics,
    which are not part of this record. *)
Definition _startframe (vsynonc : bool) (s : driver) : driver := s.

(** *** The vsync clock *)

(** [int ILI9488Driver::_getScanLine(bool sync)].  Without [sync] the scanline
    is extrapolated from the last synchronisation; the reading of [_synced_em]
    is a [uint32_t] widened to 64 bits, and the division traps on a zero
    period.  With [sync] the panel is asked; [res[0]] is the last word
    received. *)
Definition _getScanLine (sync : bool) (s : driver) : option (Z * driver) :=
  if negb sync then
    let? (em, s) := tick s in
    if (_period s =? 0) || (to_u64 ILI9488_T4_NB_SCANLINES =? 0) then None
    else
      let during := to_u64 (to_u64 (to_u32 em) * to_u64 ILI9488_T4_NB_SCANLINES) / _period s in
      Some (to_int (to_u64 (_synced_scanline s + during) mod to_u64 ILI9488_T4_NB_SCANLINES), s)
  else
    let? (res0, s) := tick s in
    let s := send [Tx 69; Tx 0; Tx 0] s in
    let sc := int_sub (int_mul 2 res0) 3 in
    let sc := if sc <? 0 then 0 else sc in
    Some (sc, set_synced_scanline (to_u32 sc) s).

(** Modelled from its call sites: [_microToReachScanLine] is declared in
    [ILI9488Driver.h]; "with resync" it asks the panel for its scanline.  The
    delay it returns only sets the date of a timer, which this model does not
    keep. *)
Definition _microToReachScanLine (sync : bool) (s : driver) : option driver :=
  if sync then let? (_, s) := _getScanLine true s in Some s else Some s.

(** Modelled from its call sites: [_nbScanlineDuring] is declared in
    [ILI9488Driver.h]; applied to [_em_async] it is the number of scanlines the
    beam has advanced since the transfer started, a reading of the clock. *)
Definition _nbScanlineDuring_em_async (s : driver) : option (Z * driver) := tick s.

(** *** Statistics *)

(** [void ILI9488Driver::statsReset()] *)
Definition statsReset (s : driver) : driver :=
  let s := set_stats_nb_frame 0 s in
  let s := set_statsvar_margin [] s in
  set_nbteared 0 s.

(** [void ILI9488Driver::_endframe()].  The counters are [uint32_t]; the
    statistics on cpu time, upload time, pixels, transactions and vsync
    spacing are not kept. *)
Definition _endframe (s : driver) : driver :=
  let s := set_stats_nb_frame (to_u32 (_stats_nb_frame s + 1)) s in
  if 0 <? _vsync_spacing s then
    let s := if _margin s <? 0 then set_nbteared (to_u32 (_nbteared s + 1)) s else s in
    set_statsvar_margin (_statsvar_margin s ++ [_margin s]) s
  else s.

(** *** The transfer scheduler *)

(** [_diff->readDiff(x, y, len, scanline)] on the diff object behind a pointer;
    a null pointer cannot be followed. *)
Definition read_diff (d : option dptr) (x y len scanline : Z) (s : driver)
  : option (Z * (Z * Z * Z) * driver) :=
  match d with
  | None => None
  | Some d =>
      let '(r, xyl, o) := readDiff (diff_at d s) x y len scanline in
      Some (r, xyl, store_diff d o s)
  end.

(** [(ILI9488_T4_TFTWIDTH * y + x + len) / ILI9488_T4_TFTWIDTH] *)
Definition last_row (x y len : Z) : Z :=
  int_div (int_add (int_add (int_mul ILI9488_T4_TFTWIDTH y) x) len) ILI9488_T4_TFTWIDTH.

(** The end of a transfer, common to [_updateAsync], [_subFrameTimerStartcb2]
    and [_subFrameInterruptDiff]: the frame is counted, the scheduler becomes
    idle, the completion callback is called and then removed.  [call_pcb] is
    [if (_pcb) (this->*_pcb)()].  A pending touch read is not modelled. *)
Definition finish_transfer (call_pcb : driver -> option driver) (s : driver) : option driver :=
  let s := _endframe s in
  let s := set_dma_state ILI9488_T4_DMA_IDLE s in
  let? s := call_pcb s in
  Some (set_pcb None s).

(** [void ILI9488Driver::_updateAsync(const uint16_t* fb, DiffBuffBase* diff)],
    over the way it waits and the way it calls the completion callback. *)
Definition _updateAsync_with (wait call_pcb : driver -> option driver)
    (fb : option ptr) (diff : option dptr) (s : driver) : option driver :=
  match fb, diff with
  | Some p, Some d =>
      let? s := wait s in
      let s := _startframe (0 <? _vsync_spacing s) s in
      let s := set_margin ILI9488_T4_NB_SCANLINES s in
      let s := set_dma_state ILI9488_T4_DMA_ON s in
      let s := set_fb (Some p) s in
      let s := set_diff (Some d) s in
      let s := store_diff d (initRead (diff_at d s)) s in
      let? (sc1, (x, y, len), s) := read_diff (Some d) 0 0 0 0 s in
      if sc1 <? 0 then
        (* the diff is empty *)
        let? s :=
          (if 0 <? _vsync_spacing s then
             let? s := _microToReachScanLine true s in
             Some (set_late_start_ratio_override false s)
           else Some s) in
        finish_transfer call_pcb s
      else
        let s := send [Cmd ILI9488_T4_CASET; Data16 (to_u16 x); Data16 ILI9488_T4_TFTWIDTH;
                       Cmd ILI9488_T4_PASET; Data16 (to_u16 y); Data16 ILI9488_T4_TFTHEIGHT] s in
        let s := set_prev_caset_x x s in
        let s := set_prev_paset_y y s in
        let s := set_slinitpos sc1 s in
        Some (set_armed Irq_subFrameTimerStartcb s)
  | _, _ => Some s
  end.

(** [void ILI9488Driver::_buffer2fullCB()], over the [_updateAsync] it calls. *)
Definition _buffer2fullCB_with
    (updateAsync : option ptr -> option dptr -> driver -> option driver)
    (s : driver) : option driver :=
  let? s :=
    (match _mirrorfb s with
     | Some _ =>
         let s := _swapdiff s in
         let s := _swapfb s in
         let s := set_mirrorfb (_fb1 s) s in
         let s := set_fb2full false s in
         updateAsync (_fb1 s) (_diff1 s) s
     | None =>
         let s := _swapdummydiff s in
         let s := _swapfb s in
         let s := set_mirrorfb (_fb1 s) s in
         let s := set_fb2full false s in
         updateAsync (_fb1 s) (Some (_dummydiff1 s)) s
     end) in
  let s := _setCB None s in
  Some (set_ongoingDiff None s).

(** [waitUpdateAsyncComplete] where no interrupt can be served, as inside an
    interrupt handler: it returns at once when the scheduler is idle and never
    otherwise. *)
Definition wait_no_irq (s : driver) : option driver :=
  if asyncUpdateActive s then None else Some s.

(** [if (_pcb) (this->*_pcb)()].  The callback starts the next transfer, whose
    end calls the callback again when its diff is empty: [n] bounds the depth
    of these calls. *)
Fixpoint call_pcb (n : nat) (s : driver) : option driver :=
  match _pcb s with
  | None => Some s
  | Some buffer2fullCB =>
      match n with
      | O => None
      | S n' => _buffer2fullCB_with (_updateAsync_with wait_no_irq (call_pcb n')) s
      end
  end.

(** [void ILI9488Driver::_subFrameTimerStartcb()] *)
Definition _subFrameTimerStartcb (s : driver) : option driver :=
  if _vsync_spacing s <=? 0 then Some (set_armed Irq_subFrameTimerStartcb2 s)
  else
    let? s := _microToReachScanLine true s in
    let? s := _microToReachScanLine false s in
    let s := if _late_start_ratio_override s
             then set_late_start_ratio_override false s else s in
    Some (set_armed Irq_subFrameTimerStartcb2 s).

(** [void ILI9488Driver::_subFrameTimerStartcb2()] *)
Definition _subFrameTimerStartcb2 (n : nat) (s : driver) : option driver :=
  let? s :=
    (if 0 <? _vsync_spacing s then
       let? (sc, s) := _getScanLine false s in
       let s := set_slinitpos sc s in
       _microToReachScanLine false s
     else Some s) in
  let asl := if 0 <? _vsync_spacing s then _slinitpos s else 2 * ILI9488_T4_TFTHEIGHT in
  let? (r, (x, y, len), s) := read_diff (_diff s) 0 0 0 asl s in
  if negb (r =? 0) || (len =? 0) || negb (x =? _prev_caset_x s) || negb (y =? _prev_paset_y s)
  then finish_transfer (call_pcb n) s
  else
    let s := set_last_y (last_row x y len) s in
    let s := send [Cmd ILI9488_T4_RAMWR] s in
    match _fb s with
    | None => None
    | Some p =>
        let s := send [Pixels (frame_at p s) x y len] s in
        Some (set_armed Irq_dmaInterruptDiff s)
    end.

(** [void ILI9488Driver::_subFrameInterruptDiff()] *)
Definition _subFrameInterruptDiff (n : nat) (s : driver) : option driver :=
  let? s :=
    (if 0 <? _vsync_spacing s then
       let? (during, s) := _nbScanlineDuring_em_async s in
       let m := int_sub (int_sub (int_add (_last_y s) ILI9488_T4_TFTHEIGHT) (_slinitpos s))
                        during in
       Some (if m <? _margin s then set_margin m s else s)
     else Some s) in
  let? (asl, s) :=
    (if 0 <? _vsync_spacing s then
       let? (during, s) := _nbScanlineDuring_em_async s in
       Some (int_add (_slinitpos s) during, s)
     else Some (2 * ILI9488_T4_TFTHEIGHT, s)) in
  let? (r, (x, y, len), s) := read_diff (_diff s) 0 0 0 asl s in
  if r <? 0 then
    (* we are done *)
    finish_transfer (call_pcb n) s
  else if 0 <? r then
    (* we must wait *)
    Some (set_armed Irq_subFrameInterruptDiff2 s)
  else
    (* new instruction *)
    let s := if negb (x =? _prev_caset_x s)
             then set_prev_caset_x x (send [Cmd ILI9488_T4_CASET; Data16 (to_u16 x)] s)
             else s in
    let s := if negb (y =? _prev_paset_y s)
             then set_prev_paset_y y (send [Cmd ILI9488_T4_PASET; Data16 (to_u16 y)] s)
             else s in
    let s := send [Cmd ILI9488_T4_RAMWR] s in
    let s := set_last_y (last_row x y len) s in
    match _fb s with
    | None => None
    | Some p =>
        let s := send [Pixels (frame_at p s) x y len] s in
        Some (set_armed Irq_dmaInterruptDiff s)
    end.

(** The hardware calls the callback that is armed: a timer callback, or
    [_dmaInterruptDiff] and [_subFrameInterruptDiff2], which both enter
    [_subFrameInterruptDiff] with the interrupts masked.  Nothing happens when
    nothing is armed. *)
Definition fire (n : nat) (s : driver) : option driver :=
  match armed s with
  | NoIrq => Some s
  | Irq_subFrameTimerStartcb => _subFrameTimerStartcb (set_armed NoIrq s)
  | Irq_subFrameTimerStartcb2 => _subFrameTimerStartcb2 n (set_armed NoIrq s)
  | Irq_dmaInterruptDiff => _subFrameInterruptDiff n (set_armed NoIrq s)
  | Irq_subFrameInterruptDiff2 => _subFrameInterruptDiff n (set_armed NoIrq s)
  end.

(** [k] hardware events in a row. *)
Fixpoint fire_n (k : nat) (n : nat) (s : driver) : option driver :=
  match k with
  | O => Some s
  | S k' => let? s := fire n s in fire_n k' n s
  end.

(** [while (!done) ;]: the loop body is empty, only interrupts make progress.
    At most [n] hardware events are waited for. *)
Fixpoint spin (done : driver -> bool) (n : nat) (s : driver) : option driver :=
  if done s then Some s
  else
    match n with
    | O => None
    | S n' => let? s := fire n' s in spin done n' s
    end.

(** Modelled from the spec: [waitUpdateAsyncComplete] is declared in
    [ILI9488Driver.h]; it spins until the scheduler reaches idle. *)
Definition waitUpdateAsyncComplete (n : nat) (s : driver) : option driver :=
  spin (fun s => negb (asyncUpdateActive s)) n s.

(** [_updateAsync] called from the main program. *)
Definition _updateAsync (n : nat) (fb : option ptr) (diff : option dptr) (s : driver)
  : option driver :=
  _updateAsync_with (waitUpdateAsyncComplete n) (call_pcb n) fb diff s.

(** [_buffer2fullCB] as the hardware calls it at the end of a transfer. *)
Definition _buffer2fullCB (n : nat) (s : driver) : option driver :=
  _buffer2fullCB_with (_updateAsync_with wait_no_irq (call_pcb n)) s.

(** *** Synchronous uploads *)

(** The [while (1)] loop of [_updateNow]; [_delayMicro] is the passing of time,
    and [n] bounds the number of turns. *)
Fixpoint _updateNow_loop (n : nat) (fb : Frame) (d : dptr)
    (x y len prev_x prev_y : Z) (s : driver) : option driver :=
  match n with
  | O => None
  | S n' =>
      let? (asl, s) :=
        (if 0 <? _vsync_spacing s then
           let? (during, s) := _nbScanlineDuring_em_async s in
           Some (int_add (_slinitpos s) during, s)
         else Some (2 * ILI9488_T4_TFTHEIGHT, s)) in
      let? (r, (x, y, len), s) := read_diff (Some d) x y len asl s in
      if 0 <? r then _updateNow_loop n' fb d x y len prev_x prev_y s
      else if r <? 0 then Some (_endframe (send [Cmd ILI9488_T4_NOP] s))
      else
        let '(s, prev_x) :=
          if negb (x =? prev_x)
          then (send [Cmd ILI9488_T4_CASET; Data16 (to_u16 x)] s, x) else (s, prev_x) in
        let '(s, prev_y) :=
          if negb (y =? prev_y)
          then (send [Cmd ILI9488_T4_PASET; Data16 (to_u16 y)] s, y) else (s, prev_y) in
        let s := send [Cmd ILI9488_T4_RAMWR; Pixels fb x y len] s in
        let? s :=
          (if 0 <? _vsync_spacing s then
             let? (during, s) := _nbScanlineDuring_em_async s in
             let m := int_sub (int_sub (int_add (last_row x y len) ILI9488_T4_TFTHEIGHT)
                                       (_slinitpos s)) during in
             Some (if m <? _margin s then set_margin m s else s)
           else Some s) in
        _updateNow_loop n' fb d x y len prev_x prev_y s
  end.

(** [void ILI9488Driver::_updateNow(const uint16_t* fb, DiffBuffBase* diff)] *)
Definition _updateNow (n : nat) (fb : option Frame) (diff : option dptr) (s : driver)
  : option driver :=
  match fb, diff with
  | Some f, Some d =>
      let? s := waitUpdateAsyncComplete n s in
      let s := _startframe (0 <? _vsync_spacing s) s in
      let s := set_margin ILI9488_T4_NB_SCANLINES s in
      let s := store_diff d (initRead (diff_at d s)) s in
      let? (sc1, (x, y, len), s) := read_diff (Some d) 0 0 0 0 s in
      if sc1 <? 0 then
        let? s :=
          (if 0 <? _vsync_spacing s then
             let? s := _microToReachScanLine true s in
             Some (set_late_start_ratio_override false s)
           else Some s) in
        Some (_endframe s)
      else
        let? s :=
          (if 0 <? _vsync_spacing s then
             let? s := _microToReachScanLine true s in
             let? s := _microToReachScanLine false s in
             let s := if _late_start_ratio_override s
                      then set_late_start_ratio_override false s else s in
             let? (sc, s) := _getScanLine false s in
             let s := set_slinitpos sc s in
             _microToReachScanLine false s
           else Some s) in
        let s := send [Cmd ILI9488_T4_CASET; Data16 (to_u16 x); Data16 ILI9488_T4_TFTWIDTH;
                       Cmd ILI9488_T4_PASET; Data16 (to_u16 y); Data16 ILI9488_T4_TFTHEIGHT] s in
        _updateNow_loop n f d x y len x y s
  | _, _ => Some s
  end.

(** [void ILI9488Driver::_updateRectNow(const uint16_t* sub_fb, int xmin,
    int xmax, int ymin, int ymax, int stride)] *)
Definition _updateRectNow (n : nat) (sub_fb : option Frame) (b : box) (stride : Z)
    (s : driver) : option driver :=
  let r := rotationBox (_rotation s) b in
  match sub_fb with
  | None => Some s
  | Some f =>
      if (xmax r <? xmin r) || (ymax r <? ymin r) then Some s
      else
        let? s := waitUpdateAsyncComplete n s in
        let s := _startframe false s in
        let s := send [Cmd ILI9488_T4_CASET; Data16 (to_u16 (xmin r)); Data16 (to_u16 (xmax r));
                       Cmd ILI9488_T4_PASET; Data16 (to_u16 (ymin r)); Data16 (to_u16 (ymax r));
                       Cmd ILI9488_T4_RAMWR; RectPixels f r stride; Cmd ILI9488_T4_NOP] s in
        Some (_endframe s)
  end.

(** *** Calls into the diff buffers *)

Definition is_null {A} (p : option A) : bool :=
  match p with None => true | Some _ => false end.

(** [diff->computeDiff(fb_old, fb, getRotation(), _diff_gap, copy,
    _compare_mask)].  Modelled from the spec: with [copy] the reference is
    overwritten with the new frame in the same pass, as [copyfb] would. *)
Definition do_computeDiff (d : option dptr) (fb_old : option ptr) (fb : Frame) (copy : bool)
    (s : driver) : option driver :=
  match d, fb_old with
  | Some d, Some p =>
      let old := frame_at p s in
      let s := store_diff d (computeDiff (diff_at d s) old fb (_rotation s) (_diff_gap s)
                               copy (_compare_mask s)) s in
      Some (if copy then store_frame p (copyfb old fb (_rotation s)) s else s)
  | _, _ => None
  end.

(** [diff->computeDiff(fb_old, diff_old, fb, xmin, xmax, ymin, ymax, stride,
    _rotation, _diff_gap, copy, _compare_mask)] *)
Definition do_computeDiff_region (d : option dptr) (fb_old : option ptr)
    (diff_old : option dptr) (fb : Frame) (b : box) (stride : Z) (copy : bool)
    (s : driver) : option driver :=
  match d, fb_old with
  | Some d, Some p =>
      let old := frame_at p s in
      let prev := option_map (fun d' => diff_at d' s) diff_old in
      let s := store_diff d (computeDiff_region (diff_at d s) old prev fb b stride
                               (_rotation s) (_diff_gap s) copy (_compare_mask s)) s in
      Some (if copy then store_frame p (copyfb_region old fb b stride (_rotation s)) s else s)
  | _, _ => None
  end.

(** [DiffBuff::copyfb(fb_dest, fb, getRotation())] *)
Definition do_copyfb (fb_dest : option ptr) (fb : Frame) (s : driver) : option driver :=
  match fb_dest with
  | Some p => Some (store_frame p (copyfb (frame_at p s) fb (_rotation s)) s)
  | None => None
  end.

(** [DiffBuffBase::copyfb(fb_dest, fb, xmin, xmax, ymin, ymax, stride,
    _rotation)] *)
Definition do_copyfb_region (fb_dest : option ptr) (fb : Frame) (b : box) (stride : Z)
    (s : driver) : option driver :=
  match fb_dest with
  | Some p => Some (store_frame p (copyfb_region (frame_at p s) fb b stride (_rotation s)) s)
  | None => None
  end.

(** *** Configuration *)

(** [void ILI9488Driver::setScroll(int offset)] *)
Definition setScroll (n : nat) (offset : Z) (s : driver) : option driver :=
  let offset := scroll_address offset in
  let? s := waitUpdateAsyncComplete n s in
  Some (send [Cmd ILI9488_T4_VSCRSADD; Data16 (to_u16 offset);
              Cmd ILI9488_T4_RAMWR; Cmd ILI9488_T4_NOP] s).

(** [void ILI9488Driver::setRotation(uint8_t m)] *)
Definition setRotation (n : nat) (m : Z) (s : driver) : option driver :=
  let m := _clip m 0 3 in
  if m =? _rotation s then Some s
  else
    let? s := waitUpdateAsyncComplete n s in
    let s := set_mirrorfb None s in
    let s := set_ongoingDiff None s in
    let s := statsReset s in
    let s := set_rotation m s in
    let s :=
      if (m =? 0) || (m =? 2)
      then set_height ILI9488_T4_TFTHEIGHT (set_width ILI9488_T4_TFTWIDTH s)
      else if (m =? 1) || (m =? 3)
      then set_height ILI9488_T4_TFTWIDTH (set_width ILI9488_T4_TFTHEIGHT s)
      else s in
    Some (resync s).

(** [while (_getScanLine(true) != 0);] when [until_zero], and
    [while (_getScanLine(true) == 0);] otherwise; at most [n] reads. *)
Fixpoint poll_scanline (until_zero : bool) (n : nat) (s : driver) : option driver :=
  match n with
  | O => None
  | S n' =>
      let? (sc, s) := _getScanLine true s in
      if Bool.eqb (sc =? 0) until_zero then Some s else poll_scanline until_zero n' s
  end.

(** C's [round] on a float: to the nearest integer, halves away from zero. *)
Definition float_round (f : float) : option Z :=
  match f with
  | S754_zero _ => Some 0
  | S754_finite sg m e =>
      let v := match e with
               | Zneg _ => (2 * Zpos m + 2 ^ (- e)) / (2 * 2 ^ (- e))
               | _ => Zpos m * 2 ^ e
               end in
      Some (if sg then - v else v)
  | _ => None
  end.

(** [void ILI9488Driver::_sampleRefreshRate()]: ten frames are timed; the
    reading of [em] closes the measure. *)
Definition _sampleRefreshRate (n : nat) (s : driver) : option driver :=
  let frame_start s := let? s := poll_scanline true n s in poll_scanline false n s in
  let? s := frame_start s in
  let? s := Nat.iter 10 (fun r => let? s := r in frame_start s) (Some s) in
  let? (em, s) := tick s in
  let? p := float_round (fdiv (float_of_Z (to_u32 em)) (float_of_Z 10)) in
  Some (set_period (to_u32 p) s).

(** [void ILI9488Driver::setRefreshMode(int mode)] *)
Definition setRefreshMode (n : nat) (mode : Z) (s : driver) : option driver :=
  if (mode <? 0) || (31 <? mode) then Some s
  else
    let s := set_refreshmode mode s in
    let '(mode, diva) := if 16 <=? mode then (int_sub mode 16, 1) else (mode, 0) in
    let? s := waitUpdateAsyncComplete n s in
    let s := send [Cmd ILI9488_T4_FRMCTR1; Data8 diva; Data8 (to_u8 (16 + mode))] s in
    let? s := _sampleRefreshRate n s in
    let s := statsReset s in
    Some (resync s).

(** [void ILI9488Driver::setFramebuffers(uint16_t* fb1, uint16_t* fb2)] *)
Definition setFramebuffers (n : nat) (fb1 fb2 : option ptr) (s : driver) : option driver :=
  let? s := waitUpdateAsyncComplete n s in
  let s := set_mirrorfb None s in
  let s := set_ongoingDiff None s in
  let s := set_fb2full false s in
  let s := if is_null fb1 then set_fb2 fb1 (set_fb1 fb2 s) else set_fb2 fb2 (set_fb1 fb1 s) in
  let s := match _fb1 s with Some p => store_frame p zero_frame s | None => s end in
  let s := match _fb2 s with Some p => store_frame p zero_frame s | None => s end in
  Some (resync s).

(** *** Update *)

(** The block of [update] that launches an upload of [_fb1] at once: a full
    redraw through the dummy diff when [full], a differential one otherwise. *)
Definition launch_now (n : nat) (full : bool) (fb : Frame) (s : driver) : option driver :=
  let d := if full then Some (_dummydiff1 s) else _diff1 s in
  let? s := do_computeDiff d (_fb1 s) fb true s in
  _updateAsync n (_fb1 s) d s.

(** [void ILI9488Driver::update(const uint16_t* fb, bool force_full_redraw)].
    In triple buffering the method tests [asyncUpdateActive] again with the
    interrupts masked: [w1] hardware events are served before the first
    [noInterrupts()], and [w2] while the diff is computed and the frame copied. *)
Definition update (w1 w2 : nat) (n : nat) (fb : Frame) (force_full_redraw : bool)
    (s : driver) : option driver :=
  let s := set_ongoingDiff None s in
  match bufferingMode s with
  | NO_BUFFERING =>
      let? s := waitUpdateAsyncComplete n s in
      let s := set_mirrorfb None s in
      let s := store_diff (_dummydiff1 s) (computeDummyDiff (diff_at (_dummydiff1 s) s)) s in
      _updateNow n (Some fb) (Some (_dummydiff1 s)) s
  | DOUBLE_BUFFERING =>
      if (_vsync_spacing s =? -1) && asyncUpdateActive s then Some s (* just drop the frame *)
      else if is_null (_diff1 s) || is_null (_mirrorfb s) || force_full_redraw then
        let? s := waitUpdateAsyncComplete n s in
        let? s := launch_now n true fb s in
        Some (set_mirrorfb (_fb1 s) s)
      else if is_null (_diff2 s) then
        let? s := waitUpdateAsyncComplete n s in
        let? s := launch_now n (is_null (_mirrorfb s) || force_full_redraw) fb s in
        Some (set_mirrorfb (_fb1 s) s)
      else if asyncUpdateActive s then
        let? s := do_computeDiff (_diff2 s) (_fb1 s) fb false s in
        let? s := waitUpdateAsyncComplete n s in
        let? s := do_copyfb (_fb1 s) fb s in
        let s := _swapdiff s in
        let? s := _updateAsync n (_fb1 s) (_diff1 s) s in
        Some (set_mirrorfb (_fb1 s) s)
      else
        let? s := launch_now n false fb s in
        Some (set_mirrorfb (_fb1 s) s)
  | TRIPLE_BUFFERING =>
      if negb (asyncUpdateActive s) then
        let? s := launch_now n (is_null (_diff2 s) || is_null (_mirrorfb s)
                                || force_full_redraw) fb s in
        Some (set_mirrorfb (_fb1 s) s)
      else
        (* there is an update in progress *)
        let? s := (if negb (_vsync_spacing s =? -1)
                   then spin (fun s => negb (_fb2full s)) n s else Some s) in
        let? s := fire_n w1 n s in
        if asyncUpdateActive s then
          let s := _setCB None s in
          if negb (is_null (_mirrorfb s)) && negb force_full_redraw && negb (is_null (_diff2 s))
          then
            let? s := do_computeDiff (_diff2 s) (_fb1 s) fb false s in
            let? s := do_copyfb (_fb2 s) fb s in
            let? s := fire_n w2 n s in
            if asyncUpdateActive s then
              let s := _setCB (Some buffer2fullCB) s in
              let s := set_fb2full true s in
              Some (set_mirrorfb (_fb2 s) s)
            else
              let s := _swapdiff s in
              let s := _swapfb s in
              let s := set_mirrorfb (_fb1 s) s in
              _updateAsync n (_fb1 s) (_diff1 s) s
          else
            let? s := do_computeDiff (Some (_dummydiff2 s)) (_fb1 s) fb false s in
            let? s := do_copyfb (_fb2 s) fb s in
            let? s := fire_n w2 n s in
            if asyncUpdateActive s then
              let s := _setCB (Some buffer2fullCB) s in
              let s := set_fb2full true s in
              Some (set_mirrorfb None s)
            else
              let s := _swapdummydiff s in
              let s := _swapfb s in
              let s := set_mirrorfb (_fb1 s) s in
              _updateAsync n (_fb1 s) (Some (_dummydiff1 s)) s
        else
          let? s := launch_now n (is_null (_mirrorfb s) || force_full_redraw
                                  || is_null (_diff2 s)) fb s in
          Some (set_mirrorfb (_fb1 s) s)
  end.

(** The end of the two differential branches of [updateRegion]: the diffs are
    swapped, then the region is redrawn or left pending. *)
Definition region_finish (n : nat) (redrawNow : bool) (s : driver) : option driver :=
  let s := _swapdiff s in
  if redrawNow then
    let? s := _updateAsync n (_fb1 s) (_diff1 s) s in
    let s := set_mirrorfb (_fb1 s) s in
    Some (set_ongoingDiff None s)
  else
    let s := set_mirrorfb None s in
    Some (set_ongoingDiff (_diff1 s) s).

(** The diff of the region against [_fb1], computed into [_diff2] while an
    upload may be in progress, and the copy of the region into [_fb1]. *)
Definition region_diff (n : nat) (diff_old : option dptr) (fb : Frame) (b : box) (stride : Z)
    (s : driver) : option driver :=
  if asyncUpdateActive s then
    let? s := do_computeDiff_region (_diff2 s) (_fb1 s) diff_old fb b stride false s in
    let? s := waitUpdateAsyncComplete n s in
    do_copyfb_region (_fb1 s) fb b stride s
  else do_computeDiff_region (_diff2 s) (_fb1 s) diff_old fb b stride true s.

(** The [default:] branch of the switch of [updateRegion], which treats double
    and triple buffering the same way. *)
Definition updateRegion_buffered (n : nat) (redrawNow : bool) (fb : Frame) (b : box)
    (stride : Z) (s : driver) : option driver :=
  if is_null (_diff2 s) then
    (* no differential update *)
    let s := set_ongoingDiff None s in
    let? s := waitUpdateAsyncComplete n s in
    let? s := do_computeDiff_region (Some (_dummydiff1 s)) (_fb1 s) None fb b stride true s in
    if redrawNow then
      let? s := (if negb (is_null (_mirrorfb s))
                 then _updateRectNow n (Some fb) b stride s
                 else _updateAsync n (_fb1 s) (Some (_dummydiff1 s)) s) in
      Some (set_mirrorfb (_fb1 s) s)
    else Some (set_mirrorfb None s)
  else if negb (is_null (_mirrorfb s)) then
    (* the framebuffer mirrors the screen *)
    let? s := region_diff n None fb b stride s in
    region_finish n redrawNow s
  else if negb (is_null (_ongoingDiff s)) then
    (* we are in advance with respect to the screen *)
    let? s := region_diff n (_diff1 s) fb b stride s in
    region_finish n redrawNow s
  else
    (* the framebuffer does not mirror the screen *)
    let? s := waitUpdateAsyncComplete n s in
    let? s := do_copyfb_region (_fb1 s) fb b stride s in
    if redrawNow then
      let? s := do_computeDiff (Some (_dummydiff1 s)) (_fb1 s) fb false s in
      let? s := _updateAsync n (_fb1 s) (Some (_dummydiff1 s)) s in
      Some (set_mirrorfb (_fb1 s) s)
    else Some s.

(** [void ILI9488Driver::updateRegion(bool redrawNow, const uint16_t* fb,
    int xmin, int xmax, int ymin, int ymax, int stride)] *)
Definition updateRegion (n : nat) (redrawNow : bool) (fb : Frame) (b : box) (stride : Z)
    (s : driver) : option driver :=
  let stride := if stride <? 0 then int_add (int_sub (xmax b) (xmin b)) 1 else stride in
  match bufferingMode s with
  | NO_BUFFERING =>
      let s := set_mirrorfb None s in
      let s := set_ongoingDiff None s in
      _updateRectNow n (Some fb) b stride s
  | TRIPLE_BUFFERING =>
      (* wait until _fb2 is free, then as in double buffering *)
      let? s := spin (fun s => negb (_fb2full s)) n s in
      updateRegion_buffered n redrawNow fb b stride s
  | DOUBLE_BUFFERING => updateRegion_buffered n redrawNow fb b stride s
  end.

(** *** What an interrupt may change

    The fields that only the scheduler writes while a transfer is in flight:
    [graft s s'] is [s] with these fields taken from [s']. *)
Definition graft (s s' : driver) : driver :=
  mkDriver (_width s) (_height s) (_rotation s) (_refreshmode s)
    (_late_start_ratio_override s') (_diff_gap s) (_vsync_spacing s) (_diff1 s) (_diff2 s)
    (_fb1 s) (_fb2 s) (_dummydiff1 s) (_dummydiff2 s) (_mirrorfb s) (_ongoingDiff s)
    (_fb2full s) (_compare_mask s) (_period s) (_period_mode0 s) (_synced_scanline s')
    (_pcb s) (_fb s) (_diff s) (_dma_state s) (_last_y s') (_margin s') (_slinitpos s')
    (_prev_caset_x s') (_prev_paset_y s') (_stats_nb_frame s) (_nbteared s)
    (_statsvar_margin s) (armed s') (mem s) (diffs s') (bus s') (clock s').

(** [s'] differs from [s] in these fields only. *)
Definition sched_only (s s' : driver) : Prop := s' = graft s s'.

(** The fields that tell which buffers the driver owns and which of them
    mirrors the screen, and the configuration: [keep_policy s s'] is [s'] with
    these fields taken from [s]. *)
Definition keep_policy (s s' : driver) : driver :=
  mkDriver (_width s) (_height s) (_rotation s) (_refreshmode s)
    (_late_start_ratio_override s') (_diff_gap s) (_vsync_spacing s) (_diff1 s) (_diff2 s)
    (_fb1 s) (_fb2 s) (_dummydiff1 s) (_dummydiff2 s) (_mirrorfb s) (_ongoingDiff s)
    (_fb2full s) (_compare_mask s) (_period s) (_period_mode0 s) (_synced_scanline s')
    (_pcb s') (_fb s') (_diff s') (_dma_state s') (_last_y s') (_margin s') (_slinitpos s')
    (_prev_caset_x s') (_prev_paset_y s') (_stats_nb_frame s') (_nbteared s')
    (_statsvar_margin s') (armed s') (mem s') (diffs s') (bus s') (clock s').

(** [s'] has the buffers, the mirror and the configuration of [s]. *)
Definition same_policy (s s' : driver) : Prop := s' = keep_policy s s'.

(** The state in which [_updateAsync] opens the diff of the transfer it
    starts. *)
Definition launching (p : ptr) (d : dptr) (s : driver) : driver :=
  set_diff (Some d) (set_fb (Some p) (set_dma_state ILI9488_T4_DMA_ON
    (set_margin ILI9488_T4_NB_SCANLINES (_startframe (0 <? _vsync_spacing s) s)))).

(** The state in which [_updateAsync] returns when the diff is not empty:
    [o] is the diff object after its first read, which gave the scanline [sc1]
    and the position [x], [y] of the first span. *)
Definition launched (p : ptr) (d : dptr) (sc1 x y : Z) (o : diffbuf) (s : driver) : driver :=
  let s := store_diff d o (store_diff d (initRead (diff_at d s)) (launching p d s)) in
  let s := send [Cmd ILI9488_T4_CASET; Data16 (to_u16 x); Data16 ILI9488_T4_TFTWIDTH;
                 Cmd ILI9488_T4_PASET; Data16 (to_u16 y); Data16 ILI9488_T4_TFTHEIGHT] s in
  set_armed Irq_subFrameTimerStartcb (set_slinitpos sc1 (set_prev_paset_y y (set_prev_caset_x x s))).

(** The first half of [_buffer2fullCB]: the secondary buffer becomes the
    primary one, with the diff that was computed for it. *)
Definition promote (s : driver) : driver :=
  let s := match _mirrorfb s with
           | Some _ => _swapdiff s
           | None => _swapdummydiff s
           end in
  let s := _swapfb s in
  let s := set_mirrorfb (_fb1 s) s in
  set_fb2full false s.

(** The diff that [_buffer2fullCB] uploads, as seen before the swap: a real
    diff in [_diff2] when [_mirrorfb] is set, the dummy diff otherwise. *)
Definition pending_diff (s : driver) : option dptr :=
  match _mirrorfb s with
  | Some _ => _diff2 s
  | None => Some (_dummydiff2 s)
  end.

(** A completion callback is installed only while the secondary buffer is
    full. *)
Definition queue_inv (s : driver) : Prop := _pcb s <> None -> _fb2full s = true.

(** The slack that [_subFrameInterruptDiff] computes when the beam has advanced
    by [during] scanlines: the rows left before the beam, on its next pass,
    reaches the last row written. *)
Definition slack (s : driver) (during : Z) : Z :=
  int_sub (int_sub (int_add (_last_y s) ILI9488_T4_TFTHEIGHT) (_slinitpos s)) during.

(** The slack that the hardware event armed in [s] is going to measure: the
    two timer callbacks that start a transfer measure none, and nothing is
    measured without vsync. *)
Definition measured (s : driver) : option Z :=
  if 0 <? _vsync_spacing s then
    match armed s, clock s with
    | Irq_dmaInterruptDiff, during :: _ => Some (slack s during)
    | Irq_subFrameInterruptDiff2, during :: _ => Some (slack s during)
    | _, _ => None
    end
  else None.

(** The running minimum kept in [_margin]. *)
Definition min_margin (margin : Z) (m : option Z) : Z :=
  match m with
  | Some m => if m <? margin then m else margin
  | None => margin
  end.

(** The states from which the first [k] hardware events start. *)
Fixpoint states_before (k : nat) (n : nat) (s : driver) : list driver :=
  match k with
  | O => []
  | S k' => s :: match fire n s with
                 | Some s' => states_before k' n s'
                 | None => []
                 end
  end.

(** The minimum of the slacks measured by the events that start from the
    states [l], below the initial margin [ILI9488_T4_NB_SCANLINES]. *)
Definition frame_margin (l : list driver) : Z :=
  fold_left (fun m s => min_margin m (measured s)) l ILI9488_T4_NB_SCANLINES.

(** *** More of the buffering policy *)

(** [void ILI9488Driver::setDiffBuffers(DiffBuffBase* diff1, DiffBuffBase*
    diff2)] *)
Definition setDiffBuffers (n : nat) (diff1 diff2 : option dptr) (s : driver)
  : option driver :=
  let? s := waitUpdateAsyncComplete n s in
  Some (if is_null diff1 then set_diff2 diff1 (set_diff1 diff2 s)
        else set_diff2 diff2 (set_diff1 diff1 s)).

(** [for (int i = 0; i < count; i++) _write16BitColor(color);] *)
Definition fill_pixels (count : Z) (color : Z) (s : driver) : driver :=
  Nat.iter (Z.to_nat count) (send (_write16BitColor color false)) s.

(** [void ILI9488Driver::clear(uint16_t color)] *)
Definition clear (n : nat) (color : Z) (s : driver) : option driver :=
  let color := to_u16 color in
  let? s := waitUpdateAsyncComplete n s in
  let s := send [Cmd ILI9488_T4_PASET; Data16 0; Data16 (to_u16 (ILI9488_T4_TFTHEIGHT - 1));
                 Cmd ILI9488_T4_CASET; Data16 0; Data16 (to_u16 (ILI9488_T4_TFTWIDTH - 1));
                 Cmd ILI9488_T4_RAMWR] s in
  let s := fill_pixels ILI9488_T4_NB_PIXELS color s in
  let s := send [Cmd ILI9488_T4_NOP] s in
  let s :=
    match _fb1 s with
    | Some p =>
        let s := store_frame p (repeat color (Z.to_nat ILI9488_T4_NB_PIXELS)) s in
        let s := set_mirrorfb (_fb1 s) s in
        set_ongoingDiff None s
    | None => s
    end in
  Some (resync s).

(** [void ILI9488Driver::_drawRect(int xmin, int xmax, int ymin, int ymax,
    uint16_t color)] *)
Definition _drawRect (n : nat) (b : box) (color : Z) (s : driver) : option driver :=
  let color := to_u16 color in
  let? s := waitUpdateAsyncComplete n s in
  let s := send [Cmd ILI9488_T4_PASET; Data16 (to_u16 (ymin b)); Data16 (to_u16 (ymax b));
                 Cmd ILI9488_T4_CASET; Data16 (to_u16 (xmin b)); Data16 (to_u16 (xmax b));
                 Cmd ILI9488_T4_RAMWR] s in
  let s := fill_pixels (int_mul (int_add (int_sub (xmax b) (xmin b)) 1)
                                (int_add (int_sub (ymax b) (ymin b)) 1)) color s in
  let s := send [Cmd ILI9488_T4_NOP] s in
  let s := set_mirrorfb None s in
  Some (set_ongoingDiff None s).

(** The settings and the pixel memory, which no interrupt writes. *)
Definition settings (s : driver) :=
  (_width s, _height s, _rotation s, _refreshmode s, _diff_gap s, _vsync_spacing s,
   _compare_mask s, _period s, _period_mode0 s, mem s).

(** The owned framebuffers and the diff buffers, in any order. *)
Definition same_buffers (s s' : driver) : Prop :=
  ((_fb1 s' = _fb1 s /\ _fb2 s' = _fb2 s) \/ (_fb1 s' = _fb2 s /\ _fb2 s' = _fb1 s)) /\
  ((_diff1 s' = _diff1 s /\ _diff2 s' = _diff2 s) \/
   (_diff1 s' = _diff2 s /\ _diff2 s' = _diff1 s)) /\
  ((_dummydiff1 s' = _dummydiff1 s /\ _dummydiff2 s' = _dummydiff2 s) \/
   (_dummydiff1 s' = _dummydiff2 s /\ _dummydiff2 s' = _dummydiff1 s)).

(** [s'] has the settings and the memory of [s], and the same buffers. *)
Definition keeps_settings (s s' : driver) : Prop :=
  settings s' = settings s /\ same_buffers s s'.

(** [s'] differs from [s] by what an upload changes: the buffers, the mirror,
    the settings, the memory, the completion callback and the state of the
    scheduler are those of [s]. *)
Definition upload_only (s s' : driver) : Prop :=
  same_policy s s' /\ keeps_settings s s' /\ _pcb s' = _pcb s /\
  _dma_state s' = _dma_state s.

(** The size of the frames agrees with the orientation: 320 x 480 in the
    portrait orientations 0 and 2, 480 x 320 in the landscape ones. *)
Definition oriented (s : driver) : Prop :=
  0 <= _rotation s <= 3 /\
  (_width s, _height s) =
    if Z.even (_rotation s) then (ILI9488_T4_TFTWIDTH, ILI9488_T4_TFTHEIGHT)
    else (ILI9488_T4_TFTHEIGHT, ILI9488_T4_TFTWIDTH).

(** Whether a call returns within its bound. *)
Definition returned {A} (o : option A) : bool :=
  match o with Some _ => true | None => false end.

(** The state a call leaves, or the state before it when it does not
    return. *)
Definition after (s : driver) (call : driver -> option driver) : driver :=
  default s (call s).

End Driver.

(** ** Example drivers

    The diff buffers are lists of spans and a frame has 480 scanlines.  The
    framebuffers hold four pixels; the owned buffers are at the addresses 10
    and 11, the two diff objects are 2 and 3, and the dummy diffs 0 and 1. *)

Section Examples.

#[local] Existing Instance ListDiff.

Definition example_header : DriverHeader := {| ILI9488_T4_NB_SCANLINES := 480 |}.

#[local] Existing Instance example_header.

Definition plain_diff (dummy : bool) : list_diff := mkListDiff dummy [] [] false.

(** Triple buffering with two diff buffers, the scheduler idle, before any
    frame is submitted; [ticks] are the readings the counters will give. *)
Definition example_driver (vsync_spacing : Z) (ticks : list Z) : driver :=
  mkDriver 320 480 0 0 true 4 vsync_spacing (Some 2%nat) (Some 3%nat)
    (Some 10%nat) (Some 11%nat) 0%nat 1%nat None None false 0
    16667 16667 0 None None None ILI9488_T4_DMA_IDLE 0 0 0 0 0 0 0 [] NoIrq
    (<[10%nat := [0; 0; 0; 0]]> (<[11%nat := [0; 0; 0; 0]]> ∅))
    (<[0%nat := plain_diff true]> (<[1%nat := plain_diff true]>
       (<[2%nat := plain_diff false]> (<[3%nat := plain_diff false]> ∅))))
    [] ticks.

(** The upload of a first frame is in progress. *)
Definition uploading (vsync_spacing : Z) (ticks : list Z) : driver :=
  after (example_driver vsync_spacing ticks) (update 0 0 8 [1; 1; 1; 1] false).

(** A second frame is queued behind it. *)
Definition queued (vsync_spacing : Z) : driver :=
  after (uploading vsync_spacing []) (update 0 0 8 [2; 2; 2; 2] false).

(** Double buffering without diff buffers; the framebuffer mirrors the
    screen. *)
Definition double_mirrored : driver :=
  set_mirrorfb (Some 10%nat) (set_diff2 None (set_diff1 None (set_fb2 None
    (example_driver 0 [])))).

(** Double buffering, an upload in progress, frames dropped when busy. *)
Definition double_uploading : driver :=
  after (set_fb2 None (example_driver (-1) [])) (update 0 0 8 [1; 1; 1; 1] false).

(** Double buffering, an upload in progress, for any [vsync_spacing]. *)
Definition double_uploading_at (vsync_spacing : Z) : driver :=
  after (set_fb2 None (example_driver vsync_spacing [])) (update 0 0 8 [1; 1; 1; 1] false).

(** Double buffering without diff buffers, frames paced on every second
    refresh: a first frame has been uploaded, and the beam overtook it by 200
    scanlines. *)
Definition double_teared : driver :=
  after (after (set_diff2 None (set_diff1 None (set_fb2 None
                  (example_driver 2 [10; 5000; 1000; 1000]))))
           (update 0 0 8 [1; 1; 1; 1] false))
    (waitUpdateAsyncComplete 10).

(** The frames whose pixels were sent to the panel, in the order of the
    spans. *)
Definition uploaded (evs : list bus_ev) : list Frame :=
  flat_map (fun e => match e with Pixels f _ _ _ => [f] | _ => [] end) evs.

(** Frames are dropped when busy; a third frame replaces the queued one,
    and the upload of the first ends while it is copied. *)
Definition stale_queue : driver :=
  after (queued (-1)) (update 0 3 8 [3; 3; 3; 3] false).

(** No framebuffer is owned. *)
Definition unbuffered : driver := set_fb2 None (set_fb1 None (example_driver 0 [])).

(** A frame of the size of the panel in which neighbouring pixels differ:
    the pixel at the index [k] holds the 16 low bits of [k]. *)
Definition ramp_frame : Frame := map to_u16 (seqZ 0 ILI9488_T4_NB_PIXELS).

(** What the panel answers while eleven frames are timed (scanline 0, then a
    later one), and the microseconds that ten of them took. *)
Definition sampling_ticks : list Z := concat (repeat [0; 5] 11) ++ [166670].

(** A touch in the middle of the upper half of the panel, with a linear
    calibration. *)
Definition example_touch : touch := mkTouch 255 false 2000 1000 500 400 true (0, 4000, 0, 4000).
Definition linear_mapX (v lo hi : Z) : Z := (v - lo) * ILI9488_T4_TFTWIDTH / (hi - lo).
Definition linear_mapY (v lo hi : Z) : Z := (v - lo) * ILI9488_T4_TFTHEIGHT / (hi - lo).

(** One pixel in the corner of the panel. *)
Definition corner : box := mkBox 0 0 0 0.

End Examples.

(** * Properties *)

Section DriverProperties.

Context `{DiffBuffBase} `{DriverHeader}.

Notation "'let?' x ':=' e 'in' k" :=
  (match e with Some x => k | None => None end)
  (at level 10, x pattern, e at level 200, k at level 200, only parsing).

(** ** Calls that return *)

Lemma after_returned (s : driver) (call : driver -> option driver) :
  returned (call s) = true -> call s = Some (after s call).
Proof. unfold after. now destruct (call s). Qed.

(** ** Machine integers *)

Lemma to_int_small (z : Z) : INT_MIN <= z <= INT_MAX -> to_int z = z.
Proof.
  unfold to_int, INT_MIN, INT_MAX. intros Hz.
  rewrite Z.mod_small by lia. lia.
Qed.

Lemma to_int_range (z : Z) : INT_MIN <= to_int z <= INT_MAX.
Proof.
  unfold to_int, INT_MIN, INT_MAX.
  pose proof (Z.mod_pos_bound (z + 2 ^ 31) (2 ^ 32)). lia.
Qed.

Lemma to_int_add_idemp_r (a b : Z) : to_int (a + to_int b) = to_int (a + b).
Proof.
  unfold to_int.
  replace (a + ((b + 2 ^ 31) mod 2 ^ 32 - 2 ^ 31) + 2 ^ 31)
    with (a + (b + 2 ^ 31) mod 2 ^ 32) by lia.
  rewrite Zplus_mod_idemp_r. do 2 f_equal. lia.
Qed.

Lemma to_int_mul_idemp_l (a b : Z) : to_int (to_int a * b) = to_int (a * b).
Proof.
  unfold to_int.
  replace (((a + 2 ^ 31) mod 2 ^ 32 - 2 ^ 31) * b + 2 ^ 31)
    with ((a + 2 ^ 31) mod 2 ^ 32 * b + (2 ^ 31 - 2 ^ 31 * b)) by lia.
  rewrite <- Zplus_mod_idemp_l, Zmult_mod_idemp_l, Zplus_mod_idemp_l.
  do 2 f_equal. lia.
Qed.

Lemma to_u16_small (z : Z) : 0 <= z < 2 ^ 16 -> to_u16 z = z.
Proof. intros Hz. unfold to_u16. now rewrite Z.mod_small. Qed.

Lemma to_u32_small (z : Z) : 0 <= z < 2 ^ 32 -> to_u32 z = z.
Proof. intros Hz. unfold to_u32. now rewrite Z.mod_small. Qed.

Lemma to_u64_small (z : Z) : 0 <= z < 2 ^ 64 -> to_u64 z = z.
Proof. intros Hz. unfold to_u64. now rewrite Z.mod_small. Qed.

Lemma to_u32_succ_neq (z : Z) : 0 <= z < 2 ^ 32 -> to_u32 (z + 1) <> z.
Proof.
  intros Hz. unfold to_u32.
  destruct (Z.eq_dec z (2 ^ 32 - 1)) as [-> | Hne].
  - now vm_compute.
  - rewrite Z.mod_small by lia. lia.
Qed.

(** ** The scroll address *)

Lemma scroll_address_nonneg (offset : Z) :
  0 <= offset <= INT_MAX -> scroll_address offset = offset mod 320.
Proof.
  intros Ho. unfold scroll_address.
  destruct (offset <? 0) eqn:E; [apply Z.ltb_lt in E; lia |].
  unfold int_rem. rewrite Z.rem_mod_nonneg by lia.
  apply to_int_small.
  pose proof (Z.mod_pos_bound offset 320). unfold INT_MIN, INT_MAX in *. lia.
Qed.

Lemma scroll_address_negative (offset : Z) :
  INT_MIN < offset < 0 ->
  let k := - offset / ILI9488_T4_TFTHEIGHT + 1 in
  0 < k /\ 0 < offset + k * ILI9488_T4_TFTHEIGHT <= ILI9488_T4_TFTHEIGHT /\
  scroll_address offset = (offset + k * ILI9488_T4_TFTHEIGHT) mod 320.
Proof.
  intros Ho k. unfold INT_MIN, INT_MAX in *.
  assert (Hq : 0 <= - offset / ILI9488_T4_TFTHEIGHT) by (apply Z.div_pos; unfold ILI9488_T4_TFTHEIGHT; lia).
  pose proof (Z.div_mod (- offset) ILI9488_T4_TFTHEIGHT ltac:(discriminate)) as Hdm.
  pose proof (Z.mod_pos_bound (- offset) ILI9488_T4_TFTHEIGHT ltac:(reflexivity)) as Hm.
  assert (Hsum : offset + k * ILI9488_T4_TFTHEIGHT
                 = ILI9488_T4_TFTHEIGHT - (- offset) mod ILI9488_T4_TFTHEIGHT) by (unfold k; lia).
  split; [unfold k; lia |]. split; [lia |].
  unfold scroll_address.
  destruct (offset <? 0) eqn:E; [| apply Z.ltb_ge in E; lia].
  unfold int_add, int_mul, int_div, int_neg.
  rewrite (to_int_small (- offset)) by (unfold INT_MIN, INT_MAX; lia).
  rewrite Z.quot_div_nonneg by (unfold ILI9488_T4_TFTHEIGHT; lia).
  rewrite (to_int_small (- offset / ILI9488_T4_TFTHEIGHT)).
  2:{ unfold INT_MIN, INT_MAX. split; [lia |].
      assert (- offset / ILI9488_T4_TFTHEIGHT <= - offset); [| lia].
      apply Z.div_le_upper_bound; unfold ILI9488_T4_TFTHEIGHT; lia. }
  rewrite to_int_mul_idemp_l, to_int_add_idemp_r. fold k.
  rewrite (to_int_small (offset + k * ILI9488_T4_TFTHEIGHT))
    by (unfold INT_MIN, INT_MAX, ILI9488_T4_TFTHEIGHT in *; lia).
  unfold int_rem. rewrite Z.rem_mod_nonneg by lia.
  apply to_int_small.
  pose proof (Z.mod_pos_bound (offset + k * ILI9488_T4_TFTHEIGHT) 320).
  unfold INT_MIN, INT_MAX. lia.
Qed.

Lemma scroll_address_range (offset : Z) :
  INT_MIN <= offset <= INT_MAX -> 0 <= scroll_address offset < 320.
Proof.
  intros Ho.
  destruct (Z.eq_dec offset INT_MIN) as [-> | Hne]; [now vm_compute |].
  destruct (Z_lt_le_dec offset 0) as [Hneg | Hpos].
  - destruct (scroll_address_negative offset ltac:(lia)) as (_ & _ & ->).
    apply Z.mod_pos_bound. lia.
  - rewrite scroll_address_nonneg by lia. apply Z.mod_pos_bound. lia.
Qed.

(** ** Case analysis on the steps of the scheduler *)

(** Reduction of the projections of a record rebuilt by the setters, and of
    nothing else. *)
Ltac rsimpl :=
  cbn [
    _width _height _rotation _refreshmode _late_start_ratio_override _diff_gap
    _vsync_spacing _diff1 _diff2 _fb1 _fb2 _dummydiff1 _dummydiff2 _mirrorfb
    _ongoingDiff _fb2full _compare_mask _period _period_mode0 _synced_scanline _pcb _fb
    _diff _dma_state _last_y _margin _slinitpos _prev_caset_x _prev_paset_y
    _stats_nb_frame _nbteared _statsvar_margin armed mem diffs bus clock set_width
    set_height set_rotation set_refreshmode set_late_start_ratio_override
    set_vsync_spacing set_diff1 set_diff2 set_fb1 set_fb2 set_dummydiff1 set_dummydiff2
    set_mirrorfb set_ongoingDiff set_fb2full set_period set_synced_scanline set_pcb
    set_fb set_diff set_dma_state set_last_y set_margin set_slinitpos set_prev_caset_x
    set_prev_paset_y set_stats_nb_frame set_nbteared set_statsvar_margin set_armed
    set_mem set_diffs set_bus set_clock send store_diff store_frame _setCB _swapdiff
    _swapdummydiff _swapfb resync _startframe statsReset graft keep_policy launching promote fst snd negb].
Ltac rsimpl_in H :=
  cbn [
    _width _height _rotation _refreshmode _late_start_ratio_override _diff_gap
    _vsync_spacing _diff1 _diff2 _fb1 _fb2 _dummydiff1 _dummydiff2 _mirrorfb
    _ongoingDiff _fb2full _compare_mask _period _period_mode0 _synced_scanline _pcb _fb
    _diff _dma_state _last_y _margin _slinitpos _prev_caset_x _prev_paset_y
    _stats_nb_frame _nbteared _statsvar_margin armed mem diffs bus clock set_width
    set_height set_rotation set_refreshmode set_late_start_ratio_override
    set_vsync_spacing set_diff1 set_diff2 set_fb1 set_fb2 set_dummydiff1 set_dummydiff2
    set_mirrorfb set_ongoingDiff set_fb2full set_period set_synced_scanline set_pcb
    set_fb set_diff set_dma_state set_last_y set_margin set_slinitpos set_prev_caset_x
    set_prev_paset_y set_stats_nb_frame set_nbteared set_statsvar_margin set_armed
    set_mem set_diffs set_bus set_clock send store_diff store_frame _setCB _swapdiff
    _swapdummydiff _swapfb resync _startframe statsReset graft keep_policy launching promote fst snd negb] in H.

(** The projections of the driver record. *)
Ltac is_proj f :=
  lazymatch f with
  | _width => idtac
  | _height => idtac
  | _rotation => idtac
  | _refreshmode => idtac
  | _late_start_ratio_override => idtac
  | _diff_gap => idtac
  | _vsync_spacing => idtac
  | _diff1 => idtac
  | _diff2 => idtac
  | _fb1 => idtac
  | _fb2 => idtac
  | _dummydiff1 => idtac
  | _dummydiff2 => idtac
  | _mirrorfb => idtac
  | _ongoingDiff => idtac
  | _fb2full => idtac
  | _compare_mask => idtac
  | _period => idtac
  | _period_mode0 => idtac
  | _synced_scanline => idtac
  | _pcb => idtac
  | _fb => idtac
  | _diff => idtac
  | _dma_state => idtac
  | _last_y => idtac
  | _margin => idtac
  | _slinitpos => idtac
  | _prev_caset_x => idtac
  | _prev_paset_y => idtac
  | _stats_nb_frame => idtac
  | _nbteared => idtac
  | _statsvar_margin => idtac
  | armed => idtac
  | mem => idtac
  | diffs => idtac
  | bus => idtac
  | clock => idtac
  end.

(** Reduction of the projections of a state given by setters, one projection
    at a time: the state itself is never expanded. *)
Ltac pnorm :=
  repeat match goal with
         | |- context [?f ?X] =>
             is_proj f; tryif is_var X then fail else idtac;
             let t := eval cbn [
                 _width _height _rotation _refreshmode
                 _late_start_ratio_override _diff_gap _vsync_spacing _diff1
                 _diff2 _fb1 _fb2 _dummydiff1 _dummydiff2 _mirrorfb _ongoingDiff
                 _fb2full _compare_mask _period _period_mode0 _synced_scanline
                 _pcb _fb _diff _dma_state _last_y _margin _slinitpos
                 _prev_caset_x _prev_paset_y _stats_nb_frame _nbteared
                 _statsvar_margin armed mem diffs bus clock set_width set_height
                 set_rotation set_refreshmode set_late_start_ratio_override
                 set_vsync_spacing set_diff1 set_diff2 set_fb1 set_fb2
                 set_dummydiff1 set_dummydiff2 set_mirrorfb set_ongoingDiff
                 set_fb2full set_period set_synced_scanline set_pcb set_fb
                 set_diff set_dma_state set_last_y set_margin set_slinitpos
                 set_prev_caset_x set_prev_paset_y set_stats_nb_frame
                 set_nbteared set_statsvar_margin set_armed set_mem set_diffs
                 set_bus set_clock send store_diff store_frame _setCB _swapdiff
                 _swapdummydiff _swapfb resync _startframe statsReset graft fst
                 snd negb] in (f X) in
             progress change (f X) with t
         end.
Ltac pnorm_in H :=
  repeat match type of H with
         | context [?f ?X] =>
             is_proj f; tryif is_var X then fail else idtac;
             let t := eval cbn [
                 _width _height _rotation _refreshmode
                 _late_start_ratio_override _diff_gap _vsync_spacing _diff1
                 _diff2 _fb1 _fb2 _dummydiff1 _dummydiff2 _mirrorfb _ongoingDiff
                 _fb2full _compare_mask _period _period_mode0 _synced_scanline
                 _pcb _fb _diff _dma_state _last_y _margin _slinitpos
                 _prev_caset_x _prev_paset_y _stats_nb_frame _nbteared
                 _statsvar_margin armed mem diffs bus clock set_width set_height
                 set_rotation set_refreshmode set_late_start_ratio_override
                 set_vsync_spacing set_diff1 set_diff2 set_fb1 set_fb2
                 set_dummydiff1 set_dummydiff2 set_mirrorfb set_ongoingDiff
                 set_fb2full set_period set_synced_scanline set_pcb set_fb
                 set_diff set_dma_state set_last_y set_margin set_slinitpos
                 set_prev_caset_x set_prev_paset_y set_stats_nb_frame
                 set_nbteared set_statsvar_margin set_armed set_mem set_diffs
                 set_bus set_clock send store_diff store_frame _setCB _swapdiff
                 _swapdummydiff _swapfb resync _startframe statsReset graft fst
                 snd negb] in (f X) in
             progress change (f X) with t in H
         end.

(** Splits the hypothesis [H] along the tests and the failing steps it
    contains, innermost first; a test whose outcome is known is not split. *)
Ltac split_step H :=
  repeat (rsimpl_in H;
          match type of H with
          | context [match ?x with _ => _ end] =>
              lazymatch x with
              | context [match _ with _ => _ end] => fail
              | _ => first
                       [ match goal with E : x = _ |- _ => rewrite E in H end
                       | let E := fresh "E" in destruct x eqn:E; try discriminate H ]
              end
          end).

Ltac step_done H := injection H as <-.

Lemma sched_only_refl (s : driver) : sched_only s s.
Proof. now destruct s. Qed.

Lemma sched_only_trans (s1 s2 s3 : driver) :
  sched_only s1 s2 -> sched_only s2 s3 -> sched_only s1 s3.
Proof.
  unfold sched_only. intros H12 H23. rewrite H23 at 1. rewrite H12 at 1.
  reflexivity.
Qed.

Lemma tick_sched (s s' : driver) (c : Z) :
  tick s = Some (c, s') -> sched_only s s' /\ clock s = c :: clock s'.
Proof.
  unfold tick. intros Ht. destruct (clock s) eqn:E; [discriminate |].
  injection Ht as <- <-. split; [| reflexivity]. now destruct s.
Qed.

Lemma send_sched (evs : list bus_ev) (s : driver) : sched_only s (send evs s).
Proof. now destruct s. Qed.

Lemma so_late_start_ratio_override v (s : driver) : sched_only s (set_late_start_ratio_override v s).
Proof. now destruct s. Qed.
Lemma so_synced_scanline v (s : driver) : sched_only s (set_synced_scanline v s).
Proof. now destruct s. Qed.
Lemma so_last_y v (s : driver) : sched_only s (set_last_y v s).
Proof. now destruct s. Qed.
Lemma so_margin v (s : driver) : sched_only s (set_margin v s).
Proof. now destruct s. Qed.
Lemma so_slinitpos v (s : driver) : sched_only s (set_slinitpos v s).
Proof. now destruct s. Qed.
Lemma so_prev_caset_x v (s : driver) : sched_only s (set_prev_caset_x v s).
Proof. now destruct s. Qed.
Lemma so_prev_paset_y v (s : driver) : sched_only s (set_prev_paset_y v s).
Proof. now destruct s. Qed.
Lemma so_armed v (s : driver) : sched_only s (set_armed v s).
Proof. now destruct s. Qed.
Lemma so_diffs v (s : driver) : sched_only s (set_diffs v s).
Proof. now destruct s. Qed.
Lemma so_bus v (s : driver) : sched_only s (set_bus v s).
Proof. now destruct s. Qed.
Lemma so_clock v (s : driver) : sched_only s (set_clock v s).
Proof. now destruct s. Qed.
Lemma so_store_diff d o (s : driver) : sched_only s (store_diff d o s).
Proof. now destruct s. Qed.

(** A state built from [s] by writes to the private fields of the scheduler. *)
Ltac sched_only_tac :=
  lazymatch goal with
  | |- sched_only ?s ?s => apply sched_only_refl
  | |- sched_only ?s (_ _ ?X) =>
      apply (sched_only_trans s X);
      [ sched_only_tac
      | first [ apply so_late_start_ratio_override | apply so_synced_scanline
              | apply so_last_y | apply so_margin | apply so_slinitpos
              | apply so_prev_caset_x | apply so_prev_paset_y | apply so_armed
              | apply so_diffs | apply so_bus | apply so_clock | apply send_sched ] ]
  | |- sched_only ?s (store_diff _ _ ?X) =>
      apply (sched_only_trans s X); [ sched_only_tac | apply so_store_diff ]
  end.

(** A hardware event changes the private fields of the scheduler, keeps in
    [_margin] the minimum of its former value and of the slack it measures,
    and then either returns or ends the transfer. *)
Lemma fire_cases (n : nat) (s s' : driver) :
  fire n s = Some s' ->
  exists s1,
    sched_only s s1 /\
    _margin s1 = min_margin (_margin s) (measured s) /\
    (s' = s1 \/ finish_transfer (call_pcb n) s1 = Some s').
Proof.
  unfold fire, measured, slack. intros Hf.
  destruct (armed s) eqn:Ea;
    unfold _subFrameTimerStartcb, _subFrameTimerStartcb2, _subFrameInterruptDiff,
      _microToReachScanLine, _getScanLine, _nbScanlineDuring_em_async, read_diff, tick in Hf;
    rsimpl_in Hf; split_step Hf.
  all: lazymatch type of Hf with
       | Some ?X = Some _ =>
           injection Hf as <-; exists X; split; [| split; [| left; reflexivity]]
       | finish_transfer _ ?X = Some _ =>
           exists X; split; [| split; [| right; exact Hf]]
       end.
  all: try sched_only_tac.
  all: pnorm; unfold min_margin;
    repeat match goal with
           | E : ?x = _ |- context [?x] => progress rewrite E
           end; try reflexivity.
  all: now destruct (0 <? _vsync_spacing s).
Qed.

(** ** What keeps the buffers and the mirror *)

Lemma same_policy_refl (s : driver) : same_policy s s.
Proof. now destruct s. Qed.

Lemma same_policy_trans (s1 s2 s3 : driver) :
  same_policy s1 s2 -> same_policy s2 s3 -> same_policy s1 s3.
Proof.
  unfold same_policy. intros H12 H23. rewrite H23 at 1. rewrite H12 at 1.
  reflexivity.
Qed.

Lemma sched_only_same_policy (s s' : driver) : sched_only s s' -> same_policy s s'.
Proof. unfold sched_only, same_policy. intros ->. reflexivity. Qed.

Lemma sp_late_start_ratio_override v (s : driver) : same_policy s (set_late_start_ratio_override v s).
Proof. now destruct s. Qed.
Lemma sp_synced_scanline v (s : driver) : same_policy s (set_synced_scanline v s).
Proof. now destruct s. Qed.
Lemma sp_pcb v (s : driver) : same_policy s (set_pcb v s).
Proof. now destruct s. Qed.
Lemma sp_fb v (s : driver) : same_policy s (set_fb v s).
Proof. now destruct s. Qed.
Lemma sp_diff v (s : driver) : same_policy s (set_diff v s).
Proof. now destruct s. Qed.
Lemma sp_dma_state v (s : driver) : same_policy s (set_dma_state v s).
Proof. now destruct s. Qed.
Lemma sp_last_y v (s : driver) : same_policy s (set_last_y v s).
Proof. now destruct s. Qed.
Lemma sp_margin v (s : driver) : same_policy s (set_margin v s).
Proof. now destruct s. Qed.
Lemma sp_slinitpos v (s : driver) : same_policy s (set_slinitpos v s).
Proof. now destruct s. Qed.
Lemma sp_prev_caset_x v (s : driver) : same_policy s (set_prev_caset_x v s).
Proof. now destruct s. Qed.
Lemma sp_prev_paset_y v (s : driver) : same_policy s (set_prev_paset_y v s).
Proof. now destruct s. Qed.
Lemma sp_stats_nb_frame v (s : driver) : same_policy s (set_stats_nb_frame v s).
Proof. now destruct s. Qed.
Lemma sp_nbteared v (s : driver) : same_policy s (set_nbteared v s).
Proof. now destruct s. Qed.
Lemma sp_statsvar_margin v (s : driver) : same_policy s (set_statsvar_margin v s).
Proof. now destruct s. Qed.
Lemma sp_armed v (s : driver) : same_policy s (set_armed v s).
Proof. now destruct s. Qed.
Lemma sp_mem v (s : driver) : same_policy s (set_mem v s).
Proof. now destruct s. Qed.
Lemma sp_diffs v (s : driver) : same_policy s (set_diffs v s).
Proof. now destruct s. Qed.
Lemma sp_bus v (s : driver) : same_policy s (set_bus v s).
Proof. now destruct s. Qed.
Lemma sp_clock v (s : driver) : same_policy s (set_clock v s).
Proof. now destruct s. Qed.
Lemma sp_store_diff d o (s : driver) : same_policy s (store_diff d o s).
Proof. now destruct s. Qed.
Lemma sp_store_frame p f (s : driver) : same_policy s (store_frame p f s).
Proof. now destruct s. Qed.
Lemma sp_send evs (s : driver) : same_policy s (send evs s).
Proof. now destruct s. Qed.
Lemma sp_endframe (s : driver) : same_policy s (_endframe s).
Proof.
  unfold _endframe.
  destruct (0 <? _vsync_spacing (set_stats_nb_frame (to_u32 (_stats_nb_frame s + 1)) s));
    [destruct (_margin (set_stats_nb_frame (to_u32 (_stats_nb_frame s + 1)) s) <? 0) |];
    now destruct s.
Qed.
Lemma sp_launching p d (s : driver) : same_policy s (launching p d s).
Proof. now destruct s. Qed.

(** A state built from [s] by writes that keep the buffers and the mirror. *)
Ltac same_policy_tac :=
  lazymatch goal with
  | |- same_policy ?s ?s => apply same_policy_refl
  | H : same_policy ?s ?X |- same_policy ?s ?X => exact H
  | H : sched_only ?s ?X |- same_policy ?s ?X => exact (sched_only_same_policy _ _ H)
  | |- same_policy ?s (if ?b then _ else _) => destruct b; same_policy_tac
  | |- same_policy ?s (_startframe ?b ?X) => change (same_policy s X); same_policy_tac
  | |- same_policy ?s (store_diff _ _ ?X) =>
      apply (same_policy_trans s X); [ same_policy_tac | apply sp_store_diff ]
  | |- same_policy ?s (store_frame _ _ ?X) =>
      apply (same_policy_trans s X); [ same_policy_tac | apply sp_store_frame ]
  | |- same_policy ?s (launching _ _ ?X) =>
      apply (same_policy_trans s X); [ same_policy_tac | apply sp_launching ]
  | |- same_policy ?s (_endframe ?X) =>
      apply (same_policy_trans s X); [ same_policy_tac | apply sp_endframe ]
  | |- same_policy ?s (_ _ ?X) =>
      apply (same_policy_trans s X);
      [ same_policy_tac
      | first [ apply sp_late_start_ratio_override | apply sp_synced_scanline | apply sp_pcb
              | apply sp_fb | apply sp_diff | apply sp_dma_state | apply sp_last_y
              | apply sp_margin | apply sp_slinitpos | apply sp_prev_caset_x
              | apply sp_prev_paset_y | apply sp_stats_nb_frame | apply sp_nbteared
              | apply sp_statsvar_margin | apply sp_armed | apply sp_mem | apply sp_diffs
              | apply sp_bus | apply sp_clock | apply sp_send ] ]
  end.

(** The fields that [same_policy] keeps, read in the later state. *)
Lemma same_policy_fields (s s' : driver) :
  same_policy s s' ->
  _fb1 s' = _fb1 s /\ _fb2 s' = _fb2 s /\ _mirrorfb s' = _mirrorfb s /\
  _fb2full s' = _fb2full s /\ _diff1 s' = _diff1 s /\ _diff2 s' = _diff2 s /\
  _dummydiff1 s' = _dummydiff1 s /\ _dummydiff2 s' = _dummydiff2 s /\
  _ongoingDiff s' = _ongoingDiff s /\ _vsync_spacing s' = _vsync_spacing s /\
  _rotation s' = _rotation s /\ bufferingMode s' = bufferingMode s.
Proof. intros ->. unfold bufferingMode. now destruct s. Qed.

(** The fields that [sched_only] keeps beyond those of [same_policy]. *)
Lemma sched_only_fields (s s' : driver) :
  sched_only s s' ->
  _pcb s' = _pcb s /\ _dma_state s' = _dma_state s /\ _fb s' = _fb s /\
  _diff s' = _diff s /\ _nbteared s' = _nbteared s /\
  _statsvar_margin s' = _statsvar_margin s /\ _stats_nb_frame s' = _stats_nb_frame s /\
  _vsync_spacing s' = _vsync_spacing s /\ mem s' = mem s.
Proof. intros ->. now destruct s. Qed.

(** ** The start and the end of a transfer *)

(** [_updateAsync] returns at once on a null pointer; otherwise it waits, opens
    the diff and either arms the first timer or, the diff being empty, ends
    the transfer on the spot. *)
Lemma updateAsync_with_cases (wait cb : driver -> option driver)
    (fb : option ptr) (d : option dptr) (s s' : driver) :
  _updateAsync_with wait cb fb d s = Some s' ->
  (s' = s /\ (fb = None \/ d = None)) \/
  exists p dd s0 s1,
    fb = Some p /\ d = Some dd /\ wait s = Some s0 /\
    sched_only (launching p dd s0) s1 /\
    _margin s1 = ILI9488_T4_NB_SCANLINES /\
    ((s' = s1 /\ armed s1 = Irq_subFrameTimerStartcb) \/ finish_transfer cb s1 = Some s').
Proof.
  unfold _updateAsync_with. intros Hu.
  destruct fb as [p |]; [| injection Hu as <-; left; auto].
  destruct d as [dd |]; [| injection Hu as <-; left; auto].
  right. destruct (wait s) as [s0 |] eqn:Ew; [| discriminate].
  exists p, dd, s0.
  change (set_diff (Some dd) (set_fb (Some p) (set_dma_state ILI9488_T4_DMA_ON
            (set_margin ILI9488_T4_NB_SCANLINES (_startframe (0 <? _vsync_spacing s0) s0)))))
    with (launching p dd s0) in Hu.
  unfold read_diff, _microToReachScanLine, _getScanLine, tick in Hu.
  remember (launching p dd s0) as sl eqn:Esl.
  assert (Hm : _margin sl = ILI9488_T4_NB_SCANLINES) by now subst sl.
  clear Esl. split_step Hu.
  all: lazymatch type of Hu with
       | Some ?X = Some _ =>
           injection Hu as <-; exists X;
           do 3 (split; [reflexivity |]); split; [| split; [| left; split; reflexivity]]
       | finish_transfer _ ?X = Some _ =>
           exists X;
           do 3 (split; [reflexivity |]); split; [| split; [| right; exact Hu]]
       end.
  all: try sched_only_tac.
  all: pnorm; exact Hm.
Qed.

Lemma finish_transfer_cases (cb : driver -> option driver) (s s' : driver) :
  finish_transfer cb s = Some s' ->
  exists s2,
    cb (set_dma_state ILI9488_T4_DMA_IDLE (_endframe s)) = Some s2 /\ s' = set_pcb None s2.
Proof.
  unfold finish_transfer. intros Hf.
  destruct (cb _) as [s2 |] eqn:Ec; [| discriminate].
  injection Hf as <-. now exists s2.
Qed.

(** [_buffer2fullCB] promotes the secondary buffer, uploads it with the pending
    diff, and removes itself. *)
Lemma buffer2fullCB_with_eq
    (ua : option ptr -> option dptr -> driver -> option driver) (s : driver) :
  _buffer2fullCB_with ua s =
  let? s3 := ua (_fb2 s) (pending_diff s) (promote s) in
  Some (set_ongoingDiff None (_setCB None s3)).
Proof.
  unfold _buffer2fullCB_with, promote, pending_diff.
  destruct (_mirrorfb s); reflexivity.
Qed.

Lemma call_pcb_cases (n : nat) (s s' : driver) :
  call_pcb n s = Some s' ->
  (_pcb s = None /\ s' = s) \/
  exists n', n = S n' /\ _pcb s = Some buffer2fullCB /\
    _buffer2fullCB_with (_updateAsync_with wait_no_irq (call_pcb n')) s = Some s'.
Proof.
  destruct n as [| n']; simpl; destruct (_pcb s) as [[] |]; intros Hc;
    try discriminate.
  - left. now injection Hc as <-.
  - right. now exists n'.
  - left. now injection Hc as <-.
Qed.

Lemma wait_no_irq_cases (s s0 : driver) :
  wait_no_irq s = Some s0 -> s0 = s /\ asyncUpdateActive s = false.
Proof.
  unfold wait_no_irq. destruct (asyncUpdateActive s); [discriminate |].
  intros Hw. now injection Hw as <-.
Qed.

Lemma endframe_fields (s : driver) :
  _pcb (_endframe s) = _pcb s /\ _dma_state (_endframe s) = _dma_state s /\
  _vsync_spacing (_endframe s) = _vsync_spacing s /\ _margin (_endframe s) = _margin s /\
  armed (_endframe s) = armed s /\ clock (_endframe s) = clock s /\
  bus (_endframe s) = bus s /\ mem (_endframe s) = mem s /\ _fb (_endframe s) = _fb s.
Proof.
  unfold _endframe. pnorm.
  destruct (0 <? _vsync_spacing s); [destruct (_margin s <? 0) |]; repeat split.
Qed.

Lemma promote_fields (s : driver) :
  _fb1 (promote s) = _fb2 s /\ _fb2 (promote s) = _fb1 s /\
  _fb2full (promote s) = false /\ _mirrorfb (promote s) = _fb2 s /\
  _pcb (promote s) = _pcb s /\ _dma_state (promote s) = _dma_state s /\
  _vsync_spacing (promote s) = _vsync_spacing s /\
  _nbteared (promote s) = _nbteared s /\
  _statsvar_margin (promote s) = _statsvar_margin s /\
  bufferingMode (promote s) =
    match bufferingMode s with
    | TRIPLE_BUFFERING => TRIPLE_BUFFERING
    | DOUBLE_BUFFERING => NO_BUFFERING
    | NO_BUFFERING => match _fb2 s with Some _ => DOUBLE_BUFFERING | None => NO_BUFFERING end
    end.
Proof.
  unfold promote, bufferingMode.
  destruct (_mirrorfb s); destruct s as [? ? ? ? ? ? ? ? ? [?|] [?|]]; repeat split.
Qed.

(** What the completion callback does to the buffers: it runs at most when
    installed, leaves two owned buffers owned, frees the secondary buffer, and
    is removed in the end. *)
Lemma call_pcb_policy (n : nat) (s s' : driver) :
  call_pcb n s = Some s' ->
  (_pcb s = None -> s' = s) /\
  (_pcb s = Some buffer2fullCB -> _pcb s' = None /\ _fb2full s' = false) /\
  (bufferingMode s = TRIPLE_BUFFERING -> bufferingMode s' = TRIPLE_BUFFERING).
Proof.
  revert s s'. induction n as [| n IH]; intros s s' Hc;
    destruct (call_pcb_cases _ _ _ Hc) as [[Hp ->] | (n' & Hn & Hp & Hb)];
    try discriminate.
  - split; [auto |]. split; [congruence | auto].
  - split; [auto |]. split; [congruence | auto].
  - injection Hn as <-. split; [congruence |].
    rewrite buffer2fullCB_with_eq in Hb.
    destruct (_updateAsync_with _ _ _ _ _) as [s3 |] eqn:Eu; [| discriminate].
    injection Hb as <-.
    destruct (promote_fields s) as (Hf1 & Hf2 & Hfull & _ & Hpcb & _ & _ & _ & _ & Hmode).
    destruct (updateAsync_with_cases _ _ _ _ _ _ Eu)
      as [[-> _] | (p & dd & s0 & s1 & _ & _ & Hw & Hs1 & _ & Hend)].
    + split; [intros _; split; [reflexivity | exact Hfull] |].
      intros Ht. change (bufferingMode (promote s) = TRIPLE_BUFFERING).
      now rewrite Hmode, Ht.
    + destruct (wait_no_irq_cases _ _ Hw) as [-> _].
      assert (Hsp : same_policy (promote s) s1) by
        (apply (same_policy_trans _ (launching p dd (promote s)));
         [apply sp_launching | now apply sched_only_same_policy]).
      destruct (same_policy_fields _ _ Hsp)
        as (_ & _ & _ & Hff & _ & _ & _ & _ & _ & _ & _ & Hbm).
      destruct (sched_only_fields _ _ Hs1) as (Hp1 & _).
      destruct Hend as [[-> _] | Hfin].
      * split; [intros _; split; [reflexivity | now rewrite <- Hfull, <- Hff] |].
        intros Ht. change (bufferingMode s1 = TRIPLE_BUFFERING).
        now rewrite Hbm, Hmode, Ht.
      * destruct (finish_transfer_cases _ _ _ Hfin) as (s4 & Hcb & ->).
        destruct (IH _ _ Hcb) as (_ & Hq & Htr).
        assert (Hsp' : same_policy s1 (set_dma_state ILI9488_T4_DMA_IDLE (_endframe s1)))
          by same_policy_tac.
        destruct (same_policy_fields _ _ Hsp')
          as (_ & _ & _ & _ & _ & _ & _ & _ & _ & _ & _ & Hbm').
        split.
        -- intros _. split; [reflexivity |].
           change (_fb2full s4 = false). apply Hq.
           pnorm. destruct (endframe_fields s1) as (-> & _).
           rewrite Hp1. change (_pcb (promote s) = Some buffer2fullCB). congruence.
        -- intros Ht. change (bufferingMode s4 = TRIPLE_BUFFERING).
           apply Htr. rewrite Hbm', Hbm, Hmode. now rewrite Ht.
Qed.

Lemma finish_transfer_policy (n : nat) (s s' : driver) :
  finish_transfer (call_pcb n) s = Some s' ->
  _pcb s' = None /\
  (_pcb s = None -> same_policy s s') /\
  (_pcb s = Some buffer2fullCB -> _fb2full s' = false) /\
  (bufferingMode s = TRIPLE_BUFFERING -> bufferingMode s' = TRIPLE_BUFFERING).
Proof.
  intros Hf. destruct (finish_transfer_cases _ _ _ Hf) as (s2 & Hcb & ->).
  destruct (call_pcb_policy _ _ _ Hcb) as (Hnone & Hsome & Htr).
  assert (Hsp : same_policy s (set_dma_state ILI9488_T4_DMA_IDLE (_endframe s)))
    by same_policy_tac.
  destruct (same_policy_fields _ _ Hsp) as (_ & _ & _ & _ & _ & _ & _ & _ & _ & _ & _ & Hbm).
  assert (Hp : _pcb (set_dma_state ILI9488_T4_DMA_IDLE (_endframe s)) = _pcb s)
    by (pnorm; apply endframe_fields).
  split; [reflexivity |]. split; [| split].
  - intros Hn. rewrite Hnone by congruence.
    apply (same_policy_trans _ _ _ Hsp). apply sp_pcb.
  - intros Hs. change (_fb2full s2 = false). apply Hsome. congruence.
  - intros Ht. change (bufferingMode s2 = TRIPLE_BUFFERING). apply Htr. congruence.
Qed.

(** A hardware event keeps the buffers and the mirror unless it ends a
    transfer whose completion callback is installed; it never installs a
    callback. *)
Lemma fire_policy (n : nat) (s s' : driver) :
  fire n s = Some s' ->
  (_pcb s = None -> same_policy s s' /\ _pcb s' = None) /\
  (queue_inv s -> queue_inv s') /\
  (bufferingMode s = TRIPLE_BUFFERING -> bufferingMode s' = TRIPLE_BUFFERING).
Proof.
  intros Hf. destruct (fire_cases _ _ _ Hf) as (s1 & Hso & _ & Hend).
  pose proof (sched_only_same_policy _ _ Hso) as Hsp.
  destruct (same_policy_fields _ _ Hsp) as (_ & _ & _ & Hfull & _ & _ & _ & _ & _ & _ & _ & Hbm).
  destruct (sched_only_fields _ _ Hso) as (Hp & _).
  destruct Hend as [-> | Hfin].
  - split; [intros Hn; split; [exact Hsp | congruence] |].
    split; [unfold queue_inv; now rewrite Hp, Hfull | congruence].
  - destruct (finish_transfer_policy _ _ _ Hfin) as (Hp' & Hnone & _ & Htr).
    split; [intros Hn; split; [| exact Hp'] |].
    + apply (same_policy_trans _ _ _ Hsp). apply Hnone. congruence.
    + split; [unfold queue_inv; intros _ Hne; now rewrite Hp' in Hne |].
      intros Ht. apply Htr. congruence.
Qed.

Lemma spin_done (done : driver -> bool) (n : nat) (s s' : driver) :
  spin done n s = Some s' -> done s' = true.
Proof.
  revert s. induction n as [| n IH]; intros s; simpl;
    destruct (done s) eqn:Ed; try discriminate.
  - intros Hs. now injection Hs as <-.
  - intros Hs. now injection Hs as <-.
  - destruct (fire n s) as [s1 |]; [apply IH | discriminate].
Qed.

(** A spin on a driver whose completion callback is not installed keeps the
    buffers and the mirror. *)
Lemma spin_quiet (done : driver -> bool) (n : nat) (s s' : driver) :
  _pcb s = None -> spin done n s = Some s' -> same_policy s s' /\ _pcb s' = None.
Proof.
  revert s. induction n as [| n IH]; intros s Hp; simpl;
    destruct (done s) eqn:Ed; try discriminate.
  - intros Hs. injection Hs as <-. split; [apply same_policy_refl | exact Hp].
  - intros Hs. injection Hs as <-. split; [apply same_policy_refl | exact Hp].
  - destruct (fire n s) as [s1 |] eqn:Ef; [| discriminate]. intros Hs.
    destruct (fire_policy _ _ _ Ef) as (Hq & _). destruct (Hq Hp) as [Hsp Hp1].
    destruct (IH _ Hp1 Hs) as [Hsp' Hp']. split; [| exact Hp'].
    exact (same_policy_trans _ _ _ Hsp Hsp').
Qed.

(** A spin keeps two owned buffers owned, and a callback installed only
    while the secondary buffer is full. *)
Lemma spin_triple (done : driver -> bool) (n : nat) (s s' : driver) :
  queue_inv s -> bufferingMode s = TRIPLE_BUFFERING -> spin done n s = Some s' ->
  queue_inv s' /\ bufferingMode s' = TRIPLE_BUFFERING.
Proof.
  revert s. induction n as [| n IH]; intros s Hq Ht; simpl;
    destruct (done s) eqn:Ed; try discriminate.
  - intros Hs. now injection Hs as <-.
  - intros Hs. now injection Hs as <-.
  - destruct (fire n s) as [s1 |] eqn:Ef; [| discriminate]. intros Hs.
    destruct (fire_policy _ _ _ Ef) as (_ & Hq1 & Ht1).
    exact (IH _ (Hq1 Hq) (Ht1 Ht) Hs).
Qed.

Lemma waitUpdateAsyncComplete_idle (n : nat) (s s' : driver) :
  waitUpdateAsyncComplete n s = Some s' -> _dma_state s' = ILI9488_T4_DMA_IDLE.
Proof.
  intros Hw. apply spin_done in Hw. unfold asyncUpdateActive in Hw.
  now destruct (_dma_state s').
Qed.

Lemma waitUpdateAsyncComplete_when_idle (n : nat) (s : driver) :
  _dma_state s = ILI9488_T4_DMA_IDLE -> waitUpdateAsyncComplete n s = Some s.
Proof.
  intros Hi. unfold waitUpdateAsyncComplete, asyncUpdateActive.
  destruct n; simpl; now rewrite Hi.
Qed.

Lemma waitUpdateAsyncComplete_quiet (n : nat) (s s' : driver) :
  _pcb s = None -> waitUpdateAsyncComplete n s = Some s' ->
  same_policy s s' /\ _pcb s' = None.
Proof. apply spin_quiet. Qed.

(** [_updateAsync] on a driver whose completion callback is not installed. *)
Lemma updateAsync_quiet (n : nat) (fb : option ptr) (d : option dptr) (s s' : driver) :
  _pcb s = None -> _updateAsync n fb d s = Some s' -> same_policy s s' /\ _pcb s' = None.
Proof.
  intros Hp Hu.
  destruct (updateAsync_with_cases _ _ _ _ _ _ Hu)
    as [[-> _] | (p & dd & s0 & s1 & _ & _ & Hw & Hs1 & _ & Hend)].
  - split; [apply same_policy_refl | exact Hp].
  - destruct (waitUpdateAsyncComplete_quiet _ _ _ Hp Hw) as [Hsp0 Hp0].
    assert (Hsp1 : same_policy s s1).
    { apply (same_policy_trans _ _ _ Hsp0).
      apply (same_policy_trans _ (launching p dd s0)); [apply sp_launching |].
      now apply sched_only_same_policy. }
    destruct (sched_only_fields _ _ Hs1) as (Hp1 & _).
    assert (Hp1' : _pcb s1 = None) by (rewrite Hp1; exact Hp0).
    destruct Hend as [[-> _] | Hfin]; [now split |].
    destruct (finish_transfer_policy _ _ _ Hfin) as (Hp' & Hnone & _).
    split; [| exact Hp']. exact (same_policy_trans _ _ _ Hsp1 (Hnone Hp1')).
Qed.

Lemma updateRectNow_quiet (n : nat) (sub_fb : option Frame) (b : box) (stride : Z)
    (s s' : driver) :
  _pcb s = None -> _updateRectNow n sub_fb b stride s = Some s' ->
  same_policy s s' /\ _pcb s' = None.
Proof.
  unfold _updateRectNow. intros Hp Hu.
  destruct sub_fb as [f |]; [| injection Hu as <-; split; [apply same_policy_refl | exact Hp]].
  destruct (_ || _); [injection Hu as <-; split; [apply same_policy_refl | exact Hp] |].
  destruct (waitUpdateAsyncComplete n s) as [s0 |] eqn:Ew; [| discriminate].
  injection Hu as <-.
  destruct (waitUpdateAsyncComplete_quiet _ _ _ Hp Ew) as [Hsp0 Hp0].
  split.
  - apply (same_policy_trans _ _ _ Hsp0). same_policy_tac.
  - match goal with |- _pcb (_endframe ?X) = None => destruct (endframe_fields X) as (-> & _) end.
    exact Hp0.
Qed.

(** ** The calls into the diff buffers keep the buffers and the mirror *)

Lemma do_computeDiff_sp d p fb copy (s s' : driver) :
  do_computeDiff d p fb copy s = Some s' -> same_policy s s' /\ _pcb s' = _pcb s.
Proof.
  unfold do_computeDiff. destruct d; [| discriminate]. destruct p; [| discriminate].
  intros Hd. injection Hd as <-. split; [same_policy_tac | now destruct copy].
Qed.

Lemma do_computeDiff_region_sp d p old fb b stride copy (s s' : driver) :
  do_computeDiff_region d p old fb b stride copy s = Some s' ->
  same_policy s s' /\ _pcb s' = _pcb s.
Proof.
  unfold do_computeDiff_region. destruct d; [| discriminate]. destruct p; [| discriminate].
  intros Hd. injection Hd as <-. split; [same_policy_tac | now destruct copy].
Qed.

Lemma do_copyfb_sp p fb (s s' : driver) :
  do_copyfb p fb s = Some s' -> same_policy s s' /\ _pcb s' = _pcb s.
Proof.
  unfold do_copyfb. destruct p; [| discriminate].
  intros Hd. injection Hd as <-. split; [same_policy_tac | reflexivity].
Qed.

Lemma do_copyfb_region_sp p fb b stride (s s' : driver) :
  do_copyfb_region p fb b stride s = Some s' -> same_policy s s' /\ _pcb s' = _pcb s.
Proof.
  unfold do_copyfb_region. destruct p; [| discriminate].
  intros Hd. injection Hd as <-. split; [same_policy_tac | reflexivity].
Qed.

Lemma region_diff_quiet n old fb b stride (s s' : driver) :
  _pcb s = None -> region_diff n old fb b stride s = Some s' ->
  same_policy s s' /\ _pcb s' = None.
Proof.
  unfold region_diff. intros Hp Hr. destruct (asyncUpdateActive s).
  - destruct (do_computeDiff_region _ _ _ _ _ _ _ _) as [s1 |] eqn:E1; [| discriminate].
    destruct (waitUpdateAsyncComplete n s1) as [s2 |] eqn:E2; [| discriminate].
    destruct (do_computeDiff_region_sp _ _ _ _ _ _ _ _ _ E1) as [Hs1 Hp1].
    assert (Hp1' : _pcb s1 = None) by congruence.
    destruct (waitUpdateAsyncComplete_quiet _ _ _ Hp1' E2) as [Hs2 Hp2].
    destruct (do_copyfb_region_sp _ _ _ _ _ _ Hr) as [Hs3 Hp3].
    split; [| congruence].
    exact (same_policy_trans _ _ _ Hs1 (same_policy_trans _ _ _ Hs2 Hs3)).
  - destruct (do_computeDiff_region_sp _ _ _ _ _ _ _ _ _ Hr) as [Hs1 Hp1].
    split; [exact Hs1 | congruence].
Qed.

Lemma region_finish_quiet n redrawNow (s s' : driver) :
  _pcb s = None -> region_finish n redrawNow s = Some s' ->
  _pcb s' = None /\ _fb1 s' = _fb1 s /\
  _mirrorfb s' = (if redrawNow then _fb1 s' else None).
Proof.
  unfold region_finish. intros Hp Hr. destruct redrawNow.
  - destruct (_updateAsync _ _ _ _) as [s1 |] eqn:E1; [| discriminate].
    injection Hr as <-.
    assert (Hp0 : _pcb (_swapdiff s) = None) by exact Hp.
    destruct (updateAsync_quiet _ _ _ _ _ Hp0 E1) as [Hs1 Hp1].
    destruct (same_policy_fields _ _ Hs1) as (Hf1 & _).
    repeat split; [exact Hp1 | exact Hf1].
  - injection Hr as <-. repeat split. exact Hp.
Qed.

(** The buffered branch of [updateRegion], entered without a completion
    callback: afterwards [_fb1] is the mirror if a redraw was asked for, and
    nothing is otherwise. *)
Lemma updateRegion_buffered_mirror n redrawNow fb b stride (s s' : driver) :
  _pcb s = None ->
  updateRegion_buffered n redrawNow fb b stride s = Some s' ->
  _mirrorfb s' = (if redrawNow then _fb1 s' else None) /\ _fb1 s' = _fb1 s.
Proof.
  unfold updateRegion_buffered. intros Hp Hu.
  destruct (is_null (_diff2 s)) eqn:Ed2.
  - destruct (waitUpdateAsyncComplete n _) as [s1 |] eqn:E1; [| discriminate].
    destruct (do_computeDiff_region _ _ _ _ _ _ _ _) as [s2 |] eqn:E2; [| discriminate].
    assert (Hp0 : _pcb (set_ongoingDiff None s) = None) by exact Hp.
    destruct (waitUpdateAsyncComplete_quiet _ _ _ Hp0 E1) as [Hs1 Hp1].
    destruct (do_computeDiff_region_sp _ _ _ _ _ _ _ _ _ E2) as [Hs2 Hp2].
    destruct (same_policy_fields _ _ Hs1) as (Hf1 & _).
    change (_fb1 (set_ongoingDiff None s)) with (_fb1 s) in Hf1.
    destruct (same_policy_fields _ _ Hs2) as (Hf2 & _).
    destruct redrawNow.
    + destruct (if negb (is_null (_mirrorfb s2)) then _ else _) as [s3 |] eqn:E3;
        [| discriminate].
      injection Hu as <-.
      assert (Hp2' : _pcb s2 = None) by congruence.
      assert (Hs3 : same_policy s2 s3).
      { destruct (negb (is_null (_mirrorfb s2))).
        - now apply (updateRectNow_quiet _ _ _ _ _ _ Hp2' E3).
        - now apply (updateAsync_quiet _ _ _ _ _ Hp2' E3). }
      destruct (same_policy_fields _ _ Hs3) as (Hf3 & _).
      split; [reflexivity |]. pnorm. rewrite Hf3, Hf2, Hf1. reflexivity.
    + injection Hu as <-. split; [reflexivity |]. pnorm. now rewrite Hf2, Hf1.
  - destruct (negb (is_null (_mirrorfb s))) eqn:Em.
    + destruct (region_diff _ _ _ _ _ _) as [s1 |] eqn:E1; [| discriminate].
      destruct (region_diff_quiet _ _ _ _ _ _ _ Hp E1) as [Hs1 Hp1].
      destruct (region_finish_quiet _ _ _ _ Hp1 Hu) as (_ & Hf & Hm).
      destruct (same_policy_fields _ _ Hs1) as (Hf1 & _).
      split; [exact Hm | congruence].
    + destruct (negb (is_null (_ongoingDiff s))) eqn:Eo.
      * destruct (region_diff _ _ _ _ _ _) as [s1 |] eqn:E1; [| discriminate].
        destruct (region_diff_quiet _ _ _ _ _ _ _ Hp E1) as [Hs1 Hp1].
        destruct (region_finish_quiet _ _ _ _ Hp1 Hu) as (_ & Hf & Hm).
        destruct (same_policy_fields _ _ Hs1) as (Hf1 & _).
        split; [exact Hm | congruence].
      * destruct (waitUpdateAsyncComplete n s) as [s1 |] eqn:E1; [| discriminate].
        destruct (do_copyfb_region _ _ _ _ _) as [s2 |] eqn:E2; [| discriminate].
        destruct (waitUpdateAsyncComplete_quiet _ _ _ Hp E1) as [Hs1 Hp1].
        destruct (do_copyfb_region_sp _ _ _ _ _ _ E2) as [Hs2 Hp2].
        destruct (same_policy_fields _ _ Hs1) as (Hf1 & _ & Hm1 & _).
        destruct (same_policy_fields _ _ Hs2) as (Hf2 & _ & Hm2 & _).
        destruct redrawNow.
        -- destruct (do_computeDiff _ _ _ _ _) as [s3 |] eqn:E3; [| discriminate].
           destruct (_updateAsync _ _ _ _) as [s4 |] eqn:E4; [| discriminate].
           injection Hu as <-.
           destruct (do_computeDiff_sp _ _ _ _ _ _ E3) as [Hs3 Hp3].
           assert (Hp3' : _pcb s3 = None) by congruence.
           destruct (updateAsync_quiet _ _ _ _ _ Hp3' E4) as [Hs4 Hp4].
           destruct (same_policy_fields _ _ Hs3) as (Hf3 & _).
           destruct (same_policy_fields _ _ Hs4) as (Hf4 & _).
           split; [reflexivity |]. pnorm. congruence.
        -- injection Hu as <-. split; [| congruence].
           rewrite Hm2, Hm1. apply negb_false_iff in Em. now destruct (_mirrorfb s).
Qed.

Lemma no_callback_outside_triple (s : driver) :
  queue_inv s ->
  (_fb2full s = true -> bufferingMode s = TRIPLE_BUFFERING) ->
  bufferingMode s <> TRIPLE_BUFFERING -> _pcb s = None.
Proof.
  intros Hq Hfull Hm. destruct (_pcb s) eqn:Ep; [| reflexivity].
  exfalso. apply Hm, Hfull, Hq. congruence.
Qed.

(** C1, as amended.  After [updateRegion], provided a completion callback is
    installed only while the secondary buffer is full, and the secondary
    buffer is full only in triple buffering: without owned buffer the mirror
    state is unknown; with owned buffers the mirror is [_fb1] when the redraw
    was asked for, whether the region or the whole panel was pushed, and
    unknown when it was not. *)
Theorem updateRegion_mirror (n : nat) (redrawNow : bool) (fb : Frame) (b : box) (stride : Z)
    (s s' : driver) :
  queue_inv s ->
  (_fb2full s = true -> bufferingMode s = TRIPLE_BUFFERING) ->
  updateRegion n redrawNow fb b stride s = Some s' ->
  match bufferingMode s with
  | NO_BUFFERING => _mirrorfb s' = None
  | _ => _mirrorfb s' = (if redrawNow then _fb1 s' else None) /\ _fb1 s' <> None
  end.
Proof.
  unfold updateRegion. intros Hq Hfull Hu.
  pose proof (no_callback_outside_triple s Hq Hfull) as Hnc.
  destruct (bufferingMode s) eqn:Emode.
  - assert (Hp : _pcb s = None) by (apply Hnc; discriminate).
    assert (Hp0 : _pcb (set_ongoingDiff None (set_mirrorfb None s)) = None) by exact Hp.
    destruct (updateRectNow_quiet _ _ _ _ _ _ Hp0 Hu) as [Hsp _].
    now destruct (same_policy_fields _ _ Hsp) as (_ & _ & -> & _).
  - assert (Hp : _pcb s = None) by (apply Hnc; discriminate).
    destruct (updateRegion_buffered_mirror _ _ _ _ _ _ _ Hp Hu) as [Hm Hf].
    split; [exact Hm |]. rewrite Hf. unfold bufferingMode in Emode.
    now destruct (_fb1 s).
  - destruct (spin _ n s) as [s1 |] eqn:Es; [| discriminate].
    destruct (spin_triple _ _ _ _ Hq Emode Es) as [Hq1 Ht1].
    pose proof (spin_done _ _ _ _ Es) as Hd. apply negb_true_iff in Hd.
    assert (Hp : _pcb s1 = None).
    { destruct (_pcb s1) eqn:Ep; [| reflexivity].
      rewrite Hq1 in Hd; [discriminate | congruence]. }
    destruct (updateRegion_buffered_mirror _ _ _ _ _ _ _ Hp Hu) as [Hm Hf].
    split; [exact Hm |]. rewrite Hf. unfold bufferingMode in Ht1.
    now destruct (_fb1 s1).
Qed.

(** ** The scroll address *)

(** C10.  For every [int] offset, negative ones included, [setScroll] sends,
    once the transfer in progress is over, a vertical scroll start address in
    [0, 320): a non-negative offset is reduced modulo 320, and a negative one
    (above [INT_MIN], whose opposite is not an [int]) is first made
    non-negative by adding a multiple of the panel height 480 and then reduced
    modulo 320. *)
Theorem setScroll_address (n : nat) (offset : Z) (s s1 : driver) :
  INT_MIN <= offset <= INT_MAX ->
  waitUpdateAsyncComplete n s = Some s1 ->
  let a := scroll_address offset in
  setScroll n offset s =
    Some (send [Cmd ILI9488_T4_VSCRSADD; Data16 a; Cmd ILI9488_T4_RAMWR;
                Cmd ILI9488_T4_NOP] s1) /\
  0 <= a < 320 /\
  (0 <= offset -> a = offset mod 320) /\
  (INT_MIN < offset < 0 ->
   exists k, 0 < k /\ 0 <= offset + k * 480 /\ a = (offset + k * 480) mod 320).
Proof.
  intros Ho Hw a. pose proof (scroll_address_range offset Ho) as Ha.
  fold a in Ha. repeat split; try lia.
  - unfold setScroll. rewrite Hw. fold a. rewrite (to_u16_small a); [reflexivity | lia].
  - intros Hpos. apply scroll_address_nonneg. lia.
  - intros Hneg. destruct (scroll_address_negative offset Hneg) as (Hk & Hr & He).
    exists (- offset / ILI9488_T4_TFTHEIGHT + 1).
    change ILI9488_T4_TFTHEIGHT with 480 in *. repeat split; [lia | lia | exact He].
Qed.

(** ** The extrapolated scanline *)

(** C5.  Without resynchronisation, [_getScanLine] reads the time elapsed
    since the last synchronisation and returns
    [(last synced scanline + elapsed * NB_SCANLINES / period) mod NB_SCANLINES],
    the division being the integer one; the value lies in [0, NB_SCANLINES).
    The period is not zero, and the operands are in the range of their types. *)
Theorem getScanLine_extrapolated (s : driver) (em : Z) (rest : list Z) :
  clock s = em :: rest ->
  0 <= em < 2 ^ 32 ->
  0 < _period s < 2 ^ 32 ->
  0 <= _synced_scanline s < 2 ^ 32 ->
  0 < ILI9488_T4_NB_SCANLINES < 2 ^ 31 ->
  let v := (_synced_scanline s + em * ILI9488_T4_NB_SCANLINES / _period s)
             mod ILI9488_T4_NB_SCANLINES in
  _getScanLine false s = Some (v, set_clock rest s) /\
  0 <= v < ILI9488_T4_NB_SCANLINES.
Proof.
  intros Hc Hem Hp Hs Hn v.
  assert (Hv : 0 <= v < ILI9488_T4_NB_SCANLINES) by (apply Z.mod_pos_bound; lia).
  split; [| exact Hv].
  unfold _getScanLine, tick. rewrite Hc. cbn [negb].
  change (_period (set_clock rest s)) with (_period s).
  change (_synced_scanline (set_clock rest s)) with (_synced_scanline s).
  assert (Hprod : 0 <= em * ILI9488_T4_NB_SCANLINES < 2 ^ 63) by nia.
  assert (Hq : 0 <= em * ILI9488_T4_NB_SCANLINES / _period s < 2 ^ 63).
  { split; [apply Z.div_pos; lia |].
    apply Z.le_lt_trans with (em * ILI9488_T4_NB_SCANLINES); [| lia].
    apply Z.div_le_upper_bound; nia. }
  rewrite (to_u32_small em) by lia.
  rewrite (to_u64_small em) by lia.
  rewrite (to_u64_small ILI9488_T4_NB_SCANLINES) by lia.
  rewrite (to_u64_small (em * _)) by lia.
  rewrite (to_u64_small (_ + _)) by lia.
  fold v. rewrite (to_int_small v) by (unfold INT_MIN, INT_MAX; lia).
  destruct (_period s =? 0) eqn:E1; [apply Z.eqb_eq in E1; lia |].
  destruct (ILI9488_T4_NB_SCANLINES =? 0) eqn:E2; [apply Z.eqb_eq in E2; lia |].
  reflexivity.
Qed.

(** ** Invalid configuration values *)

Lemma clip_range (v lo hi : Z) : lo <= hi -> lo <= _clip v lo hi <= hi.
Proof.
  intros Hl. unfold _clip.
  destruct (v <? lo) eqn:E1; [lia |]. destruct (hi <? v) eqn:E2; lia.
Qed.

Lemma setRotation_rotation (n : nat) (m : Z) (s s' : driver) :
  setRotation n m s = Some s' -> _rotation s' = _clip m 0 3.
Proof.
  unfold setRotation. intros Hr.
  destruct (_clip m 0 3 =? _rotation s) eqn:E.
  - injection Hr as <-. apply Z.eqb_eq in E. now symmetry.
  - destruct (waitUpdateAsyncComplete n s) as [s1 |]; [| discriminate].
    injection Hr as <-.
    now destruct ((_clip m 0 3 =? 0) || (_clip m 0 3 =? 2)),
                 ((_clip m 0 3 =? 1) || (_clip m 0 3 =? 3)).
Qed.

(** C8.  Invalid configuration values are not fatal.  The rotation that
    [setRotation] leaves is its argument clamped into 0..3, so an argument
    above 3 gives rotation 3; the call returns whenever the scheduler is idle.
    [setRefreshMode] with a mode outside 0..31 returns at once and changes
    nothing: the refresh mode, the panel (nothing is sent) and every other
    field of the driver stay as they were. *)
Theorem invalid_configuration_not_fatal (n : nat) (m mode : Z) (s : driver) :
  (forall s', setRotation n m s = Some s' ->
     _rotation s' = _clip m 0 3 /\ 0 <= _rotation s' <= 3 /\
     (3 < m -> _rotation s' = 3) /\ (m < 0 -> _rotation s' = 0)) /\
  (_dma_state s = ILI9488_T4_DMA_IDLE -> exists s', setRotation n m s = Some s') /\
  (mode < 0 \/ 31 < mode -> setRefreshMode n mode s = Some s).
Proof.
  split; [| split].
  - intros s' Hr. rewrite (setRotation_rotation _ _ _ _ Hr).
    pose proof (clip_range m 0 3 ltac:(lia)). unfold _clip in *.
    destruct (m <? 0) eqn:E1; destruct (3 <? m) eqn:E2; lia.
  - intros Hidle. unfold setRotation.
    destruct (_clip m 0 3 =? _rotation s); [eauto |].
    rewrite (waitUpdateAsyncComplete_when_idle n s Hidle). eauto.
  - intros Hm. unfold setRefreshMode.
    destruct (mode <? 0) eqn:E1; [reflexivity |].
    destruct (31 <? mode) eqn:E2; [reflexivity | lia].
Qed.

(** ** The calibration table *)

(** C4.  The refresh rate of mode [m] is [baseHz * 16 / (16 + m)] below mode
    16, and [(baseHz / 2) * 16 / (16 + (m - 16))] from mode 16 on, in single
    precision and with the operations in this order; [baseHz] is the
    frequency [1000000 / period_mode0] of the period measured in mode 0. *)
Theorem refreshRateForMode_formula (period_mode0 m : Z) :
  0 <= m <= 31 ->
  _refreshRateForMode period_mode0 m =
    if m <? 16
    then fdiv (fmul (baseHz period_mode0) (float_of_Z 16))
              (fadd (float_of_Z 16) (float_of_Z m))
    else fdiv (fmul (fdiv (baseHz period_mode0) (float_of_Z 2)) (float_of_Z 16))
              (fadd (float_of_Z 16) (float_of_Z (m - 16))).
Proof.
  intros Hm. unfold _refreshRateForMode, baseHz.
  destruct (16 <=? m) eqn:E1; destruct (m <? 16) eqn:E2; try lia; [| reflexivity].
  unfold int_sub. rewrite to_int_small; [reflexivity |]. unfold INT_MIN, INT_MAX. lia.
Qed.

(** *** Comparison of floats *)

Lemma SFcompare_antisym (a b : spec_float) :
  SFcompare b a = option_map CompOpp (SFcompare a b).
Proof.
  destruct a as [s1 | s1 | | s1 m1 e1], b as [s2 | s2 | | s2 m2 e2]; cbn;
    try reflexivity; try (now destruct s1); try (now destruct s2);
    try (now destruct s1, s2).
  destruct s1, s2; try reflexivity; f_equal;
    rewrite (Z.compare_antisym e1 e2); destruct (e1 ?= e2); cbn; try reflexivity.
  - rewrite CompOpp_involutive. rewrite Pos.compare_cont_antisym. reflexivity.
  - rewrite Pos.compare_cont_antisym. reflexivity.
Qed.

Lemma SFcompare_refl (a b : spec_float) (c : comparison) :
  SFcompare a b = Some c -> SFcompare a a = Some Eq.
Proof.
  intros Hc. destruct a as [s1 | s1 | | s1 m1 e1]; cbn.
  - reflexivity.
  - now destruct s1.
  - destruct b; discriminate.
  - destruct s1; rewrite Z.compare_refl; f_equal;
      change (Pos.compare_cont Eq m1 m1) with (m1 ?= m1)%positive;
      now rewrite Pos.compare_refl.
Qed.

Lemma flt_not_fle (a b : float) : flt a b = true -> fle b a = false.
Proof.
  unfold flt, fle, SFltb, SFleb. rewrite (SFcompare_antisym a b).
  now destruct (SFcompare a b) as [[] |].
Qed.

Lemma flt_asym (a b : float) : flt a b = true -> flt b a = false.
Proof.
  unfold flt, SFltb. rewrite (SFcompare_antisym a b).
  now destruct (SFcompare a b) as [[] |].
Qed.

Lemma flt_comparable (a b : float) :
  flt a b = true ->
  fle a a = true /\ fle b b = true /\ flt a a = false /\ flt b b = false.
Proof.
  unfold flt, fle, SFltb, SFleb. intros Hl.
  destruct (SFcompare a b) as [c |] eqn:Ec; [| discriminate].
  rewrite (SFcompare_refl a b c Ec).
  assert (Eb : SFcompare b a = Some (CompOpp c)) by now rewrite SFcompare_antisym, Ec.
  now rewrite (SFcompare_refl b a _ Eb).
Qed.

(** *** The dichotomy *)

(** On a decreasing table the comparison of two entries is the comparison of
    their modes. *)
Lemma table_compare (p m c : Z) :
  table_decreasing p -> 0 <= c <= 31 -> 0 <= m <= 31 ->
  flt (_refreshRateForMode p m) (_refreshRateForMode p c) = (c <? m).
Proof.
  intros Hdec Hc Hm. destruct (c <? m) eqn:E.
  - apply Hdec; lia.
  - destruct (Z.eq_dec c m) as [-> | Hne].
    + destruct (Z.eq_dec m 0) as [-> | Hm0].
      * now destruct (flt_comparable _ _ (Hdec 0 31 ltac:(lia) ltac:(lia) ltac:(lia)))
          as (_ & _ & _ & ->).
      * now destruct (flt_comparable _ _ (Hdec 0 m ltac:(lia) ltac:(lia) ltac:(lia)))
          as (_ & _ & -> & _).
    + apply flt_asym, Hdec; lia.
Qed.

(** The loop keeps [a < m <= b] and halves [b - a]. *)
Lemma dichotomy_finds (n : nat) (p m a b : Z) :
  table_decreasing p ->
  0 <= a -> a < m -> m <= b -> b <= 31 -> b - a <= 2 ^ Z.of_nat n ->
  dichotomy n p (_refreshRateForMode p m) a b = (m - 1, m).
Proof.
  intros Hdec. revert a b. induction n as [| n IH]; intros a b Ha Ham Hmb Hb Hw.
  - cbn in Hw. cbn [dichotomy]. f_equal; lia.
  - cbn [dichotomy]. unfold int_sub, int_add, int_div.
    rewrite (to_int_small (b - a)) by (unfold INT_MIN, INT_MAX; lia).
    rewrite (to_int_small (a + b)) by (unfold INT_MIN, INT_MAX; lia).
    rewrite Z.quot_div_nonneg by lia.
    assert (Hc : a <= (a + b) / 2 <= b).
    { split; [apply Z.div_le_lower_bound | apply Z.div_le_upper_bound]; lia. }
    rewrite (to_int_small ((a + b) / 2)) by (unfold INT_MIN, INT_MAX; lia).
    destruct (1 <? b - a) eqn:E; [| f_equal; lia].
    rewrite Nat2Z.inj_succ, Z.pow_succ_r in Hw by lia.
    assert (Hlo : (a + b) / 2 - a <= 2 ^ Z.of_nat n).
    { enough ((a + b) / 2 <= 2 ^ Z.of_nat n + a) by lia.
      apply Z.div_le_upper_bound; lia. }
    assert (Hhi : b - (a + b) / 2 <= 2 ^ Z.of_nat n).
    { enough (b - 2 ^ Z.of_nat n <= (a + b) / 2) by lia.
      apply Z.div_le_lower_bound; lia. }
    rewrite (table_compare p m ((a + b) / 2) Hdec) by lia.
    destruct ((a + b) / 2 <? m) eqn:Ec; apply IH; lia.
Qed.

(** Mode to rate to mode is the identity on a table whose rates decrease
    strictly with the mode, and where the difference of two neighbouring
    rates, as the float subtraction computes it, is not below the difference
    of a rate with itself. *)
Lemma roundtrip_of_table (period_mode0 m : Z) :
  table_decreasing period_mode0 ->
  gaps_not_negative period_mode0 ->
  0 <= m <= 31 ->
  _modeForRefreshRate period_mode0 (_refreshRateForMode period_mode0 m) = m.
Proof.
  intros Hdec Hgap Hm. unfold _modeForRefreshRate.
  pose proof (Hdec 0 31 ltac:(lia) ltac:(lia) ltac:(lia)) as H031.
  destruct (flt_comparable _ _ H031) as (Hr31 & Hr0 & _ & _).
  destruct (Z.eq_dec m 31) as [-> | Hne31]; [now rewrite Hr31 |].
  rewrite (flt_not_fle _ _ (Hdec m 31 ltac:(lia) ltac:(lia) ltac:(lia))).
  destruct (Z.eq_dec m 0) as [-> | Hne0]; [now rewrite Hr0 |].
  rewrite (flt_not_fle _ _ (Hdec 0 m ltac:(lia) ltac:(lia) ltac:(lia))).
  rewrite (dichotomy_finds 5 period_mode0 m 0 31 Hdec) by (cbn; lia).
  now rewrite (Hgap m) by lia.
Qed.

(** *** Single precision arithmetic on normal numbers *)

Lemma digits2_pos_bounds (p : positive) :
  2 ^ (Zpos (digits2_pos p) - 1) <= Zpos p < 2 ^ Zpos (digits2_pos p).
Proof.
  induction p as [p IH | p IH |]; cbn [digits2_pos].
  - rewrite Pos2Z.inj_succ. replace (Z.succ (Zpos (digits2_pos p)) - 1)
      with (Z.succ (Zpos (digits2_pos p) - 1)) by lia.
    rewrite !Z.pow_succ_r by lia. lia.
  - rewrite Pos2Z.inj_succ. replace (Z.succ (Zpos (digits2_pos p)) - 1)
      with (Z.succ (Zpos (digits2_pos p) - 1)) by lia.
    rewrite !Z.pow_succ_r by lia. lia.
  - cbn. lia.
Qed.

Lemma Zdigits2_unique (m d : Z) :
  0 < d -> 2 ^ (d - 1) <= m < 2 ^ d -> Zdigits2 m = d.
Proof.
  intros Hd Hm. destruct m as [| p | p]; [| | lia].
  - assert (0 < 2 ^ (d - 1)) by (apply Z.pow_pos_nonneg; lia). lia.
  - cbn [Zdigits2]. pose proof (digits2_pos_bounds p) as Hp.
    set (d' := Zpos (digits2_pos p)) in *. assert (Hd' : 0 < d') by (unfold d'; lia).
    destruct (Z.lt_trichotomy d' d) as [Hlt | [Heq | Hgt]]; [| exact Heq |].
    + exfalso. assert (2 ^ d' <= 2 ^ (d - 1)) by (apply Z.pow_le_mono_r; lia). lia.
    + exfalso. assert (2 ^ d <= 2 ^ (d' - 1)) by (apply Z.pow_le_mono_r; lia). lia.
Qed.

Lemma shr_1_spec (m : Z) (r s : bool) :
  0 <= m ->
  shr_1 (Build_shr_record m r s) = Build_shr_record (m / 2) (Z.odd m) (r || s).
Proof.
  intros Hm. destruct m as [| [p | p |] | p]; try lia; cbn [shr_1].
  - reflexivity.
  - replace (Z.pos p~1 / 2) with (Z.pos p); [reflexivity |].
    rewrite Pos2Z.inj_xI. apply Z.div_unique with (r := 1); lia.
  - replace (Z.pos p~0 / 2) with (Z.pos p); [reflexivity |].
    rewrite Pos2Z.inj_xO. apply Z.div_unique with (r := 0); lia.
  - reflexivity.
Qed.

Lemma iter_shr_1 (p : positive) (x : shr_record) :
  0 <= shr_m x ->
  shr_m (iter_pos shr_1 p x) = shr_m x / 2 ^ Zpos p.
Proof.
  revert x. induction p as [p IH | p IH |]; intros x Hx; cbn [iter_pos].
  - assert (H1 : shr_m (shr_1 x) = shr_m x / 2 /\ 0 <= shr_m (shr_1 x)).
    { destruct x as [m r s]. cbn [shr_m] in *. rewrite shr_1_spec by lia. cbn [shr_m].
      split; [reflexivity | apply Z.div_pos; lia]. }
    destruct H1 as [H1 H1'].
    assert (HP : 0 < 2 ^ Zpos p) by (apply Z.pow_pos_nonneg; lia).
    assert (H2 : 0 <= shr_m (iter_pos shr_1 p (shr_1 x))).
    { rewrite IH by lia. apply Z.div_pos; lia. }
    rewrite IH by exact H2. rewrite IH by exact H1'. rewrite H1.
    assert (E : 2 ^ Zpos p~1 = 2 * 2 ^ Zpos p * 2 ^ Zpos p).
    { rewrite Pos2Z.inj_xI. replace (2 * Zpos p + 1) with (1 + Zpos p + Zpos p) by lia.
      rewrite !Z.pow_add_r by lia. reflexivity. }
    rewrite E. set (P := 2 ^ Zpos p) in *.
    rewrite !Z.div_div by lia. f_equal. ring.
  - assert (HP : 0 < 2 ^ Zpos p) by (apply Z.pow_pos_nonneg; lia).
    assert (H2 : 0 <= shr_m (iter_pos shr_1 p x)).
    { rewrite IH by lia. apply Z.div_pos; lia. }
    rewrite IH by exact H2. rewrite IH by exact Hx.
    assert (E : 2 ^ Zpos p~0 = 2 ^ Zpos p * 2 ^ Zpos p).
    { replace (Zpos p~0) with (Zpos p + Zpos p) by lia.
      rewrite !Z.pow_add_r by lia. reflexivity. }
    rewrite E. set (P := 2 ^ Zpos p) in *.
    rewrite !Z.div_div by lia. reflexivity.
  - destruct x as [m r s]. cbn [shr_m] in *. rewrite shr_1_spec by lia. reflexivity.
Qed.

Lemma round_nearest_even_bounds (m : Z) (l : location) :
  m <= round_nearest_even m l <= m + 1.
Proof.
  destruct l as [| []]; cbn [round_nearest_even]; try lia.
  destruct (Z.even m); lia.
Qed.

Lemma iter_shr_1_exact (p : positive) (m : Z) :
  0 <= m ->
  iter_pos shr_1 p (Build_shr_record (m * 2 ^ Zpos p) false false)
  = Build_shr_record m false false.
Proof.
  revert m. induction p as [p IH | p IH |]; intros m Hm; cbn [iter_pos].
  - assert (HP : 0 < 2 ^ Zpos p) by (apply Z.pow_pos_nonneg; lia).
    replace (m * 2 ^ Zpos p~1) with (2 * (m * 2 ^ Zpos p * 2 ^ Zpos p)).
    2:{ replace (Zpos p~1) with (1 + Zpos p + Zpos p) by lia.
        rewrite !Z.pow_add_r by lia. change (2 ^ 1) with 2. ring. }
    rewrite shr_1_spec by nia.
    replace (2 * (m * 2 ^ Zpos p * 2 ^ Zpos p) / 2) with (m * 2 ^ Zpos p * 2 ^ Zpos p)
      by (apply Z.div_unique with (r := 0); lia).
    rewrite Z.odd_mul. cbn [Z.odd andb orb].
    rewrite IH by nia. apply IH, Hm.
  - replace (m * 2 ^ Zpos p~0) with (m * 2 ^ Zpos p * 2 ^ Zpos p).
    2:{ replace (Zpos p~0) with (Zpos p + Zpos p) by lia.
        rewrite !Z.pow_add_r by lia. ring. }
    assert (HP : 0 < 2 ^ Zpos p) by (apply Z.pow_pos_nonneg; lia).
    rewrite IH by nia. apply IH, Hm.
  - change (2 ^ 1) with 2. rewrite shr_1_spec by lia.
    rewrite Z.div_mul by lia. rewrite Z.odd_mul. cbn. rewrite andb_false_r. reflexivity.
Qed.

Lemma pow2_split (a b : Z) : 0 <= a -> 0 <= b -> 2 ^ (a + b) = 2 ^ a * 2 ^ b.
Proof. intros. apply Z.pow_add_r; assumption. Qed.

Lemma shr_fexp_normal (m e : Z) (l : location) (k : Z) :
  0 <= k -> 2 ^ 23 * 2 ^ k <= m < 2 ^ 24 * 2 ^ k -> -149 <= e ->
  shr_fexp prec32 emax32 m e l
  = (match k with
     | Zpos p => iter_pos shr_1 p (shr_record_of_loc m l)
     | _ => shr_record_of_loc m l
     end, e + k).
Proof.
  intros Hk Hm He. unfold shr_fexp.
  rewrite (Zdigits2_unique m (24 + k)).
  2: lia.
  2:{ replace (24 + k - 1) with (23 + k) by lia. rewrite !pow2_split by lia. exact Hm. }
  unfold fexp, emin, prec32, emax32.
  replace (Z.max (24 + k + e - 24) (3 - 128 - 24) - e) with k by lia.
  unfold shr. destruct k as [| p | p]; [| reflexivity | lia].
  rewrite Z.add_0_r. reflexivity.
Qed.

Lemma shr_record_of_loc_m (m : Z) (l : location) : shr_m (shr_record_of_loc m l) = m.
Proof. destruct l as [| []]; reflexivity. Qed.

Lemma shr_fexp_normal_m (m e : Z) (l : location) (k : Z) :
  0 <= k -> 2 ^ 23 * 2 ^ k <= m < 2 ^ 24 * 2 ^ k -> -149 <= e ->
  exists r, shr_fexp prec32 emax32 m e l = (r, e + k) /\ shr_m r = m / 2 ^ k.
Proof.
  intros Hk Hm He. rewrite (shr_fexp_normal m e l k Hk Hm He).
  eexists; split; [reflexivity |].
  assert (0 < 2 ^ k) by (apply Z.pow_pos_nonneg; lia).
  destruct k as [| p | p]; [| | lia].
  - rewrite shr_record_of_loc_m. change (2 ^ 0) with 1. rewrite Z.div_1_r. reflexivity.
  - rewrite iter_shr_1; rewrite shr_record_of_loc_m; [reflexivity | nia].
Qed.

(** Rounding a mantissa of at least 24 bits yields a normal number whose
    value lies within one unit of the (shifted) input. *)
Lemma binary_round_aux_normal (mx ex : Z) (lx : location) (k : Z) :
  0 <= k -> 2 ^ 23 * 2 ^ k <= mx < 2 ^ 24 * 2 ^ k -> -149 <= ex -> ex + k + 1 <= 104 ->
  exists M c,
    binary_round_aux prec32 emax32 false mx ex lx = S754_finite false M (ex + k + c)
    /\ 0 <= c <= 1
    /\ 2 ^ 23 <= Zpos M < 2 ^ 24
    /\ mx / 2 ^ k <= Zpos M * 2 ^ c <= mx / 2 ^ k + 1.
Proof.
  intros Hk Hm He Hemax.
  assert (HK : 0 < 2 ^ k) by (apply Z.pow_pos_nonneg; lia).
  unfold binary_round_aux.
  destruct (shr_fexp_normal_m mx ex lx k Hk Hm He) as (r & -> & Hr).
  pose proof (round_nearest_even_bounds (shr_m r) (loc_of_shr_record r)) as Hrne.
  set (m2 := round_nearest_even (shr_m r) (loc_of_shr_record r)) in *.
  assert (Hm1 : 2 ^ 23 <= shr_m r < 2 ^ 24).
  { rewrite Hr. split.
    - apply Z.div_le_lower_bound; lia.
    - apply Z.div_lt_upper_bound; lia. }
  rewrite Hr in Hrne.
  destruct (Z.eq_dec m2 (2 ^ 24)) as [Hcarry | Hnocarry].
  - rewrite (shr_fexp_normal m2 (ex + k) loc_Exact 1) by (change (2 ^ 1) with 2; lia).
    rewrite Hcarry. cbn [shr_record_of_loc iter_pos].
    change (shr_1 {| shr_m := 2 ^ 24; shr_r := false; shr_s := false |})
      with {| shr_m := 2 ^ 23; shr_r := false; shr_s := false |}.
    cbn [shr_m]. change (2 ^ 23) with (Zpos 8388608).
    replace (ex + k + 1 <=? emax32 - prec32) with true
      by (symmetry; apply Z.leb_le; unfold emax32, prec32; lia).
    exists 8388608%positive, 1. change (2 ^ 1) with 2. repeat split; lia.
  - rewrite (shr_fexp_normal m2 (ex + k) loc_Exact 0) by (change (2 ^ 0) with 1; lia).
    cbn [shr_record_of_loc shr_m].
    destruct m2 as [| M | M]; [lia | | lia].
    replace (ex + k + 0 <=? emax32 - prec32) with true
      by (symmetry; apply Z.leb_le; unfold emax32, prec32; lia).
    exists M, 0. change (2 ^ 0) with 1. repeat split; lia.
Qed.

(** A value that fits in 24 bits after an exact shift is not rounded. *)
Lemma binary_round_aux_exact (M : positive) (ex k : Z) :
  0 <= k -> 2 ^ 23 <= Zpos M < 2 ^ 24 -> -149 <= ex -> ex + k <= 104 ->
  binary_round_aux prec32 emax32 false (Zpos M * 2 ^ k) ex loc_Exact
  = S754_finite false M (ex + k).
Proof.
  intros Hk HM He Hemax.
  assert (HK : 0 < 2 ^ k) by (apply Z.pow_pos_nonneg; lia).
  unfold binary_round_aux.
  rewrite (shr_fexp_normal (Zpos M * 2 ^ k) ex loc_Exact k) by nia.
  assert (Hr : match k with
               | Zpos p => iter_pos shr_1 p (shr_record_of_loc (Zpos M * 2 ^ k) loc_Exact)
               | _ => shr_record_of_loc (Zpos M * 2 ^ k) loc_Exact
               end = Build_shr_record (Zpos M) false false).
  { destruct k as [| p | p]; [| | lia].
    - cbn [shr_record_of_loc]. change (2 ^ 0) with 1. rewrite Z.mul_1_r. reflexivity.
    - cbn [shr_record_of_loc]. apply iter_shr_1_exact. lia. }
  rewrite Hr. cbn [shr_m loc_of_shr_record round_nearest_even].
  rewrite (shr_fexp_normal (Zpos M) (ex + k) loc_Exact 0) by (change (2 ^ 0) with 1; lia).
  cbn [shr_record_of_loc shr_m].
  replace (ex + k + 0 <=? emax32 - prec32) with true
    by (symmetry; apply Z.leb_le; unfold emax32, prec32; lia).
  rewrite Z.add_0_r. reflexivity.
Qed.

Lemma SFdiv_core_normal (mx my : positive) (ex ey : Z) :
  2 ^ 23 <= Zpos mx < 2 ^ 24 -> 2 ^ 23 <= Zpos my < 2 ^ 24 -> -125 <= ex - ey ->
  SFdiv_core_binary prec32 emax32 (Zpos mx) ex (Zpos my) ey
  = (Zpos mx * 2 ^ 24 / Zpos my, ex - ey - 24,
     new_location (Zpos my) ((Zpos mx * 2 ^ 24) mod Zpos my)).
Proof.
  intros Hx Hy He. unfold SFdiv_core_binary.
  rewrite (Zdigits2_unique (Zpos mx) 24), (Zdigits2_unique (Zpos my) 24)
    by (change (24 - 1) with 23; lia).
  unfold fexp, emin, prec32, emax32.
  replace (Z.min (Z.max (24 + ex - (24 + ey) - 24) (3 - 128 - 24)) (ex - ey))
    with (ex - ey - 24) by lia.
  replace (ex - ey - (ex - ey - 24)) with 24 by lia.
  rewrite Z.shiftl_mul_pow2 by lia.
  unfold Z.div, Z.modulo.
  destruct (Z.div_eucl (Zpos mx * 2 ^ 24) (Zpos my)) as [q r]. reflexivity.
Qed.

(** Division of two normal numbers: the result is normal, and its mantissa
    is the integer quotient up to the rounding of the last place. *)
Lemma fdiv_normal (mx my : positive) (ex ey : Z) :
  2 ^ 23 <= Zpos mx < 2 ^ 24 -> 2 ^ 23 <= Zpos my < 2 ^ 24 ->
  -125 <= ex - ey <= 126 ->
  exists M sh,
    fdiv (S754_finite false mx ex) (S754_finite false my ey)
    = S754_finite false M (ex - ey - 24 + sh)
    /\ 0 <= sh <= 2
    /\ 2 ^ 23 <= Zpos M < 2 ^ 24
    /\ Zpos mx * 2 ^ 24 / Zpos my - 1 <= Zpos M * 2 ^ sh
       <= Zpos mx * 2 ^ 24 / Zpos my + 2.
Proof.
  intros Hx Hy He. unfold fdiv, SFdiv.
  rewrite SFdiv_core_normal by lia. cbn [xorb].
  set (q := Zpos mx * 2 ^ 24 / Zpos my).
  assert (Hq : 2 ^ 23 <= q < 2 ^ 25).
  { unfold q. split.
    - apply Z.div_le_lower_bound; lia.
    - apply Z.div_lt_upper_bound; lia. }
  destruct (Z.ltb_spec q (2 ^ 24)) as [Hlt | Hge].
  - destruct (binary_round_aux_normal q (ex - ey - 24)
                (new_location (Zpos my) ((Zpos mx * 2 ^ 24) mod Zpos my)) 0)
      as (M & c & -> & Hc & HM & Hv); try (change (2 ^ 0) with 1); try lia.
    change (2 ^ 0) with 1 in Hv. rewrite Z.div_1_r in Hv.
    exists M, c. rewrite Z.add_0_r. repeat split; lia.
  - destruct (binary_round_aux_normal q (ex - ey - 24)
                (new_location (Zpos my) ((Zpos mx * 2 ^ 24) mod Zpos my)) 1)
      as (M & c & -> & Hc & HM & Hv); try (change (2 ^ 1) with 2); try lia.
    change (2 ^ 1) with 2 in Hv.
    exists M, (1 + c). rewrite pow2_split by lia. change (2 ^ 1) with 2.
    replace (ex - ey - 24 + (1 + c)) with (ex - ey - 24 + 1 + c) by lia.
    pose proof (Z.div_mod q 2 ltac:(lia)) as Hdm.
    pose proof (Z.mod_pos_bound q 2 ltac:(lia)) as Hmb.
    repeat split; lia.
Qed.

(** Division by a power of two and multiplication by sixteen are exact. *)
Lemma fdiv_two (M : positive) (e : Z) :
  2 ^ 23 <= Zpos M < 2 ^ 24 -> -125 <= e <= 80 ->
  fdiv (S754_finite false M e) (float_of_Z 2) = S754_finite false M (e - 1).
Proof.
  intros HM He.
  change (float_of_Z 2) with (S754_finite false 8388608 (-22)).
  unfold fdiv, SFdiv. rewrite SFdiv_core_normal by lia. cbn [xorb].
  replace (Zpos M * 2 ^ 24 / 8388608) with (Zpos M * 2 ^ 1)
    by (apply Z.div_unique with (r := 0); lia).
  replace ((Zpos M * 2 ^ 24) mod 8388608) with 0
    by (apply Z.mod_unique with (q := Zpos M * 2); lia).
  change (new_location 8388608 0) with loc_Exact.
  rewrite binary_round_aux_exact by lia. f_equal. lia.
Qed.

Lemma fmul_sixteen (M : positive) (e : Z) :
  2 ^ 23 <= Zpos M < 2 ^ 24 -> -130 <= e <= 100 ->
  fmul (S754_finite false M e) (float_of_Z 16) = S754_finite false M (e + 4).
Proof.
  intros HM He.
  change (float_of_Z 16) with (S754_finite false 8388608 (-19)).
  unfold fmul, SFmul. cbn [xorb].
  rewrite Pos2Z.inj_mul. change (Zpos 8388608) with (2 ^ 23).
  rewrite binary_round_aux_exact by lia. f_equal. lia.
Qed.

Lemma pos_iter_xO (p n : positive) : Zpos (Pos.iter xO p n) = Zpos p * 2 ^ Zpos n.
Proof.
  induction n as [| n IH] using Pos.peano_ind.
  - cbn [Pos.iter]. change (2 ^ 1) with 2. lia.
  - rewrite Pos.iter_succ, Pos2Z.inj_xO, IH, Pos2Z.inj_succ, Z.pow_succ_r by lia. ring.
Qed.

(** Every non-zero 32-bit integer converts to a normal number. *)
Lemma float_of_Z_normal (p : Z) :
  0 < p < 2 ^ 32 ->
  exists M E, float_of_Z p = S754_finite false M E
              /\ 2 ^ 23 <= Zpos M < 2 ^ 24 /\ -23 <= E <= 9.
Proof.
  intros Hp. destruct p as [| pp | pp]; [lia | | lia].
  unfold float_of_Z, binary_normalize, binary_round, shl_align.
  pose proof (digits2_pos_bounds pp) as Hd.
  set (d := Zpos (digits2_pos pp)) in *.
  assert (Hd0 : 0 < d) by (unfold d; lia).
  assert (Hd32 : d <= 32).
  { destruct (Z.le_gt_cases d 32) as [Hle | Hgt]; [exact Hle | exfalso].
    assert (2 ^ 32 <= 2 ^ (d - 1)) by (apply Z.pow_le_mono_r; lia). lia. }
  unfold fexp, emin, prec32, emax32.
  replace (Z.max (d + 0 - 24) (3 - 128 - 24) - 0) with (d - 24) by lia.
  replace (Z.max (d + 0 - 24) (3 - 128 - 24)) with (d - 24) by lia.
  destruct (d - 24) as [| k | k] eqn:Hk.
  - destruct (binary_round_aux_normal (Zpos pp) 0 loc_Exact 0)
      as (M & c & HR & Hc & HM & _); try lia.
    { change (2 ^ 0) with 1. replace d with 24 in Hd by lia.
      change (24 - 1) with 23 in Hd. lia. }
    unfold prec32, emax32 in HR. rewrite HR. exists M, (0 + 0 + c). repeat split; lia.
  - destruct (binary_round_aux_normal (Zpos pp) 0 loc_Exact (Zpos k))
      as (M & c & HR & Hc & HM & _); try lia.
    { replace (d - 1) with (23 + Zpos k) in Hd by lia.
      replace d with (24 + Zpos k) in Hd by lia.
      rewrite !pow2_split in Hd by lia. exact Hd. }
    unfold prec32, emax32 in HR. rewrite HR. exists M, (0 + Zpos k + c). repeat split; lia.
  - assert (HM : 2 ^ 23 <= Zpos (Pos.iter xO pp k) < 2 ^ 24).
    { rewrite pos_iter_xO.
      change (2 ^ 23) with (2 ^ (23 - 0)). 
      replace (2 ^ (23 - 0)) with (2 ^ (d - 1) * 2 ^ Zpos k)
        by (rewrite <- pow2_split by lia; f_equal; lia).
      replace (2 ^ 24) with (2 ^ d * 2 ^ Zpos k)
        by (rewrite <- pow2_split by lia; f_equal; lia).
      assert (0 < 2 ^ Zpos k) by (apply Z.pow_pos_nonneg; lia). nia. }
    change (binary_round_aux 24 128) with (binary_round_aux prec32 emax32).
    rewrite <- (Z.mul_1_r (Zpos (Pos.iter xO pp k))). change 1 with (2 ^ 0) at 1.
    rewrite binary_round_aux_exact by lia.
    eexists _, _. split; [reflexivity |]. split; [exact HM | lia].
Qed.

Lemma float_of_million : float_of_Z 1000000 = S754_finite false 16000000 (-4).
Proof. reflexivity. Qed.

(** The base frequency is a normal number. *)
Lemma baseHz_normal (p : Z) :
  0 < p < 2 ^ 32 ->
  exists M e, baseHz p = S754_finite false M e
              /\ 2 ^ 23 <= Zpos M < 2 ^ 24 /\ -37 <= e <= -3.
Proof.
  intros Hp. unfold baseHz.
  destruct (float_of_Z_normal p Hp) as (P & E & -> & HP & HE).
  rewrite float_of_million.
  destruct (fdiv_normal 16000000 P (-4) E) as (M & sh & -> & Hsh & HM & _); try lia.
  eexists _, _. split; [reflexivity |]. split; [exact HM | lia].
Qed.

Lemma fadd_sixteen (k : Z) :
  0 <= k <= 15 ->
  exists C, fadd (float_of_Z 16) (float_of_Z k) = S754_finite false C (-19)
            /\ Zpos C = (16 + k) * 2 ^ 19.
Proof.
  intros Hk.
  assert (Hc : k = 0 \/ k = 1 \/ k = 2 \/ k = 3 \/ k = 4 \/ k = 5 \/ k = 6 \/ k = 7
               \/ k = 8 \/ k = 9 \/ k = 10 \/ k = 11 \/ k = 12 \/ k = 13 \/ k = 14
               \/ k = 15) by lia.
  repeat (destruct Hc as [-> | Hc]); try subst k;
    (eexists; split; [reflexivity | reflexivity]).
Qed.

(** The divisor of the base frequency for each mode, in units of 1/32. *)
Lemma refreshRateForMode_shape (p : Z) (M : positive) (e : Z) :
  baseHz p = S754_finite false M e ->
  2 ^ 23 <= Zpos M < 2 ^ 24 -> -37 <= e <= -3 ->
  forall m, 0 <= m <= 31 ->
  exists R a,
    _refreshRateForMode p m = S754_finite false R (e - 2 + a)
    /\ 2 ^ 23 <= Zpos R < 2 ^ 24
    /\ 0 <= a
    /\ let den := if m <? 16 then 16 + m else 2 * m in
       64 * Zpos M - 4 * den <= Zpos R * 2 ^ a * den <= 64 * Zpos M + 4 * den.
Proof.
  intros HB HM He m Hm. unfold _refreshRateForMode. fold (baseHz p). rewrite HB.
  destruct (Z.leb_spec 16 m) as [Hge | Hlt].
  - replace (int_sub m 16) with (m - 16).
    2:{ unfold int_sub, to_int. symmetry.
        replace (m - 16 + 2 ^ 31) with (m - 16 + 2 ^ 31 + 0 * 2 ^ 32) by lia.
        rewrite Z.mod_add by lia. rewrite Z.mod_small by lia. lia. }
    rewrite fdiv_two by lia. rewrite fmul_sixteen by lia.
    destruct (fadd_sixteen (m - 16)) as (C & -> & HC); [lia |].
    destruct (fdiv_normal M C (e - 1 + 4) (-19)) as (R & sh & -> & Hsh & HR & Hq);
      try lia.
    exists R, sh. split; [f_equal; lia |]. split; [exact HR |]. split; [lia |].
    replace (m <? 16) with false by (symmetry; apply Z.ltb_ge; lia). cbv zeta.
    rewrite HC in Hq. replace (16 + (m - 16)) with m in Hq by lia.
    change (2 ^ 24) with (32 * 2 ^ 19) in Hq.
    rewrite Z.mul_assoc, Z.div_mul_cancel_r in Hq by lia.
    pose proof (Z.div_mod (Zpos M * 32) m ltac:(lia)) as Hdm.
    pose proof (Z.mod_pos_bound (Zpos M * 32) m ltac:(lia)) as Hmb.
    nia.
  - rewrite fmul_sixteen by lia.
    destruct (fadd_sixteen m) as (C & -> & HC); [lia |].
    destruct (fdiv_normal M C (e + 4) (-19)) as (R & sh & -> & Hsh & HR & Hq);
      try lia.
    exists R, (1 + sh). split; [f_equal; lia |]. split; [exact HR |]. split; [lia |].
    replace (m <? 16) with true by (symmetry; apply Z.ltb_lt; lia). cbv zeta.
    rewrite HC in Hq.
    change (2 ^ 24) with (32 * 2 ^ 19) in Hq.
    rewrite Z.mul_assoc, Z.div_mul_cancel_r in Hq by lia.
    pose proof (Z.div_mod (Zpos M * 32) (16 + m) ltac:(lia)) as Hdm.
    pose proof (Z.mod_pos_bound (Zpos M * 32) (16 + m) ltac:(lia)) as Hmb.
    rewrite pow2_split by lia. change (2 ^ 1) with 2.
    nia.
Qed.

(** Comparison of two normal numbers through their values in a common unit. *)
Lemma flt_normal (M1 M2 : positive) (E0 a b : Z) :
  2 ^ 23 <= Zpos M1 < 2 ^ 24 -> 2 ^ 23 <= Zpos M2 < 2 ^ 24 ->
  0 <= a -> 0 <= b ->
  Zpos M1 * 2 ^ a < Zpos M2 * 2 ^ b ->
  flt (S754_finite false M1 (E0 + a)) (S754_finite false M2 (E0 + b)) = true.
Proof.
  intros H1 H2 Ha Hb Hv. unfold flt, SFltb, SFcompare.
  destruct (Z.compare_spec (E0 + a) (E0 + b)) as [Heq | Hlt | Hgt].
  - assert (a = b) by lia. subst b.
    assert (0 < 2 ^ a) by (apply Z.pow_pos_nonneg; lia).
    assert (Hlt : (M1 < M2)%positive) by nia.
    fold (Pos.compare M1 M2). rewrite (proj2 (Pos.compare_lt_iff M1 M2) Hlt). reflexivity.
  - reflexivity.
  - exfalso. replace a with (b + (a - b)) in Hv by lia.
    rewrite pow2_split in Hv by lia.
    assert (0 < 2 ^ b) by (apply Z.pow_pos_nonneg; lia).
    assert (2 ^ 1 <= 2 ^ (a - b)) by (apply Z.pow_le_mono_r; lia).
    change (2 ^ 1) with 2 in *.
    assert (Hbig : 2 ^ 24 <= Zpos M1 * 2 ^ (a - b)) by nia.
    rewrite (Z.mul_comm (2 ^ b)), Z.mul_assoc in Hv. nia.
Qed.

Lemma table_decreasing_holds (p : Z) : 0 < p < 2 ^ 32 -> table_decreasing p.
Proof.
  intros Hp i j Hi Hij Hj.
  destruct (baseHz_normal p Hp) as (M & e & HB & HM & He).
  destruct (refreshRateForMode_shape p M e HB HM He i ltac:(lia))
    as (Ri & ai & -> & HRi & Hai & Hvi).
  destruct (refreshRateForMode_shape p M e HB HM He j ltac:(lia))
    as (Rj & aj & -> & HRj & Haj & Hvj).
  apply flt_normal; try assumption.
  cbv zeta in Hvi, Hvj.
  set (di := if i <? 16 then 16 + i else 2 * i) in *.
  set (dj := if j <? 16 then 16 + j else 2 * j) in *.
  assert (Hd : 16 <= di /\ di + 1 <= dj /\ dj <= 62).
  { unfold di, dj. destruct (Z.ltb_spec i 16), (Z.ltb_spec j 16); lia. }
  set (Wi := Zpos Ri * 2 ^ ai) in *. set (Wj := Zpos Rj * 2 ^ aj) in *.
  destruct (Z.lt_ge_cases Wj Wi) as [Hlt | Hge]; [exact Hlt | exfalso].
  assert (Hwi : 0 <= Wi).
  { unfold Wi. assert (0 < 2 ^ ai) by (apply Z.pow_pos_nonneg; lia). nia. }
  assert (H1 : Wi * dj <= Wj * dj) by nia.
  assert (H2 : Wi * (dj - di) <= 4 * dj + 4 * di) by nia.
  assert (H3 : Wi <= 496) by nia.
  nia.
Qed.

Lemma shl_align_fst (M : positive) (E ez : Z) :
  ez <= E -> Zpos (fst (shl_align M E ez)) = Zpos M * 2 ^ (E - ez).
Proof.
  intros Hle. unfold shl_align.
  destruct (ez - E) as [| d | d] eqn:Hd; cbn [fst].
  - replace (E - ez) with 0 by lia. change (2 ^ 0) with 1. lia.
  - lia.
  - rewrite pos_iter_xO. f_equal. f_equal. lia.
Qed.

Lemma binary_round_not_negative (m : positive) (e : Z) :
  flt (binary_round prec32 emax32 false m e) (S754_zero false) = false.
Proof.
  unfold binary_round, binary_round_aux.
  destruct (shl_align m e _) as [mz ez].
  destruct (shr_fexp _ _ _ _ _) as [mrs' e'].
  destruct (shr_fexp _ _ _ _ _) as [mrs'' e''].
  destruct (shr_m mrs'') as [| q | q]; [reflexivity | | reflexivity].
  destruct (e'' <=? emax32 - prec32); reflexivity.
Qed.

(** The difference of a normal number and a smaller one is not negative. *)
Lemma fsub_not_negative (M1 M2 : positive) (E1 E2 : Z) :
  2 ^ 23 <= Zpos M1 < 2 ^ 24 -> 2 ^ 23 <= Zpos M2 < 2 ^ 24 ->
  flt (S754_finite false M2 E2) (S754_finite false M1 E1) = true ->
  flt (fsub (S754_finite false M1 E1) (S754_finite false M2 E2)) (S754_zero false)
  = false.
Proof.
  intros H1 H2 Hlt. unfold fsub, SFsub. cbn [cond_Zopp].
  rewrite !shl_align_fst by lia.
  set (D := Zpos M1 * 2 ^ (E1 - Z.min E1 E2) - Zpos M2 * 2 ^ (E2 - Z.min E1 E2)).
  assert (HD : 0 < D).
  { unfold D. unfold flt, SFltb, SFcompare in Hlt.
    destruct (Z.compare_spec E2 E1) as [Heq | Hl | Hg].
    - subst E2. rewrite Z.min_id, Z.sub_diag. change (2 ^ 0) with 1.
      fold (Pos.compare M2 M1) in Hlt.
      destruct (Pos.compare_spec M2 M1) as [| Hm |]; try discriminate Hlt. lia.
    - replace (Z.min E1 E2) with E2 by lia. rewrite Z.sub_diag. change (2 ^ 0) with 1.
      assert (2 ^ 1 <= 2 ^ (E1 - E2)) by (apply Z.pow_le_mono_r; lia).
      change (2 ^ 1) with 2 in *. nia.
    - discriminate Hlt. }
  destruct D as [| d | d]; [lia | | lia].
  cbn [binary_normalize]. apply binary_round_not_negative.
Qed.

Lemma fsub_diag (M : positive) (E : Z) :
  fsub (S754_finite false M E) (S754_finite false M E) = S754_zero false.
Proof. unfold fsub, SFsub. cbn [cond_Zopp]. rewrite Z.sub_diag. reflexivity. Qed.

Lemma gaps_not_negative_holds (p : Z) : 0 < p < 2 ^ 32 -> gaps_not_negative p.
Proof.
  intros Hp m Hm1 Hm2.
  pose proof (table_decreasing_holds p Hp (m - 1) m ltac:(lia) ltac:(lia) Hm2) as Hlt.
  destruct (baseHz_normal p Hp) as (M & e & HB & HM & He).
  destruct (refreshRateForMode_shape p M e HB HM He (m - 1) ltac:(lia))
    as (Ri & ai & Hi & HRi & _).
  destruct (refreshRateForMode_shape p M e HB HM He m ltac:(lia))
    as (Rj & aj & Hj & HRj & _).
  rewrite Hi, Hj in *. rewrite fsub_diag.
  apply fsub_not_negative; assumption.
Qed.

(** C3.  Mode to rate to mode is the identity on the 32 modes, for every
    period measured in mode 0: any non-zero value of the 32-bit field
    [_period_mode0] (l.360, from the rounded measure of l.585).  The rates
    are the single precision values that [_refreshRateForMode] computes, and
    the way back is the dichotomy of [_modeForRefreshRate] with its final
    choice between the two bracketing modes. *)
Theorem modeForRefreshRate_roundtrip (period_mode0 m : Z) :
  0 < period_mode0 < 2 ^ 32 ->
  0 <= m <= 31 ->
  _modeForRefreshRate period_mode0 (_refreshRateForMode period_mode0 m) = m.
Proof.
  intros Hp Hm.
  apply roundtrip_of_table;
    [apply table_decreasing_holds | apply gaps_not_negative_holds | ]; assumption.
Qed.

(** The hypothesis on the period is needed: were the period 0, every rate
    would be infinite and every mode mapped to mode 31. *)
Lemma modeForRefreshRate_unmeasured (m : Z) :
  0 <= m <= 31 ->
  _refreshRateForMode 0 m = S754_infinity false
  /\ _modeForRefreshRate 0 (_refreshRateForMode 0 m) = 31.
Proof.
  intros Hm.
  assert (Hinf : forall k, 0 <= k <= 31 -> _refreshRateForMode 0 k = S754_infinity false).
  { intros k Hk. unfold _refreshRateForMode.
    change (fdiv (float_of_Z 1000000) (float_of_Z 0)) with (S754_infinity false).
    destruct (16 <=? k) eqn:E.
    - replace (int_sub k 16) with (k - 16).
      2:{ unfold int_sub, to_int. symmetry.
          replace (k - 16 + 2 ^ 31) with (k - 16 + 2 ^ 31 + 0 * 2 ^ 32) by lia.
          rewrite Z.mod_add by lia. rewrite Z.mod_small by lia. lia. }
      destruct (fadd_sixteen (k - 16)) as (C & -> & _); [lia | reflexivity].
    - destruct (fadd_sixteen k) as (C & -> & _); [lia | reflexivity]. }
  split; [apply Hinf, Hm |].
  unfold _modeForRefreshRate. rewrite (Hinf m Hm), (Hinf 31) by lia. reflexivity.
Qed.

(** ** Reconfiguration *)

(** A frame queued in the secondary buffer is promoted during the wait: the
    scheduler is not idle before the completion callback has run. *)
Lemma waitUpdateAsyncComplete_promotes (n : nat) (s s1 : driver) :
  _pcb s = Some buffer2fullCB -> asyncUpdateActive s = true ->
  waitUpdateAsyncComplete n s = Some s1 ->
  _pcb s1 = None /\ _fb2full s1 = false.
Proof.
  unfold waitUpdateAsyncComplete. revert s.
  induction n as [| n IH]; intros s Hp Ha Hw; cbn [spin] in Hw; rewrite Ha in Hw;
    cbn [negb] in Hw; [discriminate |].
  destruct (fire n s) as [s2 |] eqn:Ef; [| discriminate].
  destruct (fire_cases _ _ _ Ef) as (s3 & Hso & _ & [-> | Hfin]).
  - destruct (sched_only_fields _ _ Hso) as (Hp3 & Hd3 & _).
    apply (IH s3); [congruence | | exact Hw].
    unfold asyncUpdateActive in *. now rewrite Hd3.
  - destruct (sched_only_fields _ _ Hso) as (Hp3 & _).
    destruct (finish_transfer_policy _ _ _ Hfin) as (Hp2 & _ & Hfull & _).
    destruct (spin_quiet _ _ _ _ Hp2 Hw) as [Hsp Hp1].
    split; [exact Hp1 |].
    destruct (same_policy_fields _ _ Hsp) as (_ & _ & _ & -> & _).
    apply Hfull. congruence.
Qed.

(** ** The queue of triple buffering *)

Lemma diff_at_store_diff (d : dptr) (o : diffbuf) (s : driver) :
  diff_at d (store_diff d o s) = o.
Proof.
  unfold diff_at, store_diff.
  change (diffs (set_diffs (<[d:=o]> (diffs s)) s)) with (<[d:=o]> (diffs s)).
  now rewrite lookup_insert_eq.
Qed.

Lemma frame_at_store_frame (p q : ptr) (f : Frame) (s : driver) :
  frame_at q (store_frame p f s) = if decide (p = q) then f else frame_at q s.
Proof.
  unfold frame_at, store_frame.
  change (mem (set_mem (<[p:=f]> (mem s)) s)) with (<[p:=f]> (mem s)).
  destruct (decide (p = q)) as [-> | Hne].
  - now rewrite lookup_insert_eq.
  - now rewrite lookup_insert_ne.
Qed.

(** [_updateAsync] on a diff that is not empty. *)
Lemma updateAsync_with_launch (wait cb : driver -> option driver) (p : ptr) (d : dptr)
    (s s0 : driver) (r x y len : Z) (o : diffbuf) :
  wait s = Some s0 ->
  readDiff (initRead (diff_at d s0)) 0 0 0 0 = (r, (x, y, len), o) -> 0 <= r ->
  _updateAsync_with wait cb (Some p) (Some d) s = Some (launched p d r x y o s0).
Proof.
  intros Hw Hr Hpos. unfold _updateAsync_with. rewrite Hw. cbv beta iota zeta.
  change (set_diff (Some d) (set_fb (Some p) (set_dma_state ILI9488_T4_DMA_ON
            (set_margin ILI9488_T4_NB_SCANLINES (_startframe (0 <? _vsync_spacing s0) s0)))))
    with (launching p d s0).
  unfold read_diff. rewrite diff_at_store_diff.
  change (diff_at d (launching p d s0)) with (diff_at d s0). rewrite Hr.
  destruct (r <? 0) eqn:E; [lia |]. reflexivity.
Qed.

Lemma launched_fields (p : ptr) (d : dptr) (r x y : Z) (o : diffbuf) (s : driver) :
  let s' := launched p d r x y o s in
  same_policy s s' /\ _pcb s' = _pcb s /\ _dma_state s' = ILI9488_T4_DMA_ON /\
  _fb s' = Some p /\ _diff s' = Some d /\ armed s' = Irq_subFrameTimerStartcb /\
  mem s' = mem s /\ clock s' = clock s /\
  bus s' = bus s ++ [Cmd ILI9488_T4_CASET; Data16 (to_u16 x); Data16 ILI9488_T4_TFTWIDTH;
                     Cmd ILI9488_T4_PASET; Data16 (to_u16 y); Data16 ILI9488_T4_TFTHEIGHT].
Proof.
  intros s'. split; [| now destruct s].
  unfold s', launched. cbv zeta. same_policy_tac.
Qed.

Lemma endframe_policy_fields (s : driver) :
  _fb1 (_endframe s) = _fb1 s /\ _fb2 (_endframe s) = _fb2 s /\
  pending_diff (_endframe s) = pending_diff s /\ diffs (_endframe s) = diffs s /\
  _mirrorfb (_endframe s) = _mirrorfb s.
Proof.
  unfold _endframe, pending_diff. cbv zeta.
  destruct (0 <? _vsync_spacing _); [destruct (_margin _ <? 0) |]; now destruct s.
Qed.

(** The end of a transfer while a frame is queued: the completion callback
    promotes the secondary buffer and starts its upload. *)
Lemma finish_transfer_promotes (n : nat) (s : driver) (d : dptr) (b : ptr)
    (r x y len : Z) (o : diffbuf) :
  _pcb s = Some buffer2fullCB -> _fb2 s = Some b -> pending_diff s = Some d ->
  readDiff (initRead (diff_at d s)) 0 0 0 0 = (r, (x, y, len), o) -> 0 <= r ->
  finish_transfer (call_pcb (S n)) s =
    Some (set_pcb None (set_ongoingDiff None (_setCB None
           (launched b d r x y o (promote (set_dma_state ILI9488_T4_DMA_IDLE (_endframe s))))))).
Proof.
  intros Hp Hb Hd Hr Hpos. unfold finish_transfer. cbv zeta.
  destruct (endframe_fields s) as (Hp0 & _).
  destruct (endframe_policy_fields s) as (_ & Hb0 & Hd0 & Hdf0 & _).
  set (s0 := set_dma_state ILI9488_T4_DMA_IDLE (_endframe s)).
  assert (Hps0 : _pcb s0 = Some buffer2fullCB) by (unfold s0; pnorm; congruence).
  assert (Hbs0 : _fb2 s0 = Some b) by (unfold s0; pnorm; congruence).
  assert (Hds0 : pending_diff s0 = Some d) by (rewrite <- Hd, <- Hd0; reflexivity).
  cbn [call_pcb]. rewrite Hps0, buffer2fullCB_with_eq, Hbs0, Hds0.
  rewrite (updateAsync_with_launch wait_no_irq (call_pcb n) b d (promote s0) (promote s0)
             r x y len o); [reflexivity | | | exact Hpos].
  - unfold wait_no_irq, asyncUpdateActive.
    destruct (promote_fields s0) as (_ & _ & _ & _ & _ & -> & _). reflexivity.
  - assert (Hdiffs : diffs (promote s0) = diffs s).
    { transitivity (diffs s0); [| exact Hdf0].
      unfold promote. cbv zeta. destruct (_mirrorfb s0); reflexivity. }
    unfold diff_at in *. rewrite Hdiffs. exact Hr.
Qed.

(** A submit in triple buffering while an upload is in progress and
    [vsync_spacing] is -1, no interrupt being served during the call. *)
Lemma update_queues (n : nat) (fb : Frame) (force : bool) (s : driver) (a b : ptr) :
  _fb1 s = Some a -> _fb2 s = Some b -> _vsync_spacing s = -1 ->
  asyncUpdateActive s = true ->
  exists s',
    update 0 0 n fb force s = Some s' /\
    frame_at b s' = copyfb (frame_at b s) fb (_rotation s) /\
    (a <> b -> frame_at a s' = frame_at a s) /\
    _fb2full s' = true /\ _pcb s' = Some buffer2fullCB /\
    (_fb1 s' = Some a /\ _fb2 s' = Some b /\ _vsync_spacing s' = -1 /\
     asyncUpdateActive s' = true /\ _rotation s' = _rotation s) /\
    (bus s' = bus s /\ clock s' = clock s /\ armed s' = armed s /\ _fb s' = _fb s /\
     _diff s' = _diff s) /\
    pending_diff s' =
      (if negb (is_null (_mirrorfb s)) && negb force && negb (is_null (_diff2 s))
       then _diff2 s else Some (_dummydiff2 s)).
Proof.
  intros Ha Hb Hv Hact.
  assert (Hdma : _dma_state s = ILI9488_T4_DMA_ON).
  { unfold asyncUpdateActive in Hact. now destruct (_dma_state s). }
  unfold update. cbv zeta.
  assert (Hm : bufferingMode (set_ongoingDiff None s) = TRIPLE_BUFFERING).
  { unfold bufferingMode. pnorm. now rewrite Ha, Hb. }
  rewrite Hm. unfold asyncUpdateActive, do_computeDiff, do_copyfb, pending_diff, frame_at.
  cbn [fire_n]. pnorm. rewrite Hdma, Hv. change (-1 =? -1) with true. cbn [negb]. pnorm.
  destruct (_mirrorfb s) as [mp |] eqn:Em, force, (_diff2 s) as [d2 |] eqn:Ed;
    cbn [is_null negb andb];
    repeat (progress (pnorm; rewrite ?Ha, ?Hb, ?Hdma, ?Em, ?Ed; cbv beta iota));
    (eexists; split; [reflexivity |]);
    repeat (progress (pnorm; rewrite ?Ha, ?Hb, ?Hdma, ?Em, ?Ed; cbv beta iota));
    rewrite ?lookup_insert_eq; cbn [default];
    (repeat split; try reflexivity; try assumption);
    intros Hne; now rewrite lookup_insert_ne by congruence.
Qed.

(** The fields that the end of [_buffer2fullCB] and of the transfer before it
    leave as [_updateAsync] set them. *)
Lemma callback_done_fields (l : driver) :
  let s3 := set_pcb None (set_ongoingDiff None (_setCB None l)) in
  _fb1 s3 = _fb1 l /\ _fb2 s3 = _fb2 l /\ _fb2full s3 = _fb2full l /\ _pcb s3 = None /\
  _dma_state s3 = _dma_state l /\ _fb s3 = _fb l /\ mem s3 = mem l /\ armed s3 = armed l.
Proof. now destruct l. Qed.

(** Two submits in a row while a transfer is active and [vsync_spacing] is
    -1, and the end of that transfer. *)
Lemma newest_wins_without_vsync (n k : nat) (fbA fbB : Frame) (forceA forceB : bool)
    (s : driver) (a b : ptr) :
  _fb1 s = Some a -> _fb2 s = Some b -> a <> b ->
  _vsync_spacing s = -1 -> asyncUpdateActive s = true ->
  exists s1 s2,
    update 0 0 n fbA forceA s = Some s1 /\
    update 0 0 n fbB forceB s1 = Some s2 /\
    (frame_at b s1 = copyfb (frame_at b s) fbA (_rotation s) /\ _fb2full s1 = true) /\
    (frame_at b s2 = copyfb (frame_at b s) fbB (_rotation s) /\ _fb2full s2 = true /\
     _pcb s2 = Some buffer2fullCB /\ frame_at a s2 = frame_at a s /\
     bus s2 = bus s /\ clock s2 = clock s /\ armed s2 = armed s /\ _fb s2 = _fb s /\
     asyncUpdateActive s2 = true) /\
    forall (q : driver) (d : dptr) (r x y len : Z) (o : diffbuf),
      sched_only s2 q -> pending_diff s2 = Some d ->
      readDiff (initRead (diff_at d q)) 0 0 0 0 = (r, (x, y, len), o) -> 0 <= r ->
      exists s3,
        finish_transfer (call_pcb (S k)) q = Some s3 /\
        _fb1 s3 = Some b /\ _fb2 s3 = Some a /\ _fb2full s3 = false /\ _pcb s3 = None /\
        asyncUpdateActive s3 = true /\ _fb s3 = Some b /\
        frame_at b s3 = frame_at b s2 /\ armed s3 = Irq_subFrameTimerStartcb.
Proof.
  intros Ha Hb Hab Hv Hact.
  destruct (update_queues n fbA forceA s a b Ha Hb Hv Hact)
    as (s1 & Hu1 & Hfb1 & Hfa1 & Hfull1 & Hp1 & (Ha1 & Hb1 & Hv1 & Hact1 & Hrot1) &
        (Hbus1 & Hclk1 & Harm1 & Hf1 & _) & _).
  destruct (update_queues n fbB forceB s1 a b Ha1 Hb1 Hv1 Hact1)
    as (s2 & Hu2 & Hfb2 & Hfa2 & Hfull2 & Hp2 & (Ha2 & Hb2 & Hv2 & Hact2 & Hrot2) &
        (Hbus2 & Hclk2 & Harm2 & Hf2 & _) & _).
  exists s1, s2. split; [exact Hu1 |]. split; [exact Hu2 |]. split; [now split |].
  split.
  - rewrite Hfb2, Hrot1, (copyfb_overwrites (frame_at b s1) (frame_at b s)).
    rewrite Hfa2, Hfa1 by exact Hab. repeat split; congruence.
  - intros q d r x y len o Hso Hd Hr Hpos.
    destruct (same_policy_fields _ _ (sched_only_same_policy _ _ Hso))
      as (Hqa & Hqb & Hqm & _ & _ & Hqd2 & _ & Hqdd2 & _).
    destruct (sched_only_fields _ _ Hso) as (Hqp & _ & _ & _ & _ & _ & _ & _ & Hqmem).
    assert (Hqd : pending_diff q = Some d).
    { rewrite <- Hd. unfold pending_diff. now rewrite Hqm, Hqd2, Hqdd2. }
    rewrite (finish_transfer_promotes k q d b r x y len o) by congruence.
    eexists. split; [reflexivity |].
    destruct (endframe_policy_fields q) as (He1 & He2 & _).
    destruct (endframe_fields q) as (_ & _ & _ & _ & _ & _ & _ & Hemem & _).
    set (s0 := set_dma_state ILI9488_T4_DMA_IDLE (_endframe q)).
    assert (Hs01 : _fb1 s0 = Some a) by (unfold s0; pnorm; congruence).
    assert (Hs02 : _fb2 s0 = Some b) by (unfold s0; pnorm; congruence).
    assert (Hs0m : mem s0 = mem s2) by (unfold s0; pnorm; congruence).
    clearbody s0.
    destruct (promote_fields s0) as (Hpr1 & Hpr2 & Hprfull & _).
    assert (Hprm : mem (promote s0) = mem s0).
    { unfold promote. cbv zeta. destruct (_mirrorfb s0); reflexivity. }
    destruct (launched_fields b d r x y o (promote s0))
      as (Hsp & _ & Hdma & Hfb & _ & Harm & Hmem & _).
    destruct (same_policy_fields _ _ Hsp) as (Hl1 & Hl2 & _ & Hlfull & _).
    destruct (callback_done_fields (launched b d r x y o (promote s0)))
      as (Hc1 & Hc2 & Hcfull & Hcp & Hcdma & Hcfb & Hcmem & Hcarm).
    unfold asyncUpdateActive, frame_at.
    rewrite Hc1, Hc2, Hcfull, Hcp, Hcdma, Hcfb, Hcmem, Hcarm.
    rewrite Hl1, Hl2, Hlfull, Hdma, Hfb, Harm, Hmem, Hpr1, Hpr2, Hprfull, Hprm, Hs0m.
    repeat split; congruence.
Qed.


(** A submit that finds the secondary buffer full while [vsync_spacing] is
    not -1 first spins until the buffer is free. *)
Lemma update_waits_for_free_buffer (w1 w2 n : nat) (fb : Frame) (force : bool)
    (s : driver) (a b : ptr) :
  _fb1 s = Some a -> _fb2 s = Some b -> asyncUpdateActive s = true ->
  _vsync_spacing s <> -1 -> _fb2full s = true ->
  update w1 w2 0 fb force s = None /\
  forall s', update w1 w2 n fb force s = Some s' ->
    exists q, spin (fun s => negb (_fb2full s)) n (set_ongoingDiff None s) = Some q /\
              _fb2full q = false.
Proof.
  intros Ha Hb Hact Hv Hfull.
  assert (Hm : bufferingMode (set_ongoingDiff None s) = TRIPLE_BUFFERING).
  { unfold bufferingMode. pnorm. now rewrite Ha, Hb. }
  assert (Hact0 : asyncUpdateActive (set_ongoingDiff None s) = true) by exact Hact.
  assert (Hv0 : (_vsync_spacing (set_ongoingDiff None s) =? -1) = false).
  { pnorm. destruct (_vsync_spacing s =? -1) eqn:E; [lia | reflexivity]. }
  assert (Hfull0 : _fb2full (set_ongoingDiff None s) = true) by exact Hfull.
  unfold update. cbv zeta. rewrite Hm, Hact0, Hv0. cbn [negb].
  revert Hfull0. generalize (set_ongoingDiff None s). intros s0 Hfull0. split.
  - cbn [spin]. now rewrite Hfull0.
  - intros s' Hu. destruct (spin _ n s0) as [q |] eqn:Es; [| discriminate].
    exists q. split; [reflexivity |].
    apply spin_done in Es. now destruct (_fb2full q).
Qed.


(** ** The teared frames *)

Lemma endframe_stats (s : driver) :
  _vsync_spacing (_endframe s) = _vsync_spacing s /\
  _nbteared (_endframe s) =
    (if (0 <? _vsync_spacing s) && (_margin s <? 0)
     then to_u32 (_nbteared s + 1) else _nbteared s) /\
  _statsvar_margin (_endframe s) =
    _statsvar_margin s ++ (if 0 <? _vsync_spacing s then [_margin s] else []).
Proof.
  unfold _endframe. pnorm.
  destruct (0 <? _vsync_spacing s); [destruct (_margin s <? 0) |];
    cbn [andb]; rewrite ?app_nil_r; now destruct s.
Qed.

Lemma launching_stats (p : ptr) (d : dptr) (s : driver) :
  _vsync_spacing (launching p d s) = _vsync_spacing s /\
  _nbteared (launching p d s) = _nbteared s /\
  _statsvar_margin (launching p d s) = _statsvar_margin s.
Proof. now destruct s. Qed.

Lemma callback_end_stats (l : driver) :
  let s3 := set_ongoingDiff None (_setCB None l) in
  _vsync_spacing s3 = _vsync_spacing l /\ _nbteared s3 = _nbteared l /\
  _statsvar_margin s3 = _statsvar_margin l.
Proof. now destruct l. Qed.

Lemma transfer_end_stats (v : option callback) (d : dma_state) (l : driver) :
  let s3 := set_pcb v l in
  let s4 := set_dma_state d l in
  (_vsync_spacing s3 = _vsync_spacing l /\ _nbteared s3 = _nbteared l /\
   _statsvar_margin s3 = _statsvar_margin l) /\
  (_vsync_spacing s4 = _vsync_spacing l /\ _nbteared s4 = _nbteared l /\
   _statsvar_margin s4 = _statsvar_margin l).
Proof. now destruct l. Qed.

Section Stats.

Hypothesis NB_nonneg : 0 <= ILI9488_T4_NB_SCANLINES.

(** A frame that ends as soon as it starts has the margin
    [ILI9488_T4_NB_SCANLINES], which is not negative: the transfers that the
    completion callback starts and ends on the spot count no teared frame. *)
Lemma call_pcb_stats (n : nat) (s s' : driver) :
  call_pcb n s = Some s' ->
  _vsync_spacing s' = _vsync_spacing s /\ _nbteared s' = _nbteared s /\
  exists l, _statsvar_margin s' = _statsvar_margin s ++ l.
Proof.
  revert s s'. induction n as [| n IH]; intros s s' Hc;
    destruct (call_pcb_cases _ _ _ Hc) as [[Hp ->] | (n' & Hn & Hp & Hb)];
    try discriminate.
  - repeat split. exists []. now rewrite app_nil_r.
  - repeat split. exists []. now rewrite app_nil_r.
  - injection Hn as <-.
    rewrite buffer2fullCB_with_eq in Hb.
    destruct (_updateAsync_with _ _ _ _ _) as [s3 |] eqn:Eu; [| discriminate].
    injection Hb as <-.
    destruct (callback_end_stats s3) as (-> & -> & ->).
    destruct (promote_fields s) as (_ & _ & _ & _ & _ & _ & Hv & Hnb & Hst & _).
    destruct (updateAsync_with_cases _ _ _ _ _ _ Eu)
      as [[-> _] | (p & dd & s0 & s1 & _ & _ & Hw & Hs1 & Hm1 & Hend)].
    + rewrite Hv, Hnb, Hst. repeat split. exists []. now rewrite app_nil_r.
    + destruct (wait_no_irq_cases _ _ Hw) as [-> _].
      destruct (sched_only_fields _ _ Hs1) as (_ & _ & _ & _ & Hnb1 & Hst1 & _ & Hv1 & _).
      destruct (launching_stats p dd (promote s)) as (Hlv & Hlnb & Hlst).
      rewrite Hlv, Hv in Hv1. rewrite Hlnb, Hnb in Hnb1. rewrite Hlst, Hst in Hst1.
      destruct Hend as [[-> _] | Hfin].
      * rewrite Hv1, Hnb1, Hst1. repeat split. exists []. now rewrite app_nil_r.
      * destruct (finish_transfer_cases _ _ _ Hfin) as (s4 & Hcb & ->).
        destruct (IH _ _ Hcb) as (Hv4 & Hnb4 & l4 & Hst4).
        destruct (transfer_end_stats None ILI9488_T4_DMA_IDLE s4) as ((-> & -> & ->) & _).
        destruct (transfer_end_stats None ILI9488_T4_DMA_IDLE (_endframe s1))
          as (_ & (Hev & Henb & Hest)).
        rewrite Hev in Hv4. rewrite Henb in Hnb4. rewrite Hest in Hst4.
        destruct (endframe_stats s1) as (Hv5 & Hnb5 & Hst5).
        rewrite Hm1 in Hnb5, Hst5.
        assert (Hneg : (ILI9488_T4_NB_SCANLINES <? 0) = false) by lia.
        rewrite Hneg, andb_false_r in Hnb5.
        rewrite Hv4, Hv5, Hv1, Hnb4, Hnb5, Hnb1, Hst4, Hst5, Hst1.
        repeat split. rewrite <- app_assoc. eauto.
Qed.

(** The end of a transfer counts its frame, and a teared one when the margin
    is negative. *)
Lemma finish_transfer_stats (n : nat) (s s' : driver) :
  finish_transfer (call_pcb n) s = Some s' ->
  _vsync_spacing s' = _vsync_spacing s /\
  _nbteared s' =
    (if (0 <? _vsync_spacing s) && (_margin s <? 0)
     then to_u32 (_nbteared s + 1) else _nbteared s) /\
  exists l, _statsvar_margin s' =
            _statsvar_margin s ++ (if 0 <? _vsync_spacing s then [_margin s] else []) ++ l.
Proof.
  intros Hf. destruct (finish_transfer_cases _ _ _ Hf) as (s2 & Hcb & ->).
  destruct (call_pcb_stats _ _ _ Hcb) as (Hv & Hnb & l & Hst).
  destruct (transfer_end_stats None ILI9488_T4_DMA_IDLE s2) as ((-> & -> & ->) & _).
  destruct (transfer_end_stats None ILI9488_T4_DMA_IDLE (_endframe s))
    as (_ & (Hev & Henb & Hest)).
  rewrite Hev in Hv. rewrite Henb in Hnb. rewrite Hest in Hst.
  destruct (endframe_stats s) as (Hv5 & Hnb5 & Hst5).
  rewrite Hv, Hv5, Hnb, Hnb5, Hst, Hst5. repeat split.
  exists l. now rewrite <- app_assoc.
Qed.

(** A hardware event either goes on with the frame, lowering the margin to
    the slack it measures, or ends the frame with that margin. *)
Lemma fire_stats (n : nat) (s s' : driver) :
  fire n s = Some s' ->
  let m := min_margin (_margin s) (measured s) in
  _vsync_spacing s' = _vsync_spacing s /\
  ((_nbteared s' = _nbteared s /\ _statsvar_margin s' = _statsvar_margin s /\
    _margin s' = m) \/
   (_nbteared s' =
      (if (0 <? _vsync_spacing s) && (m <? 0) then to_u32 (_nbteared s + 1)
       else _nbteared s) /\
    exists l, _statsvar_margin s' =
              _statsvar_margin s ++ (if 0 <? _vsync_spacing s then [m] else []) ++ l)).
Proof.
  intros Hf m. destruct (fire_cases _ _ _ Hf) as (s1 & Hso & Hm & Hend).
  destruct (sched_only_fields _ _ Hso) as (_ & _ & _ & _ & Hnb1 & Hst1 & _ & Hv1 & _).
  destruct Hend as [-> | Hfin].
  - split; [exact Hv1 |]. left. now repeat split.
  - destruct (finish_transfer_stats _ _ _ Hfin) as (Hv & Hnb & l & Hst).
    rewrite Hv1, Hm, Hnb1 in Hnb. rewrite Hv1, Hm, Hst1 in Hst. rewrite Hv1 in Hv.
    split; [exact Hv |]. right. split; [exact Hnb | now exists l].
Qed.

Lemma fire_n_grows (k n : nat) (s s' : driver) :
  fire_n k n s = Some s' ->
  _vsync_spacing s' = _vsync_spacing s /\
  exists l, _statsvar_margin s' = _statsvar_margin s ++ l.
Proof.
  revert s. induction k as [| k IH]; intros s Hf; cbn [fire_n] in Hf.
  - injection Hf as <-. split; [reflexivity |]. exists []. now rewrite app_nil_r.
  - destruct (fire n s) as [s2 |] eqn:E; [| discriminate].
    destruct (IH _ Hf) as (Hv & l & Hst).
    destruct (fire_stats _ _ _ E) as (Hv2 & [(_ & Hst2 & _) | (_ & l2 & Hst2)]).
    + split; [congruence |]. exists l. congruence.
    + split; [congruence |]. rewrite Hst, Hst2, <- !app_assoc. eauto.
Qed.

(** While no frame ends, [_margin] is the minimum of the slacks measured so
    far and no teared frame is counted. *)
Lemma frame_in_progress (k n : nat) (s s1 : driver) :
  0 < _vsync_spacing s ->
  fire_n k n s = Some s1 -> _statsvar_margin s1 = _statsvar_margin s ->
  _margin s1 =
    fold_left (fun m s => min_margin m (measured s)) (states_before k n s) (_margin s) /\
  _nbteared s1 = _nbteared s.
Proof.
  revert s. induction k as [| k IH]; intros s Hv Hf Hst;
    cbn [fire_n states_before] in *.
  - injection Hf as <-. now split.
  - destruct (fire n s) as [s2 |] eqn:E; [| discriminate].
    destruct (fire_n_grows _ _ _ _ Hf) as (_ & l & Hgrow).
    destruct (fire_stats _ _ _ E) as (Hv2 & [(Hnb2 & Hst2 & Hm2) | (_ & l2 & Hst2)]).
    + destruct (IH s2) as [Hm Hnb]; [congruence | exact Hf | congruence |].
      cbn [fold_left]. rewrite Hm, Hm2, Hnb, Hnb2. now split.
    + exfalso. apply Z.ltb_lt in Hv. rewrite Hv in Hst2.
      rewrite Hgrow, Hst2, <- !app_assoc in Hst.
      rewrite <- (app_nil_r (_statsvar_margin s)) in Hst at 2.
      apply app_inv_head in Hst. discriminate.
Qed.

Lemma states_before_snoc (k n : nat) (s s1 : driver) :
  fire_n k n s = Some s1 -> states_before (S k) n s = states_before k n s ++ [s1].
Proof.
  revert s. induction k as [| k IH]; intros s Hf.
  - injection Hf as <-. cbn [states_before]. now destruct (fire n s).
  - cbn [fire_n] in Hf. destruct (fire n s) as [s2 |] eqn:E; [| discriminate].
    change (states_before (S (S k)) n s)
      with (s :: match fire n s with
                 | Some s' => states_before (S k) n s'
                 | None => []
                 end).
    change (states_before (S k) n s)
      with (s :: match fire n s with
                 | Some s' => states_before k n s'
                 | None => []
                 end).
    rewrite E, (IH _ Hf). reflexivity.
Qed.

(** An asynchronous frame that starts with the margin
    [ILI9488_T4_NB_SCANLINES], goes on for [k] hardware events and ends at
    the next one. *)
Lemma async_frame_margin (n k : nat) (s s1 s' : driver) :
  0 < _vsync_spacing s ->
  0 <= _nbteared s < 2 ^ 32 ->
  _margin s = ILI9488_T4_NB_SCANLINES ->
  fire_n k n s = Some s1 -> _statsvar_margin s1 = _statsvar_margin s ->
  fire n s1 = Some s' -> _statsvar_margin s' <> _statsvar_margin s1 ->
  let m := frame_margin (states_before (S k) n s) in
  (exists l, _statsvar_margin s' = _statsvar_margin s ++ m :: l) /\
  _nbteared s' = (if m <? 0 then to_u32 (_nbteared s + 1) else _nbteared s) /\
  (_nbteared s' <> _nbteared s <-> m < 0).
Proof.
  intros Hv Hnb Hm Hk Hquiet Hf Hend m.
  destruct (frame_in_progress _ _ _ _ Hv Hk Hquiet) as [Hm1 Hnb1].
  destruct (fire_n_grows _ _ _ _ Hk) as (Hv1 & _).
  assert (Em : m = min_margin (_margin s1) (measured s1)).
  { unfold m, frame_margin. rewrite (states_before_snoc _ _ _ _ Hk), fold_left_app.
    cbn [fold_left]. now rewrite Hm1, Hm. }
  destruct (fire_stats _ _ _ Hf) as (_ & [(_ & Hst & _) | (Hnb' & l & Hst)]);
    [contradiction |].
  rewrite <- Em, Hv1 in Hnb', Hst. apply Z.ltb_lt in Hv. rewrite Hv in Hnb', Hst.
  cbn [andb] in Hnb'. rewrite Hnb1 in Hnb'. rewrite Hquiet in Hst.
  split; [now exists l |]. split; [exact Hnb' |].
  rewrite Hnb'. destruct (m <? 0) eqn:E.
  - split; [lia |]. intros _. now apply to_u32_succ_neq.
  - split; [congruence | lia].
Qed.


(** A region pushed by [_updateRectNow] measures no slack and does not touch
    [_margin]: its frame ends with the margin that the wait left. *)
Lemma updateRectNow_stale_margin (n : nat) (f : Frame) (b : box) (stride : Z)
    (g g0 g' : driver) :
  0 < _vsync_spacing g0 ->
  xmin (rotationBox (_rotation g) b) <= xmax (rotationBox (_rotation g) b) ->
  ymin (rotationBox (_rotation g) b) <= ymax (rotationBox (_rotation g) b) ->
  waitUpdateAsyncComplete n g = Some g0 ->
  _updateRectNow n (Some f) b stride g = Some g' ->
  _statsvar_margin g' = _statsvar_margin g0 ++ [_margin g0] /\
  _nbteared g' = (if _margin g0 <? 0 then to_u32 (_nbteared g0 + 1) else _nbteared g0) /\
  _margin g' = _margin g0.
Proof.
  intros Hv Hx Hy Hw Hu. unfold _updateRectNow in Hu. cbv zeta in Hu.
  destruct (xmax _ <? xmin _) eqn:E1; [lia |].
  destruct (ymax _ <? ymin _) eqn:E2; [lia |].
  cbn [orb] in Hu. rewrite Hw in Hu. injection Hu as <-.
  match goal with
  | |- context [_endframe ?X] =>
      destruct (endframe_stats X) as (_ & Hnb & Hst);
      destruct (endframe_fields X) as (_ & _ & _ & Hm & _)
  end.
  rewrite Hnb, Hst, Hm. pnorm. unfold _startframe. apply Z.ltb_lt in Hv.
  rewrite Hv. cbn [andb]. repeat split.
Qed.

(** The loop of [_updateNow] writes the private fields of the scheduler only
    and never raises [_margin]; it ends the frame when the diff is read
    through. *)
Lemma updateNow_loop_margin (n : nat) (fb : Frame) (d : dptr) (x y len px py : Z)
    (s s' : driver) :
  _updateNow_loop n fb d x y len px py s = Some s' ->
  exists g, s' = _endframe g /\ sched_only s g /\ _margin g <= _margin s.
Proof.
  revert x y len px py s. induction n as [| n IH]; intros x y len px py s Hu;
    cbn [_updateNow_loop] in Hu; [discriminate |].
  unfold read_diff, _nbScanlineDuring_em_async, tick in Hu. rsimpl_in Hu. split_step Hu.
  all: lazymatch type of Hu with
       | Some (_endframe ?X) = Some _ =>
           injection Hu as <-; exists X;
           split; [reflexivity | split; [sched_only_tac | pnorm; lia]]
       | _updateNow_loop _ _ _ _ _ _ _ _ ?X = Some _ =>
           destruct (IH _ _ _ _ _ _ Hu) as (g & -> & Hso & Hm);
           exists g; split; [reflexivity |];
           assert (Hx : sched_only s X /\ _margin X <= _margin s);
           [ split; [sched_only_tac | pnorm] | ]
       end.
  all: try lia.
  all: try (destruct Hx as [Hx1 Hx2]; split; [exact (sched_only_trans _ _ _ Hx1 Hso) | lia]).
Qed.

(** A frame uploaded by [_updateNow] starts again from the margin
    [ILI9488_T4_NB_SCANLINES], whatever margin the frame before it left. *)
Lemma updateNow_fresh_margin (n : nat) (f : Frame) (d : dptr) (g g0 g' : driver) :
  0 < _vsync_spacing g0 ->
  waitUpdateAsyncComplete n g = Some g0 ->
  _updateNow n (Some f) (Some d) g = Some g' ->
  _margin g' <= ILI9488_T4_NB_SCANLINES /\
  _statsvar_margin g' = _statsvar_margin g0 ++ [_margin g'] /\
  _nbteared g' = (if _margin g' <? 0 then to_u32 (_nbteared g0 + 1) else _nbteared g0).
Proof.
  intros Hv Hw Hu. unfold _updateNow in Hu. rewrite Hw in Hu.
  assert (Hg : exists q, g' = _endframe q /\ sched_only g0 q
                         /\ _margin q <= ILI9488_T4_NB_SCANLINES).
  { unfold read_diff, _microToReachScanLine, _getScanLine, tick in Hu.
    rsimpl_in Hu. split_step Hu.
    all: lazymatch type of Hu with
         | Some (_endframe ?X) = Some _ =>
             injection Hu as <-; exists X;
             split; [reflexivity | split; [| pnorm; lia]]
         | _updateNow_loop _ _ _ _ _ _ _ _ ?X = Some _ =>
             destruct (updateNow_loop_margin _ _ _ _ _ _ _ _ _ _ Hu) as (q & -> & Hso & Hm);
             exists q; split; [reflexivity |];
             assert (Hx : sched_only g0 X /\ _margin X <= ILI9488_T4_NB_SCANLINES);
             [ split; [| pnorm; lia]
             | destruct Hx as [Hx1 Hx2];
               split; [exact (sched_only_trans _ _ _ Hx1 Hso) | lia] ]
         end.
    all: unfold _startframe;
      repeat first
        [ apply sched_only_refl
        | eapply sched_only_trans;
          [| first [ apply so_late_start_ratio_override | apply so_synced_scanline
                   | apply so_last_y | apply so_margin | apply so_slinitpos
                   | apply so_prev_caset_x | apply so_prev_paset_y | apply so_armed
                   | apply so_diffs | apply so_bus | apply so_clock | apply send_sched
                   | apply so_store_diff ] ] ]. }
  destruct Hg as (q & -> & Hso & Hm).
  destruct (sched_only_fields _ _ Hso) as (_ & _ & _ & _ & Hnb & Hst & _ & Hvs & _).
  destruct (endframe_stats q) as (_ & Hnb' & Hst').
  destruct (endframe_fields q) as (_ & _ & _ & Hmq & _).
  rewrite Hmq, Hnb', Hst', Hnb, Hst, Hvs.
  apply Z.ltb_lt in Hv. rewrite Hv. cbn [andb]. repeat split. exact Hm.
Qed.


End Stats.

(** ** Colours *)

Lemma lor_shiftl_add (a b n : Z) :
  0 <= n -> 0 <= b < 2 ^ n -> Z.lor (Z.shiftl a n) b = a * 2 ^ n + b.
Proof.
  intros Hn Hb. rewrite <- Z.shiftl_mul_pow2 by lia.
  assert (Hd : Z.land (Z.shiftl a n) b = 0).
  { apply Z.bits_inj'. intros m Hm. rewrite Z.land_spec, Z.bits_0.
    destruct (Z.lt_ge_cases m n) as [Hlt | Hge].
    - now rewrite Z.shiftl_spec_low.
    - rewrite <- (Z.mod_small b (2 ^ n)) by lia.
      rewrite Z.mod_pow2_bits_high by lia. apply andb_false_r. }
  now rewrite <- (Z.lxor_lor _ _ Hd), <- (Z.add_nocarry_lxor _ _ Hd).
Qed.

(** The three channels of a RGB565 colour. *)
Lemma rgb565_channels (c : Z) :
  0 <= c < 2 ^ 16 ->
  Z.shiftr (Z.land c 0xF800) 11 = c / 2048 /\
  Z.shiftr (Z.land c 0x07E0) 5 = c / 32 mod 64 /\
  Z.land c 0x001F = c mod 32.
Proof.
  intros Hc. repeat split.
  - rewrite Z.shiftr_land. change (Z.shiftr 0xF800 11) with (Z.ones 5).
    rewrite Z.land_ones, Z.shiftr_div_pow2 by lia.
    change (2 ^ 11) with 2048. change (2 ^ 5) with 32.
    apply Z.mod_small. split; [apply Z.div_pos; lia | apply Z.div_lt_upper_bound; lia].
  - rewrite Z.shiftr_land. change (Z.shiftr 0x07E0 5) with (Z.ones 6).
    now rewrite Z.land_ones, Z.shiftr_div_pow2 by lia.
  - change 0x001F with (Z.ones 5). now rewrite Z.land_ones by lia.
Qed.

(** The word sent for a colour, channel by channel. *)
Lemma color24_channels (c : Z) :
  0 <= c < 2 ^ 16 ->
  color24 c = (c / 2048 * 255 / 31) * 65536 + (c / 32 mod 64 * 255 / 63) * 256
              + c mod 32 * 255 / 31.
Proof.
  intros Hc. unfold color24.
  destruct (rgb565_channels c Hc) as (-> & -> & ->).
  assert (Hr : 0 <= c / 2048 < 32)
    by (split; [apply Z.div_pos; lia | apply Z.div_lt_upper_bound; lia]).
  assert (Hg : 0 <= c / 32 mod 64 < 64) by (apply Z.mod_pos_bound; lia).
  assert (Hb : 0 <= c mod 32 < 32) by (apply Z.mod_pos_bound; lia).
  unfold to_u8, to_u32, int_div, int_mul.
  rewrite !(Z.mod_small (c / 2048)), !(Z.mod_small (c / 32 mod 64)),
    !(Z.mod_small (c mod 32)) by lia.
  rewrite !(to_int_small (_ * 255)) by (unfold INT_MIN, INT_MAX; lia).
  rewrite !Z.quot_div_nonneg by lia.
  assert (Hr8 : 0 <= c / 2048 * 255 / 31 < 256)
    by (split; [apply Z.div_pos; lia | apply Z.div_lt_upper_bound; lia]).
  assert (Hg8 : 0 <= c / 32 mod 64 * 255 / 63 < 256)
    by (split; [apply Z.div_pos; lia | apply Z.div_lt_upper_bound; lia]).
  assert (Hb8 : 0 <= c mod 32 * 255 / 31 < 256)
    by (split; [apply Z.div_pos; lia | apply Z.div_lt_upper_bound; lia]).
  rewrite !(to_int_small (_ / _)) by (unfold INT_MIN, INT_MAX; lia).
  rewrite !(Z.mod_small (_ / 31) (2 ^ 8)), !(Z.mod_small (_ / 63) (2 ^ 8)) by lia.
  rewrite !(Z.mod_small (_ / 31) (2 ^ 32)), !(Z.mod_small (_ / 63) (2 ^ 32)) by lia.
  change 16 with (8 + 8) at 1. rewrite <- (Z.shiftl_shiftl _ 8 8) by lia.
  rewrite <- Z.shiftl_lor.
  rewrite (lor_shiftl_add _ (c / 32 mod 64 * 255 / 63) 8) by lia.
  rewrite (lor_shiftl_add _ (c mod 32 * 255 / 31) 8) by lia.
  change (2 ^ 8) with 256. change (2 ^ 32) with 4294967296.
  rewrite Z.mod_small; lia.
Qed.

(** X1.  The word that [_write16BitColor] sends for a 16 bit colour fits in 24
    bits, one byte a channel; the five (red, blue) or six (green) most
    significant bits of each byte are the channel of the colour, so that the
    colour can be read back from the word and two colours never give the same
    word; black gives 0 and white gives 0xFFFFFF. *)
Theorem color24_faithful (c : Z) :
  0 <= c < 2 ^ 16 ->
  0 <= color24 c < 2 ^ 24 /\
  (color24 c / 2 ^ 19) * 2048 + (color24 c / 2 ^ 10 mod 64) * 32 + color24 c / 2 ^ 3 mod 32
    = c /\
  (forall c', 0 <= c' < 2 ^ 16 -> color24 c' = color24 c -> c' = c) /\
  color24 0 = 0 /\ color24 0xFFFF = 0xFFFFFF.
Proof.
  intros Hc.
  assert (Hback : forall d, 0 <= d < 2 ^ 16 ->
    0 <= color24 d < 2 ^ 24 /\
    (color24 d / 2 ^ 19) * 2048 + (color24 d / 2 ^ 10 mod 64) * 32
      + color24 d / 2 ^ 3 mod 32 = d).
  { intros d Hd. rewrite (color24_channels d Hd).
    change (2 ^ 19) with 524288. change (2 ^ 10) with 1024. change (2 ^ 3) with 8.
    change (2 ^ 24) with 16777216. change (2 ^ 16) with 65536 in Hd.
    assert (Hdd : d / 32 / 64 = d / 2048) by (rewrite Z.div_div by lia; reflexivity).
    assert (Hsplit : d = d / 2048 * 2048 + d / 32 mod 64 * 32 + d mod 32)
      by (Z.div_mod_to_equations; lia).
    clear Hdd.
    assert (Hr : 0 <= d / 2048 < 32) by (Z.div_mod_to_equations; lia).
    assert (Hg : 0 <= d / 32 mod 64 < 64) by (Z.div_mod_to_equations; lia).
    assert (Hb : 0 <= d mod 32 < 32) by (Z.div_mod_to_equations; lia).
    revert Hsplit Hr Hg Hb.
    generalize (d / 2048), (d / 32 mod 64), (d mod 32). intros r g b Hsplit Hr Hg Hb.
    assert (Hr8 : 8 * r <= r * 255 / 31 < 8 * r + 8) by (Z.div_mod_to_equations; lia).
    assert (Hg8 : 4 * g <= g * 255 / 63 < 4 * g + 4) by (Z.div_mod_to_equations; lia).
    assert (Hb8 : 8 * b <= b * 255 / 31 < 8 * b + 8) by (Z.div_mod_to_equations; lia).
    revert Hr8 Hg8 Hb8.
    generalize (r * 255 / 31), (g * 255 / 63), (b * 255 / 31). intros R G B Hr8 Hg8 Hb8.
    assert (E1 : (R * 65536 + G * 256 + B) / 524288 = r)
      by (Z.div_mod_to_equations; lia).
    assert (E2 : (R * 65536 + G * 256 + B) / 1024 = 64 * R + g)
      by (Z.div_mod_to_equations; lia).
    assert (E3 : (R * 65536 + G * 256 + B) / 8 = 32 * (256 * R + G) + b)
      by (Z.div_mod_to_equations; lia).
    rewrite E1, E2, E3.
    assert (E4 : (64 * R + g) mod 64 = g) by (Z.div_mod_to_equations; lia).
    assert (E5 : (32 * (256 * R + G) + b) mod 32 = b) by (Z.div_mod_to_equations; lia).
    rewrite E4, E5. lia. }
  destruct (Hback c Hc) as [Hrange Hc']. repeat split; try lia.
  - intros c' Hd He. destruct (Hback c' Hd) as [_ Hd']. rewrite He in Hd'. lia.
Qed.

Lemma write16BitColor_loop_spec (fuel : nat) (word count : Z) :
  0 <= count < 2 ^ 16 -> (Z.to_nat (count - 1) <= fuel)%nat ->
  write16BitColor_loop fuel word count =
    Some (repeat (Tx word) (Z.to_nat (count - 1)), Z.min count 1).
Proof.
  revert count. induction fuel as [| fuel IH]; intros count Hc Hf.
  - cbn [write16BitColor_loop]. destruct (1 <? count) eqn:E; [lia |].
    replace (Z.to_nat (count - 1)) with 0%nat by lia. f_equal. f_equal. lia.
  - cbn [write16BitColor_loop]. destruct (1 <? count) eqn:E.
    + unfold to_u16. rewrite (Z.mod_small (count - 1)) by lia.
      rewrite IH by lia.
      replace (Z.to_nat (count - 1)) with (S (Z.to_nat (count - 1 - 1))) by lia.
      cbn [repeat]. f_equal. f_equal. lia.
    + replace (Z.to_nat (count - 1)) with 0%nat by lia. f_equal. f_equal. lia.
Qed.

(** X2.  [_write16BitColor(color, count, last_pixel)] sends the word of the
    colour [count] times, and once when [count] is 0: the pixel after the loop
    is sent in any case. *)
Theorem write16BitColor_count_words (color count : Z) (last_pixel : bool) :
  0 <= count < 2 ^ 16 ->
  _write16BitColor_count color count last_pixel =
    Some (repeat (Tx (color24 (to_u16 color))) (Z.to_nat (Z.max count 1))).
Proof.
  intros Hc. unfold _write16BitColor_count.
  rewrite !(to_u16_small count) by lia.
  rewrite write16BitColor_loop_spec by lia. f_equal.
  replace (Z.to_nat (Z.max count 1)) with (Z.to_nat (count - 1) + 1)%nat by lia.
  now rewrite repeat_app.
Qed.

(** ** Pixels pushed in the four orientations *)

Lemma pixel_lookup (fb : list Z) (i : Z) :
  0 <= i -> pixel fb i = fb !! Z.to_nat i.
Proof. intros Hi. unfold pixel. destruct (i <? 0) eqn:E; [lia | reflexivity]. Qed.

Lemma pixel_reverse (fb : list Z) (i : Z) :
  pixel (reverse fb) i = pixel fb (Z.of_nat (length fb) - 1 - i).
Proof.
  unfold pixel. destruct (i <? 0) eqn:E1, (Z.of_nat (length fb) - 1 - i <? 0) eqn:E2.
  - reflexivity.
  - symmetry. apply lookup_ge_None. lia.
  - apply lookup_ge_None. rewrite length_reverse. lia.
  - rewrite reverse_lookup by lia. f_equal. lia.
Qed.

(** The words of the colours of a list of pixels. *)
Lemma pushpixels_run_forward (n : nat) (fb : list Z) (i : Z) :
  0 <= i -> (Z.to_nat i + n <= length fb)%nat ->
  pushpixels_run n fb i 1 =
    Some (map (fun c => Tx (color24 (to_u16 c))) (take n (drop (Z.to_nat i) fb))).
Proof.
  revert i. induction n as [| n IH]; intros i Hi Hl; cbn [pushpixels_run].
  - now rewrite take_0.
  - rewrite pixel_lookup by lia.
    destruct (lookup_lt_is_Some_2 fb (Z.to_nat i) ltac:(lia)) as [c Hc].
    rewrite Hc, IH by lia.
    rewrite (drop_S _ _ _ Hc). cbn [take map _write16BitColor app].
    replace (Z.to_nat (i + 1)) with (S (Z.to_nat i)) by lia. reflexivity.
Qed.

Lemma pushpixels_run_backward (n : nat) (fb : list Z) (i : Z) :
  pushpixels_run n fb i (-1) =
  pushpixels_run n (reverse fb) (Z.of_nat (length fb) - 1 - i) 1.
Proof.
  revert i. induction n as [| n IH]; intros i; cbn [pushpixels_run]; [reflexivity |].
  rewrite pixel_reverse, IH.
  replace (Z.of_nat (length fb) - 1 - (Z.of_nat (length fb) - 1 - i)) with i by lia.
  replace (Z.of_nat (length fb) - 1 - (i + -1)) with (Z.of_nat (length fb) - 1 - i + 1)
    by lia.
  reflexivity.
Qed.

(** X3.  In rotation 0 the pixels pushed for a span are the [len] pixels
    stored in the framebuffer from the index [x + 320 * y] on, in this order;
    nothing is pushed for a length that is not positive. *)
Theorem pushpixels_mode0_span (fb : list Z) (x y len : Z) :
  0 <= x -> 0 <= y <= ILI9488_T4_TFTHEIGHT ->
  x + ILI9488_T4_TFTWIDTH * y + Z.max len 0 <= Z.of_nat (length fb) ->
  _pushpixels_mode0 fb x y len =
    Some (map (fun c => Tx (color24 (to_u16 c)))
            (take (Z.to_nat len) (drop (Z.to_nat (x + ILI9488_T4_TFTWIDTH * y)) fb))).
Proof.
  unfold ILI9488_T4_TFTHEIGHT, ILI9488_T4_TFTWIDTH. intros Hx Hy Hl.
  unfold _pushpixels_mode0, int_mul, ILI9488_T4_TFTWIDTH.
  rewrite to_int_small by (unfold INT_MIN, INT_MAX; lia).
  rewrite pushpixels_run_forward by lia. do 4 f_equal. lia.
Qed.

(** X4.  Rotation 2 pushes what rotation 0 pushes for the framebuffer read
    backwards: the same span of the frame turned by 180 degrees. *)
Theorem pushpixels_mode2_reverse (fb : list Z) (xx yy len : Z) :
  Z.of_nat (length fb) = ILI9488_T4_NB_PIXELS ->
  0 <= xx <= ILI9488_T4_TFTWIDTH -> 0 <= yy <= ILI9488_T4_TFTHEIGHT ->
  _pushpixels_mode2 fb xx yy len = _pushpixels_mode0 (reverse fb) xx yy len.
Proof.
  unfold ILI9488_T4_NB_PIXELS, ILI9488_T4_TFTHEIGHT, ILI9488_T4_TFTWIDTH.
  intros Hl Hx Hy.
  unfold _pushpixels_mode2, _pushpixels_mode0, int_mul, int_sub,
    ILI9488_T4_TFTHEIGHT, ILI9488_T4_TFTWIDTH.
  change (to_int (320 - 1)) with 319. change (to_int (480 - 1)) with 479.
  rewrite (to_int_small (319 - xx)), (to_int_small (479 - yy))
    by (unfold INT_MIN, INT_MAX; lia).
  rewrite !to_int_small by (unfold INT_MIN, INT_MAX; lia).
  rewrite pushpixels_run_backward. f_equal. lia.
Qed.

Lemma landscape_index_range (k : Z) :
  0 <= k < ILI9488_T4_NB_PIXELS -> 0 <= landscape_index k < ILI9488_T4_NB_PIXELS.
Proof.
  unfold landscape_index, ILI9488_T4_NB_PIXELS, ILI9488_T4_TFTHEIGHT, ILI9488_T4_TFTWIDTH.
  intros Hk. Z.div_mod_to_equations. lia.
Qed.

Lemma landscape_view_lookup (fb : list Z) (k : Z) :
  Z.of_nat (length fb) = ILI9488_T4_NB_PIXELS -> 0 <= k < ILI9488_T4_NB_PIXELS ->
  pixel (landscape_view fb) k = pixel fb (landscape_index k) /\
  is_Some (pixel fb (landscape_index k)).
Proof.
  intros Hl Hk. pose proof (landscape_index_range k Hk) as Hi.
  rewrite !pixel_lookup by lia.
  destruct (lookup_lt_is_Some_2 fb (Z.to_nat (landscape_index k)) ltac:(lia)) as [c Hc].
  split; [| now exists c].
  unfold landscape_view. rewrite list_lookup_fmap.
  rewrite (proj2 (lookup_seqZ 0 ILI9488_T4_NB_PIXELS (Z.to_nat k) k)) by lia.
  cbn [fmap option_fmap option_map]. rewrite pixel_lookup by lia. now rewrite Hc.
Qed.

(** The walk of [_pushpixels_mode1] from the position [k] of the panel
    memory. *)
Lemma pushpixels_columns_down (n : nat) (fb : list Z) (k : Z) :
  Z.of_nat (length fb) = ILI9488_T4_NB_PIXELS ->
  0 <= k -> k + Z.of_nat n <= ILI9488_T4_NB_PIXELS ->
  pushpixels_columns n true fb (k / ILI9488_T4_TFTWIDTH)
    (ILI9488_T4_TFTWIDTH - 1 - k mod ILI9488_T4_TFTWIDTH)
  = pushpixels_run n (landscape_view fb) k 1.
Proof.
  intros Hl. revert k. induction n as [| n IH]; intros k Hk Hn;
    cbn [pushpixels_columns pushpixels_run]; [reflexivity |].
  destruct (landscape_view_lookup fb k Hl ltac:(lia)) as [-> [c Hc]].
  assert (Hq : 0 <= k / ILI9488_T4_TFTWIDTH < ILI9488_T4_TFTHEIGHT).
  { unfold ILI9488_T4_NB_PIXELS, ILI9488_T4_TFTHEIGHT, ILI9488_T4_TFTWIDTH in *.
    Z.div_mod_to_equations. lia. }
  assert (Hm : 0 <= k mod ILI9488_T4_TFTWIDTH < ILI9488_T4_TFTWIDTH)
    by (apply Z.mod_pos_bound; reflexivity).
  assert (Hidx : int_add (k / ILI9488_T4_TFTWIDTH)
                   (int_mul ILI9488_T4_TFTHEIGHT
                      (ILI9488_T4_TFTWIDTH - 1 - k mod ILI9488_T4_TFTWIDTH))
                 = landscape_index k).
  { unfold int_add, int_mul, landscape_index.
    unfold ILI9488_T4_TFTHEIGHT, ILI9488_T4_TFTWIDTH in *.
    rewrite (to_int_small (480 * _)) by (unfold INT_MIN, INT_MAX; lia).
    rewrite to_int_small by (unfold INT_MIN, INT_MAX; lia). reflexivity. }
  rewrite Hidx, Hc.
  assert (Hnext :
    (let y := int_sub (ILI9488_T4_TFTWIDTH - 1 - k mod ILI9488_T4_TFTWIDTH) 1 in
     if y <? 0
     then (int_add (k / ILI9488_T4_TFTWIDTH) 1, int_sub ILI9488_T4_TFTWIDTH 1)
     else (k / ILI9488_T4_TFTWIDTH, y))
    = ((k + 1) / ILI9488_T4_TFTWIDTH,
       ILI9488_T4_TFTWIDTH - 1 - (k + 1) mod ILI9488_T4_TFTWIDTH)).
  { cbv zeta. unfold int_sub, int_add.
    unfold ILI9488_T4_TFTHEIGHT, ILI9488_T4_TFTWIDTH in *.
    rewrite !to_int_small by (unfold INT_MIN, INT_MAX; lia).
    destruct (320 - 1 - k mod 320 - 1 <? 0) eqn:E; f_equal;
      Z.div_mod_to_equations; lia. }
  cbv zeta in Hnext. rewrite Hnext. rewrite IH by lia. reflexivity.
Qed.

(** X5.  Rotation 1 pushes what rotation 0 pushes for the landscape
    framebuffer laid out as the panel stores it: the pixel of the panel at
    column [px] and row [py] is the pixel of the framebuffer at column [py]
    and row [319 - px]. *)
Theorem pushpixels_mode1_landscape (fb : list Z) (xx yy len : Z) :
  Z.of_nat (length fb) = ILI9488_T4_NB_PIXELS ->
  0 <= xx < ILI9488_T4_TFTWIDTH -> 0 <= yy ->
  xx + ILI9488_T4_TFTWIDTH * yy + Z.max len 0 <= ILI9488_T4_NB_PIXELS ->
  _pushpixels_mode1 fb xx yy len = _pushpixels_mode0 (landscape_view fb) xx yy len.
Proof.
  intros Hl Hx Hy Hn. unfold _pushpixels_mode1, _pushpixels_mode0.
  pose proof (pushpixels_columns_down (Z.to_nat len) fb
                (xx + ILI9488_T4_TFTWIDTH * yy) Hl) as Hd.
  unfold ILI9488_T4_NB_PIXELS, ILI9488_T4_TFTHEIGHT, ILI9488_T4_TFTWIDTH in *.
  unfold int_sub, int_mul. change (to_int (320 - 1)) with 319.
  rewrite (to_int_small (319 - xx)), (to_int_small (yy * 320))
    by (unfold INT_MIN, INT_MAX; lia).
  replace (xx + yy * 320) with (xx + 320 * yy) by lia.
  rewrite <- Hd by lia. f_equal; Z.div_mod_to_equations; lia.
Qed.

(** The walk of [_pushpixels_mode3] is the walk of [_pushpixels_mode1] on the
    framebuffer read backwards. *)
Lemma pushpixels_columns_up (n : nat) (fb : list Z) (x y : Z) :
  Z.of_nat (length fb) = ILI9488_T4_NB_PIXELS ->
  0 <= x -> x + Z.of_nat n <= 2 ^ 20 -> 0 <= y < ILI9488_T4_TFTWIDTH ->
  pushpixels_columns n false fb (ILI9488_T4_TFTHEIGHT - 1 - x) (ILI9488_T4_TFTWIDTH - 1 - y)
  = pushpixels_columns n true (reverse fb) x y.
Proof.
  intros Hl. revert x y. induction n as [| n IH]; intros x y Hx Hn Hy;
    cbn [pushpixels_columns]; [reflexivity |].
  unfold ILI9488_T4_NB_PIXELS, ILI9488_T4_TFTHEIGHT, ILI9488_T4_TFTWIDTH in *.
  assert (Hp : 2 ^ 20 = 1048576) by reflexivity.
  unfold int_add, int_sub, int_mul.
  rewrite !(to_int_small (480 * _)) by (unfold INT_MIN, INT_MAX; lia).
  change (to_int (320 - 1)) with 319.
  rewrite !to_int_small by (unfold INT_MIN, INT_MAX; lia).
  rewrite pixel_reverse, Hl.
  replace (320 * 480 - 1 - (x + 480 * y)) with (480 - 1 - x + 480 * (320 - 1 - y)) by lia.
  destruct (320 <=? 320 - 1 - y + 1) eqn:E1; destruct (y - 1 <? 0) eqn:E2; try lia.
  - replace (480 - 1 - x - 1) with (480 - 1 - (x + 1)) by lia.
    change 0 with (320 - 1 - 319) at 1.
    rewrite (IH (x + 1) 319) by lia. reflexivity.
  - replace (320 - 1 - y + 1) with (320 - 1 - (y - 1)) by lia.
    rewrite (IH x (y - 1)) by lia. reflexivity.
Qed.

(** X6.  Rotation 3 pushes what rotation 1 pushes for the framebuffer read
    backwards: the landscape frame turned by 180 degrees. *)
Theorem pushpixels_mode3_reverse (fb : list Z) (xx yy len : Z) :
  Z.of_nat (length fb) = ILI9488_T4_NB_PIXELS ->
  0 <= xx < ILI9488_T4_TFTWIDTH -> 0 <= yy < ILI9488_T4_TFTHEIGHT ->
  len <= ILI9488_T4_NB_PIXELS ->
  _pushpixels_mode3 fb xx yy len = _pushpixels_mode1 (reverse fb) xx yy len.
Proof.
  intros Hl Hx Hy Hn. unfold _pushpixels_mode3, _pushpixels_mode1.
  pose proof (pushpixels_columns_up (Z.to_nat len) fb yy
                (ILI9488_T4_TFTWIDTH - 1 - xx) Hl) as Hu.
  unfold ILI9488_T4_NB_PIXELS, ILI9488_T4_TFTHEIGHT, ILI9488_T4_TFTWIDTH in *.
  unfold int_sub. change (to_int (320 - 1)) with 319. change (to_int (480 - 1)) with 479.
  rewrite (to_int_small (319 - xx)), (to_int_small (479 - yy))
    by (unfold INT_MIN, INT_MAX; lia).
  etransitivity; [| etransitivity; [apply Hu; change (2 ^ 20) with 1048576; lia |]];
    f_equal; lia.
Qed.

(** ** The touch screen *)

(** X7.  For three measures whose differences and sums fit in 16 bits,
    [_besttwoavg] is the mean (rounded down) of two of them that are the
    closest to each other, and so lies between the smallest and the largest
    measure. *)
Theorem besttwoavg_closest_pair (x y z : Z) :
  - 2 ^ 14 <= x < 2 ^ 14 -> - 2 ^ 14 <= y < 2 ^ 14 -> - 2 ^ 14 <= z < 2 ^ 14 ->
  let r := _besttwoavg x y z in
  ((r = (x + y) / 2 /\ Z.abs (x - y) <= Z.abs (x - z) /\ Z.abs (x - y) <= Z.abs (y - z)) \/
   (r = (x + z) / 2 /\ Z.abs (x - z) <= Z.abs (x - y) /\ Z.abs (x - z) <= Z.abs (y - z)) \/
   (r = (y + z) / 2 /\ Z.abs (y - z) <= Z.abs (x - y) /\ Z.abs (y - z) <= Z.abs (x - z))) /\
  Z.min x (Z.min y z) <= r <= Z.max x (Z.max y z).
Proof.
  intros Hx Hy Hz r.
  assert (H14 : 2 ^ 14 = 16384) by reflexivity.
  assert (Hsmall : forall v, - 2 ^ 15 <= v < 2 ^ 15 -> to_i16 v = v).
  { intros v Hv. unfold to_i16. rewrite Z.mod_small; lia. }
  assert (Hint : forall v, - 2 ^ 15 <= v < 2 ^ 15 -> to_int v = v).
  { intros v Hv. apply to_int_small. unfold INT_MIN, INT_MAX. lia. }
  assert (Hhalf : forall v, Z.shiftr v 1 = v / 2).
  { intros v. now rewrite Z.shiftr_div_pow2 by lia. }
  assert (Er : r = _besttwoavg x y z) by reflexivity. clearbody r.
  unfold _besttwoavg, int_sub, int_add in Er.
  rewrite !Hint, !Hhalf in Er by lia.
  rewrite !(Hsmall (_ - _)) in Er by lia.
  assert (Hxy : - 2 ^ 15 <= (x + y) / 2 < 2 ^ 15) by (Z.div_mod_to_equations; lia).
  assert (Hxz : - 2 ^ 15 <= (x + z) / 2 < 2 ^ 15) by (Z.div_mod_to_equations; lia).
  assert (Hyz : - 2 ^ 15 <= (y + z) / 2 < 2 ^ 15) by (Z.div_mod_to_equations; lia).
  rewrite !(Hsmall (_ / 2)) in Er by assumption.
  clear Hsmall Hint Hhalf.
  destruct (y <? x) eqn:E1, (z <? x) eqn:E2, (y <? z) eqn:E3;
    repeat match type of Er with
           | context [?a <=? ?b] => destruct (a <=? b) eqn:?
           end;
    cbn [andb] in Er; subst r; (split; [| Z.div_mod_to_equations; lia]); lia.
Qed.


(** ** Direct drawing *)

Lemma bus_send (evs : list bus_ev) (s : driver) : bus (send evs s) = bus s ++ evs.
Proof. reflexivity. Qed.

Lemma fill_pixels_bus (count color : Z) (s : driver) :
  sched_only s (fill_pixels count color s) /\
  bus (fill_pixels count color s) =
    bus s ++ repeat (Tx (color24 (to_u16 color))) (Z.to_nat count).
Proof.
  unfold fill_pixels. induction (Z.to_nat count) as [| k [IHs IHb]].
  - split; [apply sched_only_refl | now rewrite app_nil_r].
  - change (Nat.iter (S k) ?f s) with (f (Nat.iter k f s)). split.
    + apply (sched_only_trans _ _ _ IHs). apply send_sched.
    + rewrite bus_send, IHb, <- app_assoc. f_equal.
      change (_write16BitColor color false) with [Tx (color24 (to_u16 color))].
      now rewrite <- repeat_cons.
Qed.

Lemma to_u16_idemp (z : Z) : to_u16 (to_u16 z) = to_u16 z.
Proof. unfold to_u16. now rewrite Z.mod_mod. Qed.

(** The fields that [store_frame], [set_mirrorfb], [set_ongoingDiff] and
    [resync] leave as they were, and the ones they set. *)
Lemma clear_tail_fields (p : ptr) (f : Frame) (g : driver) :
  let s' := resync (set_ongoingDiff None (set_mirrorfb (_fb1 (store_frame p f g))
                                            (store_frame p f g))) in
  bus s' = bus g /\ _mirrorfb s' = _fb1 g /\ _ongoingDiff s' = None /\
  frame_at p s' = f /\ _dma_state s' = _dma_state g /\ _fb1 s' = _fb1 g /\
  _fb2 s' = _fb2 g /\ _fb2full s' = _fb2full g /\ _pcb s' = _pcb g.
Proof.
  intros s'. unfold s', frame_at. pnorm. rewrite lookup_insert_eq. now destruct g.
Qed.

Lemma resync_fields (g : driver) :
  bus (resync g) = bus g /\ _mirrorfb (resync g) = _mirrorfb g /\
  mem (resync g) = mem g /\ _dma_state (resync g) = _dma_state g /\
  _fb1 (resync g) = _fb1 g /\ _ongoingDiff (resync g) = _ongoingDiff g /\
  _late_start_ratio_override (resync g) = true.
Proof. now destruct g. Qed.

(** X8.  [clear] waits for the upload in progress, then sends the window of
    the whole panel and the word of the colour once for each of its pixels.
    When the driver owns a framebuffer, it is filled with the colour and
    recorded as the mirror of the screen; otherwise the mirror and the memory
    are left as they were. *)
Theorem clear_fills_panel_and_mirror (n : nat) (color : Z) (s s1 : driver) :
  waitUpdateAsyncComplete n s = Some s1 ->
  exists s',
    clear n color s = Some s' /\
    bus s' = bus s1
             ++ [Cmd ILI9488_T4_PASET; Data16 0; Data16 479;
                 Cmd ILI9488_T4_CASET; Data16 0; Data16 319; Cmd ILI9488_T4_RAMWR]
             ++ repeat (Tx (color24 (to_u16 color))) (Z.to_nat ILI9488_T4_NB_PIXELS)
             ++ [Cmd ILI9488_T4_NOP] /\
    _dma_state s' = ILI9488_T4_DMA_IDLE /\ _fb1 s' = _fb1 s1 /\
    match _fb1 s1 with
    | Some p =>
        _mirrorfb s' = Some p /\ _ongoingDiff s' = None /\
        frame_at p s' = repeat (to_u16 color) (Z.to_nat ILI9488_T4_NB_PIXELS)
    | None => _mirrorfb s' = _mirrorfb s1 /\ mem s' = mem s1
    end.
Proof.
  intros Hw. unfold clear. rewrite Hw. cbv zeta.
  pose proof (waitUpdateAsyncComplete_idle _ _ _ Hw) as Hidle.
  set (w := send [Cmd ILI9488_T4_PASET; Data16 0; Data16 (to_u16 (ILI9488_T4_TFTHEIGHT - 1));
                  Cmd ILI9488_T4_CASET; Data16 0; Data16 (to_u16 (ILI9488_T4_TFTWIDTH - 1));
                  Cmd ILI9488_T4_RAMWR] s1).
  destruct (fill_pixels_bus ILI9488_T4_NB_PIXELS (to_u16 color) w) as [Hso Hbus].
  assert (Hsow : sched_only s1 w) by apply send_sched.
  pose proof (sched_only_trans _ _ _ Hsow Hso) as Hso1.
  assert (Hsog : sched_only s1 (send [Cmd ILI9488_T4_NOP]
                                  (fill_pixels ILI9488_T4_NB_PIXELS (to_u16 color) w)))
    by (apply (sched_only_trans _ _ _ Hso1); apply send_sched).
  assert (Hbg : bus (send [Cmd ILI9488_T4_NOP]
                       (fill_pixels ILI9488_T4_NB_PIXELS (to_u16 color) w))
                = bus s1
                  ++ [Cmd ILI9488_T4_PASET; Data16 0; Data16 479;
                      Cmd ILI9488_T4_CASET; Data16 0; Data16 319; Cmd ILI9488_T4_RAMWR]
                  ++ repeat (Tx (color24 (to_u16 color))) (Z.to_nat ILI9488_T4_NB_PIXELS)
                  ++ [Cmd ILI9488_T4_NOP]).
  { rewrite bus_send, Hbus. unfold w. rewrite bus_send, <- !app_assoc.
    rewrite to_u16_idemp. reflexivity. }
  revert Hsog Hbg.
  generalize (send [Cmd ILI9488_T4_NOP] (fill_pixels ILI9488_T4_NB_PIXELS (to_u16 color) w)).
  intros g Hsog Hbg.
  destruct (sched_only_fields _ _ Hsog) as (_ & Hdma & _ & _ & _ & _ & _ & _ & Hmem).
  destruct (same_policy_fields _ _ (sched_only_same_policy _ _ Hsog))
    as (Hf1 & _ & Hm & _).
  eexists. split; [reflexivity |].
  rewrite <- Hf1. destruct (_fb1 g) as [p |] eqn:Eg.
  - destruct (clear_tail_fields p (repeat (to_u16 color) (Z.to_nat ILI9488_T4_NB_PIXELS)) g)
      as (-> & -> & -> & -> & -> & -> & _).
    repeat split; congruence.
  - destruct (resync_fields g) as (-> & -> & -> & -> & -> & _).
    repeat split; congruence.
Qed.

Lemma drawRect_tail_fields (g : driver) :
  let s' := set_ongoingDiff None (set_mirrorfb None g) in
  bus s' = bus g /\ _mirrorfb s' = None /\ _ongoingDiff s' = None /\
  mem s' = mem g /\ _dma_state s' = _dma_state g /\ _fb1 s' = _fb1 g.
Proof. now destruct g. Qed.

(** X9.  [_drawRect] waits for the upload in progress, sends the window and
    the word of the colour [(xmax - xmin + 1) * (ymax - ymin + 1)] times
    (no pixel when this product is not positive), and forgets the mirror; it
    writes no framebuffer. *)
Theorem drawRect_forgets_mirror (n : nat) (b : box) (color : Z) (s s1 : driver) :
  waitUpdateAsyncComplete n s = Some s1 ->
  - 2 ^ 14 <= xmin b < 2 ^ 14 -> - 2 ^ 14 <= xmax b < 2 ^ 14 ->
  - 2 ^ 14 <= ymin b < 2 ^ 14 -> - 2 ^ 14 <= ymax b < 2 ^ 14 ->
  exists s',
    _drawRect n b color s = Some s' /\
    bus s' = bus s1
             ++ [Cmd ILI9488_T4_PASET; Data16 (to_u16 (ymin b)); Data16 (to_u16 (ymax b));
                 Cmd ILI9488_T4_CASET; Data16 (to_u16 (xmin b)); Data16 (to_u16 (xmax b));
                 Cmd ILI9488_T4_RAMWR]
             ++ repeat (Tx (color24 (to_u16 color)))
                  (Z.to_nat ((xmax b - xmin b + 1) * (ymax b - ymin b + 1)))
             ++ [Cmd ILI9488_T4_NOP] /\
    _mirrorfb s' = None /\ _ongoingDiff s' = None /\ mem s' = mem s1 /\
    _dma_state s' = ILI9488_T4_DMA_IDLE.
Proof.
  intros Hw Hx1 Hx2 Hy1 Hy2. unfold _drawRect. rewrite Hw. cbv zeta.
  pose proof (waitUpdateAsyncComplete_idle _ _ _ Hw) as Hidle.
  assert (Hcount : int_mul (int_add (int_sub (xmax b) (xmin b)) 1)
                     (int_add (int_sub (ymax b) (ymin b)) 1)
                   = (xmax b - xmin b + 1) * (ymax b - ymin b + 1)).
  { assert (H14 : 2 ^ 14 = 16384) by reflexivity.
    unfold int_mul, int_add, int_sub.
    rewrite (to_int_small (xmax b - xmin b)), (to_int_small (ymax b - ymin b))
      by (unfold INT_MIN, INT_MAX; lia).
    rewrite (to_int_small (xmax b - xmin b + 1)), (to_int_small (ymax b - ymin b + 1))
      by (unfold INT_MIN, INT_MAX; lia).
    apply to_int_small. unfold INT_MIN, INT_MAX.
    assert (Hw' : - 32768 <= xmax b - xmin b + 1 <= 32768) by lia.
    assert (Hh' : - 32768 <= ymax b - ymin b + 1 <= 32768) by lia.
    revert Hw' Hh'. generalize (xmax b - xmin b + 1), (ymax b - ymin b + 1).
    intros w h Hw' Hh'. change (2 ^ 31) with 2147483648. nia. }
  rewrite Hcount.
  set (w := send [Cmd ILI9488_T4_PASET; Data16 (to_u16 (ymin b)); Data16 (to_u16 (ymax b));
                  Cmd ILI9488_T4_CASET; Data16 (to_u16 (xmin b)); Data16 (to_u16 (xmax b));
                  Cmd ILI9488_T4_RAMWR] s1).
  destruct (fill_pixels_bus ((xmax b - xmin b + 1) * (ymax b - ymin b + 1)) (to_u16 color) w)
    as [Hso Hbus].
  assert (Hsow : sched_only s1 w) by apply send_sched.
  pose proof (sched_only_trans _ _ _ Hsow Hso) as Hso1.
  set (f := fill_pixels ((xmax b - xmin b + 1) * (ymax b - ymin b + 1)) (to_u16 color) w) in *.
  assert (Hsog : sched_only s1 (send [Cmd ILI9488_T4_NOP] f))
    by (apply (sched_only_trans _ _ _ Hso1); apply send_sched).
  assert (Hbg : bus (send [Cmd ILI9488_T4_NOP] f)
                = bus s1
                  ++ [Cmd ILI9488_T4_PASET; Data16 (to_u16 (ymin b)); Data16 (to_u16 (ymax b));
                      Cmd ILI9488_T4_CASET; Data16 (to_u16 (xmin b)); Data16 (to_u16 (xmax b));
                      Cmd ILI9488_T4_RAMWR]
                  ++ repeat (Tx (color24 (to_u16 color)))
                       (Z.to_nat ((xmax b - xmin b + 1) * (ymax b - ymin b + 1)))
                  ++ [Cmd ILI9488_T4_NOP]).
  { rewrite bus_send, Hbus. unfold w. rewrite bus_send, <- !app_assoc.
    rewrite to_u16_idemp. reflexivity. }
  revert Hsog Hbg. generalize (send [Cmd ILI9488_T4_NOP] f). intros g Hsog Hbg.
  destruct (sched_only_fields _ _ Hsog) as (_ & Hdma & _ & _ & _ & _ & _ & _ & Hmem).
  eexists. split; [reflexivity |].
  destruct (drawRect_tail_fields g) as (-> & -> & -> & -> & -> & _).
  repeat split; congruence.
Qed.

(** ** The owned buffers *)

Lemma setFramebuffers_tail (fb1 fb2 : option ptr) (g : driver) :
  let s1 := set_fb2full false (set_ongoingDiff None (set_mirrorfb None g)) in
  let s2 := if is_null fb1 then set_fb2 fb1 (set_fb1 fb2 s1) else set_fb2 fb2 (set_fb1 fb1 s1) in
  _fb1 s2 = (if is_null fb1 then fb2 else fb1) /\
  _fb2 s2 = (if is_null fb1 then fb1 else fb2) /\
  _fb2full s2 = false /\ _mirrorfb s2 = None /\ _ongoingDiff s2 = None /\
  _dma_state s2 = _dma_state g /\ _pcb s2 = _pcb g /\ bus s2 = bus g /\ mem s2 = mem g.
Proof. destruct fb1; now destruct g. Qed.

Lemma zeroed_fields (q : option ptr) (g : driver) :
  let s' := match q with Some p => store_frame p zero_frame g | None => g end in
  _fb1 s' = _fb1 g /\ _fb2 s' = _fb2 g /\ _fb2full s' = _fb2full g /\
  _mirrorfb s' = _mirrorfb g /\ _ongoingDiff s' = _ongoingDiff g /\
  _dma_state s' = _dma_state g /\ _pcb s' = _pcb g /\ bus s' = bus g /\
  (forall p, frame_at p s' = if decide (q = Some p) then zero_frame else frame_at p g).
Proof.
  destruct q as [p0 |]; cbv zeta.
  - repeat split; try (now destruct g). intros p. rewrite frame_at_store_frame.
    destruct (decide (p0 = p)) as [-> | Hne]; destruct (decide _); congruence.
  - repeat split.
Qed.

Lemma resync_policy (g : driver) :
  _fb1 (resync g) = _fb1 g /\ _fb2 (resync g) = _fb2 g /\
  _fb2full (resync g) = _fb2full g /\ _mirrorfb (resync g) = _mirrorfb g /\
  _ongoingDiff (resync g) = _ongoingDiff g /\ _dma_state (resync g) = _dma_state g /\
  _pcb (resync g) = _pcb g /\ bus (resync g) = bus g /\
  (forall p, frame_at p (resync g) = frame_at p g).
Proof. now destruct g. Qed.

(** What [setFramebuffers] leaves, from the state [s1] in which its wait
    ends. *)
Lemma setFramebuffers_result (n : nat) (fb1 fb2 : option ptr) (s s1 : driver) :
  waitUpdateAsyncComplete n s = Some s1 ->
  exists s',
    setFramebuffers n fb1 fb2 s = Some s' /\
    _fb1 s' = (if is_null fb1 then fb2 else fb1) /\
    _fb2 s' = (if is_null fb1 then fb1 else fb2) /\
    _fb2full s' = false /\ _mirrorfb s' = None /\ _ongoingDiff s' = None /\
    bus s' = bus s1 /\
    (forall p, frame_at p s' =
               if decide (fb1 = Some p \/ fb2 = Some p) then zero_frame else frame_at p s1).
Proof.
  intros Hw. unfold setFramebuffers. rewrite Hw. cbv zeta.
  destruct (setFramebuffers_tail fb1 fb2 s1) as (H1 & H2 & H3 & H4 & H5 & _ & _ & H8 & H9).
  cbv zeta in H1, H2, H3, H4, H5, H8, H9. revert H1 H2 H3 H4 H5 H8 H9.
  generalize (if is_null fb1
              then set_fb2 fb1 (set_fb1 fb2
                     (set_fb2full false (set_ongoingDiff None (set_mirrorfb None s1))))
              else set_fb2 fb2 (set_fb1 fb1
                     (set_fb2full false (set_ongoingDiff None (set_mirrorfb None s1))))).
  intros g H1 H2 H3 H4 H5 H8 H9.
  destruct (zeroed_fields (_fb1 g) g) as (A1 & A2 & A3 & A4 & A5 & _ & _ & A8 & A9).
  cbv zeta in A1, A2, A3, A4, A5, A8, A9. revert A1 A2 A3 A4 A5 A8 A9.
  generalize (match _fb1 g with Some p => store_frame p zero_frame g | None => g end).
  intros g1 A1 A2 A3 A4 A5 A8 A9.
  destruct (zeroed_fields (_fb2 g1) g1) as (B1 & B2 & B3 & B4 & B5 & _ & _ & B8 & B9).
  cbv zeta in B1, B2, B3, B4, B5, B8, B9. revert B1 B2 B3 B4 B5 B8 B9.
  generalize (match _fb2 g1 with Some p => store_frame p zero_frame g1 | None => g1 end).
  intros g2 B1 B2 B3 B4 B5 B8 B9.
  destruct (resync_policy g2) as (C1 & C2 & C3 & C4 & C5 & _ & _ & C8 & C9).
  eexists. split; [reflexivity |].
  rewrite C1, C2, C3, C4, C5, C8, B1, B2, B3, B4, B5, B8, A1, A2, A3, A4, A5, A8.
  repeat split; try assumption.
  intros p. rewrite C9, B9, A9, A2, H1, H2.
  assert (Hfr : frame_at p g = frame_at p s1) by (unfold frame_at; now rewrite H9).
  rewrite Hfr.
  destruct fb1 as [p1 |], fb2 as [p2 |]; cbn [is_null];
    repeat destruct (decide _); try reflexivity; exfalso; intuition congruence.
Qed.

(** X10.  [setFramebuffers] takes its two buffers in any order when one of
    them is null; the driver is then in no buffering, double buffering or
    triple buffering with none, one or two buffers.  Each buffer given is
    zeroed, no other memory is written, the secondary buffer is free and the
    mirror is forgotten. *)
Theorem setFramebuffers_modes (n : nat) (fb1 fb2 : option ptr) (s s1 : driver) :
  waitUpdateAsyncComplete n s = Some s1 ->
  exists s',
    setFramebuffers n fb1 fb2 s = Some s' /\
    (fb1 = None \/ fb2 = None -> setFramebuffers n fb2 fb1 s = Some s') /\
    bufferingMode s' =
      match fb1, fb2 with
      | None, None => NO_BUFFERING
      | Some _, Some _ => TRIPLE_BUFFERING
      | _, _ => DOUBLE_BUFFERING
      end /\
    _fb2full s' = false /\ _mirrorfb s' = None /\
    (forall p, frame_at p s' =
               if decide (fb1 = Some p \/ fb2 = Some p) then zero_frame else frame_at p s1).
Proof.
  intros Hw. destruct (setFramebuffers_result n fb1 fb2 s s1 Hw)
    as (s' & Hs' & H1 & H2 & H3 & H4 & _ & _ & H9).
  exists s'. split; [exact Hs' |]. split; [| split; [| now repeat split]].
  - intros Hnull. rewrite <- Hs'. unfold setFramebuffers.
    destruct fb1, fb2; destruct Hnull; try discriminate; reflexivity.
  - unfold bufferingMode. rewrite H1, H2. now destruct fb1, fb2.
Qed.

(** X11.  [setDiffBuffers] takes its two diff buffers in any order when one of
    them is null, so that a second diff buffer is never held without a first
    one; it changes nothing else: the mirror, the pending diff, the
    framebuffers and their memory stay as the wait left them. *)
Theorem setDiffBuffers_order (n : nat) (diff1 diff2 : option dptr) (s s1 : driver) :
  waitUpdateAsyncComplete n s = Some s1 ->
  exists s',
    setDiffBuffers n diff1 diff2 s = Some s' /\
    (diff1 = None \/ diff2 = None -> setDiffBuffers n diff2 diff1 s = Some s') /\
    (_diff1 s' = None -> _diff2 s' = None) /\
    (_diff1 s' = diff1 /\ _diff2 s' = diff2 \/ _diff1 s' = diff2 /\ _diff2 s' = diff1) /\
    _mirrorfb s' = _mirrorfb s1 /\ _ongoingDiff s' = _ongoingDiff s1 /\
    _fb1 s' = _fb1 s1 /\ _fb2 s' = _fb2 s1 /\ mem s' = mem s1 /\ bus s' = bus s1.
Proof.
  intros Hw. unfold setDiffBuffers. rewrite Hw.
  eexists. split; [reflexivity |]. split.
  - intros Hnull. destruct diff1, diff2; destruct Hnull; try discriminate; reflexivity.
  - destruct diff1, diff2; cbn [is_null]; destruct s1; rsimpl;
      intuition (auto; congruence).
Qed.

(** ** What the interrupts never write *)

Lemma keeps_settings_refl (s : driver) : keeps_settings s s.
Proof. unfold keeps_settings, same_buffers. auto 10. Qed.

Lemma keeps_settings_trans (s1 s2 s3 : driver) :
  keeps_settings s1 s2 -> keeps_settings s2 s3 -> keeps_settings s1 s3.
Proof.
  unfold keeps_settings, same_buffers.
  intros (E1 & F1 & D1 & U1) (E2 & F2 & D2 & U2). split; [congruence |].
  repeat split.
  - destruct F1 as [[? ?] | [? ?]], F2 as [[? ?] | [? ?]];
      [left | right | right | left]; split; congruence.
  - destruct D1 as [[? ?] | [? ?]], D2 as [[? ?] | [? ?]];
      [left | right | right | left]; split; congruence.
  - destruct U1 as [[? ?] | [? ?]], U2 as [[? ?] | [? ?]];
      [left | right | right | left]; split; congruence.
Qed.

Lemma keeps_settings_fields (s s' : driver) :
  settings s' = settings s ->
  _fb1 s' = _fb1 s -> _fb2 s' = _fb2 s -> _diff1 s' = _diff1 s -> _diff2 s' = _diff2 s ->
  _dummydiff1 s' = _dummydiff1 s -> _dummydiff2 s' = _dummydiff2 s ->
  keeps_settings s s'.
Proof. unfold keeps_settings, same_buffers. auto 10. Qed.

Lemma sched_only_keeps (s s' : driver) : sched_only s s' -> keeps_settings s s'.
Proof. intros ->. apply keeps_settings_fields; now destruct s. Qed.

Lemma launching_keeps (p : ptr) (d : dptr) (s : driver) : keeps_settings s (launching p d s).
Proof. apply keeps_settings_fields; now destruct s. Qed.

Lemma endframe_keeps (s : driver) : keeps_settings s (_endframe s).
Proof.
  unfold _endframe. cbv zeta. pnorm.
  destruct (0 <? _vsync_spacing s); [destruct (_margin s <? 0) |];
    apply keeps_settings_fields; now destruct s.
Qed.

Lemma promote_keeps (s : driver) : keeps_settings s (promote s).
Proof.
  unfold keeps_settings, same_buffers, promote, settings. cbv zeta.
  destruct (_mirrorfb s); destruct s; rsimpl; auto 10.
Qed.

Lemma set_pcb_keeps v (s : driver) : keeps_settings s (set_pcb v s).
Proof. apply keeps_settings_fields; now destruct s. Qed.

Lemma set_dma_state_keeps v (s : driver) : keeps_settings s (set_dma_state v s).
Proof. apply keeps_settings_fields; now destruct s. Qed.

Lemma callback_end_keeps (s : driver) :
  keeps_settings s (set_ongoingDiff None (_setCB None s)).
Proof. apply keeps_settings_fields; now destruct s. Qed.

Lemma call_pcb_keeps (n : nat) (s s' : driver) :
  call_pcb n s = Some s' -> keeps_settings s s'.
Proof.
  revert s s'. induction n as [| n IH]; intros s s' Hc;
    destruct (call_pcb_cases _ _ _ Hc) as [[Hp ->] | (n' & Hn & Hp & Hb)];
    try discriminate; try apply keeps_settings_refl.
  injection Hn as <-. rewrite buffer2fullCB_with_eq in Hb.
  destruct (_updateAsync_with _ _ _ _ _) as [s3 |] eqn:Eu; [| discriminate].
  injection Hb as <-.
  apply (keeps_settings_trans _ s3); [| apply callback_end_keeps].
  apply (keeps_settings_trans _ _ _ (promote_keeps s)).
  destruct (updateAsync_with_cases _ _ _ _ _ _ Eu)
    as [[-> _] | (p & dd & s0 & s1 & _ & _ & Hw & Hs1 & _ & Hend)];
    [apply keeps_settings_refl |].
  destruct (wait_no_irq_cases _ _ Hw) as [-> _].
  apply (keeps_settings_trans _ _ _ (launching_keeps p dd (promote s))).
  apply (keeps_settings_trans _ _ _ (sched_only_keeps _ _ Hs1)).
  destruct Hend as [[-> _] | Hfin]; [apply keeps_settings_refl |].
  destruct (finish_transfer_cases _ _ _ Hfin) as (s4 & Hcb & ->).
  apply (keeps_settings_trans _ _ _ (endframe_keeps s1)).
  apply (keeps_settings_trans _ _ _ (set_dma_state_keeps ILI9488_T4_DMA_IDLE _)).
  apply (keeps_settings_trans _ _ _ (IH _ _ Hcb)). apply set_pcb_keeps.
Qed.

Lemma finish_transfer_keeps (n : nat) (s s' : driver) :
  finish_transfer (call_pcb n) s = Some s' -> keeps_settings s s'.
Proof.
  intros Hf. destruct (finish_transfer_cases _ _ _ Hf) as (s2 & Hcb & ->).
  apply (keeps_settings_trans _ _ _ (endframe_keeps s)).
  apply (keeps_settings_trans _ _ _ (set_dma_state_keeps ILI9488_T4_DMA_IDLE _)).
  apply (keeps_settings_trans _ _ _ (call_pcb_keeps _ _ _ Hcb)). apply set_pcb_keeps.
Qed.

Lemma fire_keeps (n : nat) (s s' : driver) : fire n s = Some s' -> keeps_settings s s'.
Proof.
  intros Hf. destruct (fire_cases _ _ _ Hf) as (s1 & Hso & _ & [-> | Hfin]).
  - now apply sched_only_keeps.
  - apply (keeps_settings_trans _ _ _ (sched_only_keeps _ _ Hso)).
    now apply finish_transfer_keeps in Hfin.
Qed.

Lemma spin_keeps (done : driver -> bool) (n : nat) (s s' : driver) :
  spin done n s = Some s' -> keeps_settings s s'.
Proof.
  revert s. induction n as [| n IH]; intros s Hs; cbn [spin] in Hs;
    destruct (done s); try discriminate;
    try (injection Hs as <-; apply keeps_settings_refl).
  destruct (fire n s) as [s2 |] eqn:Ef; [| discriminate].
  exact (keeps_settings_trans _ _ _ (fire_keeps _ _ _ Ef) (IH _ Hs)).
Qed.

(** X12.  The interrupt handlers of a transfer ([_subFrameTimerStartcb],
    [_subFrameTimerStartcb2], [_subFrameInterruptDiff] and the completion
    callback [_buffer2fullCB]) write no framebuffer and change no setting
    (size, rotation, refresh mode, diff gap, vsync spacing, compare mask,
    periods); the most they do to the buffers is to exchange the primary and
    the secondary one.  The same holds for any wait on them, such as
    [waitUpdateAsyncComplete]. *)
Theorem interrupts_keep_settings (n : nat) (s s' : driver) :
  (fire n s = Some s' -> keeps_settings s s') /\
  (waitUpdateAsyncComplete n s = Some s' -> keeps_settings s s') /\
  (forall k, fire_n k n s = Some s' -> mem s' = mem s /\ _rotation s' = _rotation s).
Proof.
  split; [apply fire_keeps |]. split; [apply spin_keeps |].
  intros k. revert s. induction k as [| k IH]; intros s Hk; cbn [fire_n] in Hk.
  - now injection Hk as <-.
  - destruct (fire n s) as [s2 |] eqn:Ef; [| discriminate].
    destruct (IH _ Hk) as [-> ->].
    destruct (fire_keeps _ _ _ Ef) as [Hset _]. unfold settings in Hset.
    injection Hset as _ _ -> _ _ _ _ _ _ ->. now split.
Qed.

(** ** A secondary buffer that stays full *)

Lemma spin_stale (n : nat) (s : driver) :
  _pcb s = None -> _fb2full s = true ->
  spin (fun s => negb (_fb2full s)) n s = None.
Proof.
  revert s. induction n as [| n IH]; intros s Hp Hfull; cbn [spin];
    rewrite Hfull; cbn [negb]; [reflexivity |].
  destruct (fire n s) as [s2 |] eqn:Ef; [| reflexivity].
  destruct (fire_policy _ _ _ Ef) as (Hq & _). destruct (Hq Hp) as [Hsp Hp2].
  destruct (same_policy_fields _ _ Hsp) as (_ & _ & _ & Hf & _).
  apply IH; congruence.
Qed.

(** X13.  In triple buffering, when the secondary buffer is marked full
    while no completion callback is installed, no hardware event clears the
    mark: [updateRegion] does not return, however many events are served;
    [update] does not return either when an upload is in progress and
    [vsync_spacing] is not -1. *)
Theorem stale_fb2full_blocks (w1 w2 n : nat) (redrawNow force : bool) (fb : Frame)
    (b : box) (stride : Z) (s : driver) :
  bufferingMode s = TRIPLE_BUFFERING -> _pcb s = None -> _fb2full s = true ->
  updateRegion n redrawNow fb b stride s = None /\
  (asyncUpdateActive s = true -> _vsync_spacing s <> -1 ->
   update w1 w2 n fb force s = None).
Proof.
  intros Hm Hp Hfull. split.
  - unfold updateRegion. rewrite Hm, (spin_stale n s Hp Hfull). reflexivity.
  - intros Ha Hv. unfold update. cbv zeta.
    change (bufferingMode (set_ongoingDiff None s)) with (bufferingMode s). rewrite Hm.
    change (asyncUpdateActive (set_ongoingDiff None s)) with (asyncUpdateActive s).
    rewrite Ha. cbn [negb].
    change (_vsync_spacing (set_ongoingDiff None s)) with (_vsync_spacing s).
    destruct (_vsync_spacing s =? -1) eqn:E; [apply Z.eqb_eq in E; contradiction |].
    cbn [negb].
    assert (Hp' : _pcb (set_ongoingDiff None s) = None) by exact Hp.
    assert (Hf' : _fb2full (set_ongoingDiff None s) = true) by exact Hfull.
    now rewrite (spin_stale n _ Hp' Hf').
Qed.

(** ** Synchronous uploads *)

Lemma upload_only_refl (s : driver) : upload_only s s.
Proof.
  split; [apply same_policy_refl |]. split; [apply keeps_settings_refl |]. now split.
Qed.

Lemma upload_only_trans (s1 s2 s3 : driver) :
  upload_only s1 s2 -> upload_only s2 s3 -> upload_only s1 s3.
Proof.
  intros (A1 & A2 & A3 & A4) (B1 & B2 & B3 & B4).
  split; [exact (same_policy_trans _ _ _ A1 B1) |].
  split; [exact (keeps_settings_trans _ _ _ A2 B2) |]. split; congruence.
Qed.

Lemma sched_only_upload (s s' : driver) : sched_only s s' -> upload_only s s'.
Proof.
  intros Hso. destruct (sched_only_fields _ _ Hso) as (Hp & Hd & _).
  split; [now apply sched_only_same_policy |].
  split; [now apply sched_only_keeps |]. now split.
Qed.

Lemma endframe_upload (s : driver) : upload_only s (_endframe s).
Proof.
  destruct (endframe_fields s) as (Hp & Hd & _).
  split; [apply sp_endframe |]. split; [apply endframe_keeps |]. now split.
Qed.

Lemma updateNow_loop_upload (n : nat) (fb : Frame) (d : dptr) (x y len px py : Z)
    (s s' : driver) :
  _updateNow_loop n fb d x y len px py s = Some s' -> upload_only s s'.
Proof.
  revert x y len px py s. induction n as [| n IH]; intros x y len px py s Hu;
    cbn [_updateNow_loop] in Hu; [discriminate |].
  unfold read_diff, _nbScanlineDuring_em_async, tick in Hu. rsimpl_in Hu. split_step Hu.
  all: lazymatch type of Hu with
       | Some (_endframe ?X) = Some _ =>
           injection Hu as <-;
           apply (upload_only_trans _ X); [apply sched_only_upload | apply endframe_upload]
       | _updateNow_loop _ _ _ _ _ _ _ _ ?X = Some _ =>
           apply (upload_only_trans _ X); [apply sched_only_upload | exact (IH _ _ _ _ _ _ Hu)]
       end.
  all: sched_only_tac.
Qed.

Lemma wait_upload (n : nat) (s s' : driver) :
  _pcb s = None -> waitUpdateAsyncComplete n s = Some s' ->
  upload_only s (set_dma_state (_dma_state s) s') /\ _pcb s' = None /\
  _dma_state s' = ILI9488_T4_DMA_IDLE /\ same_policy s s' /\ keeps_settings s s'.
Proof.
  intros Hp Hw. destruct (waitUpdateAsyncComplete_quiet _ _ _ Hp Hw) as [Hsp Hp'].
  pose proof (spin_keeps _ _ _ _ Hw) as Hk.
  pose proof (waitUpdateAsyncComplete_idle _ _ _ Hw) as Hidle.
  split; [| split; [exact Hp' | split; [exact Hidle | split; assumption]]].
  split; [exact (same_policy_trans _ _ _ Hsp (sp_dma_state _ _)) |].
  split; [exact (keeps_settings_trans _ _ _ Hk (set_dma_state_keeps _ _)) |].
  split; [| reflexivity]. change (_pcb s' = _pcb s). congruence.
Qed.

(** What a synchronous upload leaves. *)
Lemma updateNow_result (n : nat) (fb : option Frame) (d : option dptr) (s s' : driver) :
  _pcb s = None -> _updateNow n fb d s = Some s' ->
  same_policy s s' /\ keeps_settings s s' /\ _pcb s' = None /\
  (_dma_state s = ILI9488_T4_DMA_IDLE -> _dma_state s' = ILI9488_T4_DMA_IDLE).
Proof.
  intros Hp Hu. unfold _updateNow in Hu.
  destruct fb as [f |];
    [| injection Hu as <-; repeat split; auto using same_policy_refl, keeps_settings_refl].
  destruct d as [d |];
    [| injection Hu as <-; repeat split; auto using same_policy_refl, keeps_settings_refl].
  destruct (waitUpdateAsyncComplete n s) as [s0 |] eqn:Ew; [| discriminate].
  destruct (wait_upload _ _ _ Hp Ew) as (_ & Hp0 & Hd0 & Hsp0 & Hk0).
  assert (Hup : upload_only s0 s').
  { unfold read_diff, _microToReachScanLine, _getScanLine, tick in Hu.
    rsimpl_in Hu. split_step Hu.
    all: lazymatch type of Hu with
         | Some (_endframe ?X) = Some _ =>
             injection Hu as <-;
             apply (upload_only_trans _ X); [apply sched_only_upload | apply endframe_upload]
         | _updateNow_loop _ _ _ _ _ _ _ _ ?X = Some _ =>
             apply (upload_only_trans _ X);
             [apply sched_only_upload | exact (updateNow_loop_upload _ _ _ _ _ _ _ _ _ _ Hu)]
         end.
    all: unfold _startframe;
      repeat first
        [ apply sched_only_refl
        | eapply sched_only_trans;
          [| first [ apply so_late_start_ratio_override | apply so_synced_scanline
                   | apply so_last_y | apply so_margin | apply so_slinitpos
                   | apply so_prev_caset_x | apply so_prev_paset_y | apply so_armed
                   | apply so_diffs | apply so_bus | apply so_clock | apply send_sched
                   | apply so_store_diff ] ] ]. }
  destruct Hup as (Hsp & Hk & Hp' & Hd').
  split; [exact (same_policy_trans _ _ _ Hsp0 Hsp) |].
  split; [exact (keeps_settings_trans _ _ _ Hk0 Hk) |]. split; congruence.
Qed.

(** X14.  Without an owned framebuffer [update] is synchronous: when it
    returns no transfer is in progress; it records no mirror and no pending
    diff, installs no callback and writes no framebuffer. *)
Theorem update_unbuffered_synchronous (w1 w2 n : nat) (fb : Frame) (force : bool)
    (s s' : driver) :
  bufferingMode s = NO_BUFFERING -> _pcb s = None ->
  update w1 w2 n fb force s = Some s' ->
  _dma_state s' = ILI9488_T4_DMA_IDLE /\ _mirrorfb s' = None /\ _ongoingDiff s' = None /\
  _pcb s' = None /\ mem s' = mem s /\ bufferingMode s' = NO_BUFFERING.
Proof.
  intros Hm Hp Hu. unfold update in Hu. cbv zeta in Hu.
  change (bufferingMode (set_ongoingDiff None s)) with (bufferingMode s) in Hu.
  rewrite Hm in Hu.
  destruct (waitUpdateAsyncComplete n _) as [s1 |] eqn:Ew; [| discriminate].
  assert (Hp0 : _pcb (set_ongoingDiff None s) = None) by exact Hp.
  destruct (wait_upload _ _ _ Hp0 Ew) as (_ & Hp1 & Hd1 & Hsp1 & Hk1).
  destruct (same_policy_fields _ _ Hsp1)
    as (_ & _ & _ & _ & _ & _ & _ & _ & Ho1 & _ & _ & Hb1).
  destruct Hk1 as [Hset1 _].
  revert Hu.
  set (s2 := store_diff _ _ (set_mirrorfb None s1)).
  intros Hu.
  assert (Hp2 : _pcb s2 = None) by exact Hp1.
  destruct (updateNow_result _ _ _ _ _ Hp2 Hu) as (Hsp & [Hset _] & Hp' & Hd').
  destruct (same_policy_fields _ _ Hsp)
    as (_ & _ & Hm' & _ & _ & _ & _ & _ & Ho' & _ & _ & Hb').
  unfold settings in Hset, Hset1.
  injection Hset as _ _ _ _ _ _ _ _ _ Hmem. injection Hset1 as _ _ _ _ _ _ _ _ _ Hmem1.
  repeat split.
  - apply Hd'. exact Hd1.
  - exact Hm'.
  - rewrite Ho'. exact Ho1.
  - exact Hp'.
  - rewrite Hmem. exact Hmem1.
  - rewrite Hb'. change (bufferingMode s1 = NO_BUFFERING). now rewrite Hb1.
Qed.

(** ** A frame submitted to an idle driver *)

Lemma updateAsync_keeps (n : nat) (fb : option ptr) (d : option dptr) (s s' : driver) :
  _updateAsync n fb d s = Some s' -> keeps_settings s s'.
Proof.
  intros Hu.
  destruct (updateAsync_with_cases _ _ _ _ _ _ Hu)
    as [[-> _] | (p & dd & s0 & s1 & _ & _ & Hw & Hs1 & _ & Hend)];
    [apply keeps_settings_refl |].
  apply (keeps_settings_trans _ _ _ (spin_keeps _ _ _ _ Hw)).
  apply (keeps_settings_trans _ _ _ (launching_keeps p dd s0)).
  apply (keeps_settings_trans _ _ _ (sched_only_keeps _ _ Hs1)).
  destruct Hend as [[-> _] | Hfin]; [apply keeps_settings_refl |].
  exact (finish_transfer_keeps _ _ _ Hfin).
Qed.

Lemma keeps_frame_at (p : ptr) (s s' : driver) :
  keeps_settings s s' -> frame_at p s' = frame_at p s /\ _rotation s' = _rotation s.
Proof.
  intros [Hset _]. unfold settings in Hset. injection Hset as _ _ Hr _ _ _ _ _ _ Hm.
  unfold frame_at. now rewrite Hm, Hr.
Qed.

(** The block of [update] that copies the frame into the primary buffer,
    starts its upload and records the buffer as the mirror. *)
Lemma launch_then_mirror (n : nat) (full : bool) (fb : Frame) (p : ptr) (s s' : driver) :
  _fb1 s = Some p -> _pcb s = None ->
  (let? s1 := launch_now n full fb s in Some (set_mirrorfb (_fb1 s1) s1)) = Some s' ->
  _fb1 s' = Some p /\ _fb2 s' = _fb2 s /\ _mirrorfb s' = Some p /\
  frame_at p s' = copyfb (frame_at p s) fb (_rotation s) /\
  (forall q, q <> p -> frame_at q s' = frame_at q s) /\
  _rotation s' = _rotation s /\ _fb2full s' = _fb2full s /\ _pcb s' = None.
Proof.
  intros Hf Hp Hl. unfold launch_now in Hl. cbv zeta in Hl.
  destruct (do_computeDiff _ _ _ _ s) as [s1 |] eqn:Ec; [| discriminate].
  destruct (_updateAsync n _ _ s1) as [s2 |] eqn:Eu; [| discriminate].
  injection Hl as <-.
  destruct (do_computeDiff_sp _ _ _ _ _ _ Ec) as [Hsp1 Hp1].
  assert (Hf1 : _fb1 s1 = Some p).
  { destruct (same_policy_fields _ _ Hsp1) as (-> & _). exact Hf. }
  rewrite Hf1 in Eu.
  assert (Hp1' : _pcb s1 = None) by congruence.
  destruct (updateAsync_quiet _ _ _ _ _ Hp1' Eu) as [Hsp2 Hp2].
  pose proof (updateAsync_keeps _ _ _ _ _ Eu) as Hk2.
  destruct (same_policy_fields _ _ Hsp1)
    as (_ & Hb1 & _ & Hfull1 & _ & _ & _ & _ & _ & _ & Hr1 & _).
  destruct (same_policy_fields _ _ Hsp2)
    as (Ha2 & Hb2 & _ & Hfull2 & _ & _ & _ & _ & _ & _ & Hr2 & _).
  assert (Hmem : forall q, frame_at q s1 =
                   if decide (p = q) then copyfb (frame_at p s) fb (_rotation s)
                   else frame_at q s).
  { intros q. unfold do_computeDiff in Ec. rewrite Hf in Ec.
    destruct (if full then _ else _) as [dd |]; [| discriminate].
    injection Ec as <-. cbv zeta. rewrite frame_at_store_frame.
    destruct (decide (p = q)); reflexivity. }
  change (_fb1 (set_mirrorfb (_fb1 s2) s2)) with (_fb1 s2).
  change (_fb2 (set_mirrorfb (_fb1 s2) s2)) with (_fb2 s2).
  change (_mirrorfb (set_mirrorfb (_fb1 s2) s2)) with (_fb1 s2).
  change (_rotation (set_mirrorfb (_fb1 s2) s2)) with (_rotation s2).
  change (_fb2full (set_mirrorfb (_fb1 s2) s2)) with (_fb2full s2).
  change (_pcb (set_mirrorfb (_fb1 s2) s2)) with (_pcb s2).
  assert (Hfr : forall q, frame_at q (set_mirrorfb (_fb1 s2) s2) = frame_at q s1).
  { intros q. change (frame_at q (set_mirrorfb (_fb1 s2) s2)) with (frame_at q s2).
    now destruct (keeps_frame_at q _ _ Hk2). }
  split; [congruence |]. split; [congruence |]. split; [congruence |].
  split; [rewrite Hfr, Hmem; now destruct (decide (p = p)) |].
  split; [intros q Hq; rewrite Hfr, Hmem; destruct (decide (p = q)); congruence |].
  split; [congruence |]. split; congruence.
Qed.

(** X15.  A frame submitted to a driver that owns a framebuffer and is not
    uploading is copied, rotated, into the primary framebuffer, which becomes
    the mirror: the caller's frame is not referred to after [update] returns.
    The other framebuffers are not written. *)
Theorem update_idle_mirrors_frame (w1 w2 n : nat) (fb : Frame) (force : bool) (p : ptr)
    (s s' : driver) :
  _fb1 s = Some p -> asyncUpdateActive s = false -> _pcb s = None ->
  update w1 w2 n fb force s = Some s' ->
  _fb1 s' = Some p /\ _fb2 s' = _fb2 s /\ _mirrorfb s' = Some p /\
  frame_at p s' = copyfb (frame_at p s) fb (_rotation s) /\
  (forall q, q <> p -> frame_at q s' = frame_at q s).
Proof.
  intros Hf Hact Hp Hu. unfold update in Hu. cbv zeta in Hu.
  assert (Hdma : _dma_state s = ILI9488_T4_DMA_IDLE).
  { unfold asyncUpdateActive in Hact. now destruct (_dma_state s). }
  remember (set_ongoingDiff None s) as s0 eqn:E0.
  assert (Hs0 : _fb1 s0 = Some p /\ _fb2 s0 = _fb2 s /\ _pcb s0 = None /\
               _dma_state s0 = ILI9488_T4_DMA_IDLE /\ _rotation s0 = _rotation s /\
               forall q, frame_at q s0 = frame_at q s).
  { subst s0. split; [exact Hf |]. split; [reflexivity |]. split; [exact Hp |].
    split; [exact Hdma |]. split; reflexivity. }
  clear E0. destruct Hs0 as (Hf0 & Hb0 & Hp0 & Hd0 & Hr0 & Hm0).
  assert (Hact0 : asyncUpdateActive s0 = false).
  { unfold asyncUpdateActive. now rewrite Hd0. }
  unfold bufferingMode in Hu. rewrite Hf0, Hact0 in Hu.
  rewrite ?andb_false_r, ?(waitUpdateAsyncComplete_when_idle n s0 Hd0) in Hu.
  cbn [negb] in Hu.
  assert (Hend : exists full,
    (let? s1 := launch_now n full fb s0 in Some (set_mirrorfb (_fb1 s1) s1)) = Some s').
  { destruct (_fb2 s0); [eexists; exact Hu |].
    destruct (is_null (_diff1 s0) || is_null (_mirrorfb s0) || force);
      [eexists; exact Hu |].
    destruct (is_null (_diff2 s0)); eexists; exact Hu. }
  destruct Hend as [full Hl].
  destruct (launch_then_mirror _ _ _ _ _ _ Hf0 Hp0 Hl) as (A1 & A2 & A3 & A4 & A5 & _).
  split; [exact A1 |]. split; [congruence |]. split; [exact A3 |].
  split; [rewrite A4, Hm0, Hr0; reflexivity |].
  intros q Hq. rewrite (A5 q Hq). apply Hm0.
Qed.

(** ** The touch screen in the four orientations *)

Lemma pixel_in_frame (fb : list Z) (i : Z) :
  0 <= i < Z.of_nat (length fb) -> exists c, pixel fb i = Some c.
Proof.
  intros Hi. unfold pixel. destruct (i <? 0) eqn:E; [lia |].
  destruct (lookup_lt_is_Some_2 fb (Z.to_nat i) ltac:(lia)) as [c Hc]. eauto.
Qed.

(** X16.  The position that [readTouch] reports follows the orientation of
    the frames: in each of the four rotations, the pixel of the frame at the
    reported position is the one that the driver sends for the place of the
    panel that was touched. *)
Theorem readTouch_matches_pushpixels (mapX mapY : Z -> Z -> Z -> Z) (t : touch)
    (fb : list Z) (c0 c1 c2 c3 x0 y0 z0 : Z) :
  let xx := mapX (_touch_x t) c0 c1 in
  let yy := mapY (_touch_y t) c2 c3 in
  _touch_calib t = (c0, c1, c2, c3) ->
  _touch_z_threshold t <= _touch_z t -> _touch_has_calibration t = true ->
  0 <= xx < ILI9488_T4_TFTWIDTH -> 0 <= yy < ILI9488_T4_TFTHEIGHT ->
  Z.of_nat (length fb) = ILI9488_T4_NB_PIXELS ->
  touch_on_pixel _pushpixels_mode0 ILI9488_T4_TFTWIDTH
    (readTouch mapX mapY 0 t x0 y0 z0) fb xx yy /\
  touch_on_pixel _pushpixels_mode1 ILI9488_T4_TFTHEIGHT
    (readTouch mapX mapY 1 t x0 y0 z0) fb xx yy /\
  touch_on_pixel _pushpixels_mode2 ILI9488_T4_TFTWIDTH
    (readTouch mapX mapY 2 t x0 y0 z0) fb xx yy /\
  touch_on_pixel _pushpixels_mode3 ILI9488_T4_TFTHEIGHT
    (readTouch mapX mapY 3 t x0 y0 z0) fb xx yy.
Proof.
  intros xx yy Ec Hz Hcal Hx Hy Hlen.
  unfold ILI9488_T4_NB_PIXELS, ILI9488_T4_TFTWIDTH, ILI9488_T4_TFTHEIGHT in *.
  assert (Hread : forall r, readTouch mapX mapY r t x0 y0 z0 =
            if r =? 0 then (true, (xx, yy, _touch_z t))
            else if r =? 1 then (true, (yy, 319 - xx, _touch_z t))
            else if r =? 2 then (true, (319 - xx, 479 - yy, _touch_z t))
            else if r =? 3 then (true, (479 - yy, xx, _touch_z t))
            else (true, (x0, y0, _touch_z t))).
  { intros r. unfold readTouch, int_sub, ILI9488_T4_TFTWIDTH, ILI9488_T4_TFTHEIGHT.
    destruct (_touch_z t <? _touch_z_threshold t) eqn:E; [lia |].
    rewrite Hcal, Ec. fold xx yy.
    change (to_int (320 - 1)) with 319. change (to_int (480 - 1)) with 479.
    rewrite !to_int_small by (unfold INT_MIN, INT_MAX; lia). reflexivity. }
  split; [| split; [| split]].
  - destruct (pixel_in_frame fb (xx + 320 * yy) ltac:(lia)) as [c Hc].
    exists xx, yy, (_touch_z t), c. rewrite Hread. change (0 =? 0) with true.
    split; [reflexivity |]. split; [lia |]. split; [lia |]. split; [exact Hc |].
    unfold _pushpixels_mode0, int_mul, ILI9488_T4_TFTWIDTH.
    rewrite to_int_small by (unfold INT_MIN, INT_MAX; lia).
    change (Z.to_nat 1) with 1%nat. cbn [pushpixels_run].
    replace (xx + yy * 320) with (xx + 320 * yy) by lia. rewrite Hc.
    now rewrite app_nil_r.
  - destruct (pixel_in_frame fb (yy + 480 * (319 - xx)) ltac:(lia)) as [c Hc].
    exists yy, (319 - xx), (_touch_z t), c. rewrite Hread.
    change (1 =? 0) with false. change (1 =? 1) with true.
    split; [reflexivity |]. split; [lia |]. split; [lia |]. split; [exact Hc |].
    unfold _pushpixels_mode1, int_sub, ILI9488_T4_TFTWIDTH.
    change (to_int (320 - 1)) with 319.
    rewrite to_int_small by (unfold INT_MIN, INT_MAX; lia).
    change (Z.to_nat 1) with 1%nat. cbn [pushpixels_columns].
    unfold int_add, int_mul, ILI9488_T4_TFTHEIGHT.
    rewrite (to_int_small (480 * (319 - xx))) by (unfold INT_MIN, INT_MAX; lia).
    rewrite (to_int_small (yy + 480 * (319 - xx))) by (unfold INT_MIN, INT_MAX; lia).
    rewrite Hc. destruct (_ <? 0); now rewrite app_nil_r.
  - destruct (pixel_in_frame fb (319 - xx + 320 * (479 - yy)) ltac:(lia)) as [c Hc].
    exists (319 - xx), (479 - yy), (_touch_z t), c. rewrite Hread.
    change (2 =? 0) with false. change (2 =? 1) with false. change (2 =? 2) with true.
    split; [reflexivity |]. split; [lia |]. split; [lia |]. split; [exact Hc |].
    unfold _pushpixels_mode2, int_sub, int_mul, ILI9488_T4_TFTWIDTH, ILI9488_T4_TFTHEIGHT.
    change (to_int (320 - 1)) with 319. change (to_int (480 - 1)) with 479.
    rewrite (to_int_small (319 - xx)), (to_int_small (479 - yy))
      by (unfold INT_MIN, INT_MAX; lia).
    rewrite to_int_small by (unfold INT_MIN, INT_MAX; lia).
    change (Z.to_nat 1) with 1%nat. cbn [pushpixels_run].
    replace (319 - xx + (479 - yy) * 320) with (319 - xx + 320 * (479 - yy)) by lia.
    rewrite Hc. now rewrite app_nil_r.
  - destruct (pixel_in_frame fb (479 - yy + 480 * xx) ltac:(lia)) as [c Hc].
    exists (479 - yy), xx, (_touch_z t), c. rewrite Hread.
    change (3 =? 0) with false. change (3 =? 1) with false. change (3 =? 2) with false.
    change (3 =? 3) with true.
    split; [reflexivity |]. split; [lia |]. split; [lia |]. split; [exact Hc |].
    unfold _pushpixels_mode3, int_sub, ILI9488_T4_TFTHEIGHT.
    change (to_int (480 - 1)) with 479.
    rewrite to_int_small by (unfold INT_MIN, INT_MAX; lia).
    change (Z.to_nat 1) with 1%nat. cbn [pushpixels_columns].
    unfold int_add, int_mul, ILI9488_T4_TFTHEIGHT.
    rewrite (to_int_small (480 * xx)) by (unfold INT_MIN, INT_MAX; lia).
    rewrite (to_int_small (479 - yy + 480 * xx)) by (unfold INT_MIN, INT_MAX; lia).
    rewrite Hc. destruct (_ <=? _); now rewrite app_nil_r.
Qed.

(** X17.  A touch is reported once: [lastTouched] clears the flag that the
    interrupt sets, so a second call with no touch in between returns -1,
    whatever the first one returned.  Without a touch interrupt pin (255) it
    always returns -1. *)
Theorem lastTouched_once (em1 em2 : Z) (t : touch) :
  fst (lastTouched em2 (snd (lastTouched em1 t))) = -1 /\
  (_touch_irq t = 255 -> fst (lastTouched em1 t) = -1) /\
  (_touched t = true -> _touch_irq t <> 255 -> fst (lastTouched em1 t) = to_int em1).
Proof.
  unfold lastTouched. cbn [fst snd _touched _touch_irq andb]. split; [reflexivity |].
  split.
  - intros ->. now rewrite andb_false_r.
  - intros -> Hirq. destruct (_touch_irq t =? 255) eqn:E; [lia | reflexivity].
Qed.

(** X18.  The calibration of the touch screen is read back as it was set.
    Removing it (a null argument) makes [getTouchCalibration] return false
    and leave the array of the caller untouched, and makes [readTouch] report
    the raw measures, whatever the orientation. *)
Theorem touchCalibration_roundtrip (mapX mapY : Z -> Z -> Z -> Z) (t : touch)
    (c a : Z * Z * Z * Z) (r x y z : Z) :
  getTouchCalibration (setTouchCalibration (Some c) t) a = (true, c) /\
  getTouchCalibration (setTouchCalibration None t) a = (false, a) /\
  (_touch_z_threshold t <= _touch_z t ->
   readTouch mapX mapY r (setTouchCalibration None t) x y z
   = (true, (_touch_x t, _touch_y t, _touch_z t))).
Proof.
  split; [reflexivity |]. split; [reflexivity |].
  intros Hz. unfold readTouch, setTouchCalibration.
  cbn [_touch_z _touch_z_threshold _touch_has_calibration _touch_x _touch_y].
  destruct (_touch_z t <? _touch_z_threshold t) eqn:E; [lia | reflexivity].
Qed.

(** ** The refresh mode *)

Lemma scanline_queries_app (a b : nat) :
  scanline_queries a ++ scanline_queries b = scanline_queries (a + b).
Proof. unfold scanline_queries. now rewrite repeat_app, concat_app. Qed.

Lemma poll_scanline_result (b : bool) (n : nat) (s s' : driver) :
  poll_scanline b n s = Some s' ->
  sched_only s s' /\ exists k, bus s' = bus s ++ scanline_queries k.
Proof.
  revert s. induction n as [| n IH]; intros s Hp; cbn [poll_scanline] in Hp;
    [discriminate |].
  unfold _getScanLine, tick in Hp. cbn [negb] in Hp.
  destruct (clock s) as [| c rest] eqn:Ec; [discriminate |]. cbv beta iota zeta in Hp.
  match type of Hp with
  | (if _ then Some ?X else _) = _ =>
      assert (Hso : sched_only s X) by sched_only_tac;
      assert (Hb : bus X = bus s ++ scanline_queries 1)
        by (unfold scanline_queries; cbn [repeat concat]; rewrite app_nil_r; reflexivity);
      revert Hp Hso Hb; generalize X; intros s1 Hp Hso Hb
  end.
  destruct (Bool.eqb _ b).
  - injection Hp as <-. eauto.
  - destruct (IH _ Hp) as [Hso' [k Hk]].
    split; [exact (sched_only_trans _ _ _ Hso Hso') |].
    exists (1 + k)%nat. now rewrite Hk, Hb, <- app_assoc, scanline_queries_app.
Qed.

Lemma queries_trans (s1 s2 s3 : driver) :
  (sched_only s1 s2 /\ exists k, bus s2 = bus s1 ++ scanline_queries k) ->
  (sched_only s2 s3 /\ exists k, bus s3 = bus s2 ++ scanline_queries k) ->
  sched_only s1 s3 /\ exists k, bus s3 = bus s1 ++ scanline_queries k.
Proof.
  intros [H12 [a Ha]] [H23 [b Hb]]. split; [exact (sched_only_trans _ _ _ H12 H23) |].
  exists (a + b)%nat. now rewrite Hb, Ha, <- app_assoc, scanline_queries_app.
Qed.

Lemma iter_queries (f : driver -> option driver) (k : nat) :
  (forall s s', f s = Some s' ->
     sched_only s s' /\ exists j, bus s' = bus s ++ scanline_queries j) ->
  forall s s', Nat.iter k (fun r => let? s := r in f s) (Some s) = Some s' ->
    sched_only s s' /\ exists j, bus s' = bus s ++ scanline_queries j.
Proof.
  intros Hf. induction k as [| k IH]; intros s s' Hi.
  - unfold Nat.iter in Hi. cbn [nat_rect] in Hi. injection Hi as <-. split; [apply sched_only_refl |]. exists 0%nat.
    unfold scanline_queries. cbn [repeat concat]. now rewrite app_nil_r.
  - rewrite Nat.iter_succ in Hi.
    destruct (Nat.iter k _ (Some s)) as [s1 |] eqn:Ei; [| discriminate].
    exact (queries_trans _ _ _ (IH _ _ Ei) (Hf _ _ Hi)).
Qed.

(** [_sampleRefreshRate] only asks the panel for its scanline, and sets
    [_period]. *)
Lemma sampleRefreshRate_result (n : nat) (s s' : driver) :
  _sampleRefreshRate n s = Some s' ->
  exists s1 p,
    s' = set_period p s1 /\ sched_only s s1 /\
    exists k, bus s1 = bus s ++ scanline_queries k.
Proof.
  unfold _sampleRefreshRate. cbv zeta. cbv beta.
  pose (frame_start := fun s => let? s := poll_scanline true n s in poll_scanline false n s).
  assert (Hfs : forall s s', frame_start s = Some s' ->
            sched_only s s' /\ exists j, bus s' = bus s ++ scanline_queries j).
  { intros a b Hab. unfold frame_start in Hab.
    destruct (poll_scanline true n a) as [a1 |] eqn:E1; [| discriminate].
    exact (queries_trans _ _ _ (poll_scanline_result _ _ _ _ E1)
             (poll_scanline_result _ _ _ _ Hab)). }
  intros Hs.
  destruct (poll_scanline true n s) as [s0 |] eqn:E0; [| discriminate Hs].
  destruct (poll_scanline false n s0) as [s1 |] eqn:E1; [| discriminate Hs].
  destruct (Nat.iter 10 _ (Some s1)) as [s2 |] eqn:E2; [| discriminate Hs].
  assert (H01 : frame_start s = Some s1) by (unfold frame_start; now rewrite E0).
  pose proof (queries_trans _ _ _ (Hfs _ _ H01) (iter_queries frame_start _ Hfs _ _ E2))
    as H12.
  unfold tick in Hs. destruct (clock s2) as [| em rest] eqn:Ec; [discriminate Hs |].
  cbv beta iota in Hs.
  destruct (float_round _) as [p |]; [| discriminate Hs]. injection Hs as <-.
  exists (set_clock rest s2), (to_u32 p). split; [reflexivity |].
  apply (queries_trans _ s2); [exact H12 |].
  split; [apply so_clock |]. exists 0%nat. unfold scanline_queries.
  cbn [repeat concat]. now rewrite app_nil_r.
Qed.

Lemma refresh_tail_fields (p : Z) (g : driver) :
  let s' := resync (statsReset (set_period p g)) in
  bus s' = bus g /\ _refreshmode s' = _refreshmode g /\ _mirrorfb s' = _mirrorfb g /\
  _fb1 s' = _fb1 g /\ _fb2 s' = _fb2 g /\ mem s' = mem g /\ _rotation s' = _rotation g /\
  _stats_nb_frame s' = 0 /\ _nbteared s' = 0 /\ _statsvar_margin s' = [] /\
  _late_start_ratio_override s' = true /\ _period s' = p.
Proof. now destruct g. Qed.

(** X19.  [setRefreshMode] with a mode in 0..31 records the mode, waits for
    the upload in progress, then sends the frame rate command with the
    divider [mode / 16] and the line period [16 + mode mod 16]; after it only
    scanline readings go to the panel, while the refresh period is measured.
    The statistics are reset and a resynchronisation is requested; the
    framebuffers and the mirror are left as the wait left them. *)
Theorem setRefreshMode_valid (n : nat) (mode : Z) (s s' : driver) :
  0 <= mode <= 31 -> setRefreshMode n mode s = Some s' ->
  exists s0 k,
    waitUpdateAsyncComplete n (set_refreshmode mode s) = Some s0 /\
    bus s' = bus s0 ++ [Cmd ILI9488_T4_FRMCTR1; Data8 (mode / 16); Data8 (16 + mode mod 16)]
                    ++ scanline_queries k /\
    _refreshmode s' = mode /\ _mirrorfb s' = _mirrorfb s0 /\
    _fb1 s' = _fb1 s0 /\ _fb2 s' = _fb2 s0 /\ mem s' = mem s /\
    _rotation s' = _rotation s /\
    _stats_nb_frame s' = 0 /\ _nbteared s' = 0 /\ _statsvar_margin s' = [] /\
    _late_start_ratio_override s' = true.
Proof.
  intros Hm Hs. unfold setRefreshMode in Hs.
  destruct (mode <? 0) eqn:E1; [lia |]. destruct (31 <? mode) eqn:E2; [lia |].
  cbn [orb] in Hs. cbv zeta in Hs.
  assert (Hbytes : (if 16 <=? mode then (int_sub mode 16, 1) else (mode, 0))
                   = (mode mod 16, mode / 16) /\
                   to_u8 (16 + mode mod 16) = 16 + mode mod 16).
  { unfold to_u8. split.
    - destruct (16 <=? mode) eqn:E; unfold int_sub.
      + rewrite to_int_small by (unfold INT_MIN, INT_MAX; lia).
        f_equal; Z.div_mod_to_equations; lia.
      + f_equal; Z.div_mod_to_equations; lia.
    - Z.div_mod_to_equations; lia. }
  destruct Hbytes as [Hb1 Hb2]. rewrite Hb1 in Hs. cbv beta iota in Hs.
  rewrite Hb2 in Hs.
  destruct (waitUpdateAsyncComplete n (set_refreshmode mode s)) as [s0 |] eqn:Ew;
    [| discriminate].
  remember (send [Cmd ILI9488_T4_FRMCTR1; Data8 (mode / 16); Data8 (16 + mode mod 16)] s0)
    as g eqn:Hg.
  destruct (_sampleRefreshRate n g) as [s2 |] eqn:Es; [| discriminate].
  injection Hs as <-.
  destruct (sampleRefreshRate_result _ _ _ Es) as (s1 & p & -> & Hso & k & Hk).
  assert (Hg' : sched_only s0 g /\
                bus g = bus s0 ++ [Cmd ILI9488_T4_FRMCTR1; Data8 (mode / 16);
                                   Data8 (16 + mode mod 16)]).
  { subst g. split; [apply send_sched | reflexivity]. }
  clear Hg. destruct Hg' as [Hsg Hbg].
  pose proof (sched_only_trans _ _ _ Hsg Hso) as H01.
  destruct (same_policy_fields _ _ (sched_only_same_policy _ _ H01))
    as (Hf1 & Hf2 & Hmir & _ & _ & _ & _ & _ & _ & _ & Hrot & _).
  destruct (sched_only_keeps _ _ H01) as [Hset1 _].
  destruct (spin_keeps _ _ _ _ Ew) as [Hset0 _].
  unfold settings in Hset1, Hset0.
  injection Hset1 as _ _ _ Hrm1 _ _ _ _ _ Hmem1.
  injection Hset0 as _ _ Hrot0 Hrm0 _ _ _ _ _ Hmem0.
  change (_rotation (set_refreshmode mode s)) with (_rotation s) in Hrot0.
  change (_refreshmode (set_refreshmode mode s)) with mode in Hrm0.
  change (mem (set_refreshmode mode s)) with (mem s) in Hmem0.
  destruct (refresh_tail_fields p s1)
    as (B & R & M & F1 & F2 & Me & Ro & S1 & S2 & S3 & L & _).
  exists s0, k. split; [reflexivity |].
  split; [rewrite B, Hk, Hbg, <- app_assoc; reflexivity |].
  split; [congruence |]. split; [congruence |]. split; [congruence |].
  split; [congruence |]. split; [congruence |]. split; [congruence |].
  split; [exact S1 |]. split; [exact S2 |]. split; [exact S3 | exact L].
Qed.

(** ** The size of the frames *)

(** X20.  [setRotation] keeps the size of the frames in step with the
    orientation: after it the rotation is in 0..3 and the frames are
    320 x 480 in the orientations 0 and 2, 480 x 320 in the orientations 1
    and 3, provided this held before or the orientation changes. *)
Theorem setRotation_oriented (n : nat) (m : Z) (s s' : driver) :
  setRotation n m s = Some s' ->
  oriented s \/ _clip m 0 3 <> _rotation s ->
  oriented s' /\ _width s' * _height s' = ILI9488_T4_NB_PIXELS.
Proof.
  intros Hr Hor.
  assert (Hsize : forall g, oriented g -> _width g * _height g = ILI9488_T4_NB_PIXELS).
  { intros g [_ Hg]. destruct (Z.even (_rotation g)); injection Hg as -> ->; reflexivity. }
  enough (Ho : oriented s') by (split; [exact Ho | exact (Hsize _ Ho)]).
  unfold setRotation in Hr. cbv zeta in Hr.
  pose proof (clip_range m 0 3 ltac:(lia)) as Hc. revert Hr Hor Hc.
  generalize (_clip m 0 3). intros c Hr Hor Hc.
  destruct (c =? _rotation s) eqn:E.
  - injection Hr as <-. apply Z.eqb_eq in E. destruct Hor as [Ho | Hne]; [exact Ho | lia].
  - destruct (waitUpdateAsyncComplete n s) as [s1 |]; [| discriminate].
    injection Hr as <-.
    assert (Hcases : c = 0 \/ c = 1 \/ c = 2 \/ c = 3) by lia.
    destruct Hcases as [-> | [-> | [-> | ->]]]; unfold oriented; cbn [Z.eqb Pos.eqb orb];
      rsimpl; (split; [lia | reflexivity]).
Qed.

(** ** Frames dropped in double buffering *)

(** A wait on a driver without completion callback keeps the frames. *)
Lemma wait_keeps_frames (n : nat) (s s' : driver) :
  _pcb s = None -> waitUpdateAsyncComplete n s = Some s' ->
  _pcb s' = None /\ _fb1 s' = _fb1 s /\ _rotation s' = _rotation s /\
  forall q, frame_at q s' = frame_at q s.
Proof.
  intros Hp Hw. destruct (wait_upload _ _ _ Hp Hw) as (_ & Hp' & _ & Hsp & Hk).
  destruct (same_policy_fields _ _ Hsp) as (Hf & _).
  split; [exact Hp' |]. split; [exact Hf |].
  split; [exact (proj2 (keeps_frame_at 0%nat _ _ Hk)) |].
  intros q. exact (proj1 (keeps_frame_at q _ _ Hk)).
Qed.


(** ** The promotion of a queued frame *)

(** A hardware event reads the diff of the transfer in progress and no
    other, and what it sends is added to the bus. *)
Lemma fire_cases_diffs (n : nat) (s s' : driver) :
  fire n s = Some s' ->
  exists s1,
    sched_only s s1 /\
    (forall d, _diff s <> Some d -> diff_at d s1 = diff_at d s) /\
    (exists evs, bus s1 = bus s ++ evs) /\
    (s' = s1 \/ finish_transfer (call_pcb n) s1 = Some s').
Proof.
  unfold fire. intros Hf.
  destruct (armed s) eqn:Ea;
    unfold _subFrameTimerStartcb, _subFrameTimerStartcb2, _subFrameInterruptDiff,
      _microToReachScanLine, _getScanLine, _nbScanlineDuring_em_async, read_diff, tick in Hf;
    rsimpl_in Hf; split_step Hf.
  all: lazymatch type of Hf with
       | Some ?X = Some _ =>
           injection Hf as <-; exists X; split; [| split; [| split; [| left; reflexivity]]]
       | finish_transfer _ ?X = Some _ =>
           exists X; split; [| split; [| split; [| right; exact Hf]]]
       end.
  all: try sched_only_tac.
  all: try (intros dd Hdd; unfold diff_at; pnorm; rewrite ?lookup_insert_ne by congruence;
            reflexivity).
  all: pnorm; rewrite <- ?app_assoc;
    first [ eexists; reflexivity | exists []; now rewrite app_nil_r ].
Qed.

(** The end of a transfer without completion callback. *)
Lemma finish_transfer_no_callback (n : nat) (s s' : driver) :
  _pcb s = None -> finish_transfer (call_pcb n) s = Some s' ->
  s' = set_pcb None (set_dma_state ILI9488_T4_DMA_IDLE (_endframe s)).
Proof.
  intros Hp Hf. destruct (finish_transfer_cases _ _ _ Hf) as (s2 & Hc & ->).
  destruct (call_pcb_policy _ _ _ Hc) as (Hnone & _).
  rewrite Hnone; [reflexivity |]. pnorm. destruct (endframe_fields s) as (-> & _). exact Hp.
Qed.

(** An event on a driver without completion callback keeps the transfer
    that was launched and the memory; the bus grows. *)
Lemma fire_after_callback (n : nat) (s s' : driver) :
  _pcb s = None -> fire n s = Some s' ->
  _fb s' = _fb s /\ _diff s' = _diff s /\ mem s' = mem s /\
  exists evs, bus s' = bus s ++ evs.
Proof.
  intros Hp Hf.
  destruct (fire_cases_diffs _ _ _ Hf) as (s1 & Hso & _ & Hbus & Hend).
  destruct (sched_only_fields _ _ Hso) as (Hp1 & _ & Hfb & Hd & _ & _ & _ & _ & Hmem).
  destruct Hend as [-> | Hfin]; [now repeat split |].
  assert (Hp1' : _pcb s1 = None) by congruence.
  rewrite (finish_transfer_no_callback _ _ _ Hp1' Hfin).
  destruct (endframe_fields s1) as (_ & _ & _ & _ & _ & _ & Hb & Hm & Hf1).
  pnorm. rewrite Hb, Hm, Hf1.
  assert (Hd1 : _diff (_endframe s1) = _diff s1).
  { unfold _endframe. pnorm.
    destruct (0 <? _vsync_spacing s1); [destruct (_margin s1 <? 0) |]; reflexivity. }
  rewrite Hd1. now repeat split.
Qed.

Lemma spin_after_callback (done : driver -> bool) (n : nat) (s s' : driver) :
  _pcb s = None -> spin done n s = Some s' ->
  same_policy s s' /\ _pcb s' = None /\ _fb s' = _fb s /\ _diff s' = _diff s /\
  mem s' = mem s /\ exists evs, bus s' = bus s ++ evs.
Proof.
  revert s. induction n as [| n IH]; intros s Hp Hs; cbn [spin] in Hs;
    destruct (done s); try discriminate;
    try (injection Hs as <-; split; [apply same_policy_refl |];
         split; [exact Hp |]; split; [reflexivity |]; split; [reflexivity |];
         split; [reflexivity |]; exists []; now rewrite app_nil_r).
  destruct (fire n s) as [s2 |] eqn:Ef; [| discriminate].
  destruct (fire_policy _ _ _ Ef) as (Hq & _). destruct (Hq Hp) as [Hsp Hp2].
  destruct (fire_after_callback _ _ _ Hp Ef) as (Hf2 & Hd2 & Hm2 & e2 & Hb2).
  destruct (IH _ Hp2 Hs) as (Hsp' & Hp' & Hf' & Hd' & Hm' & e' & Hb').
  split; [exact (same_policy_trans _ _ _ Hsp Hsp') |]. split; [exact Hp' |].
  split; [congruence |]. split; [congruence |]. split; [congruence |].
  exists (e2 ++ e'). now rewrite Hb', Hb2, <- app_assoc.
Qed.

(** The fields of the state in which the completion callback leaves the
    driver when it has promoted the buffer [b] and launched its upload. *)
Lemma promoted_fields (q : driver) (a b : ptr) (d : dptr) (r x y : Z) (o : diffbuf) :
  _fb1 q = Some a -> _fb2 q = Some b ->
  let s2 := set_pcb None (set_ongoingDiff None (_setCB None
              (launched b d r x y o (promote (set_dma_state ILI9488_T4_DMA_IDLE
                                                 (_endframe q)))))) in
  _pcb s2 = None /\ _fb1 s2 = Some b /\ _fb2 s2 = Some a /\ _mirrorfb s2 = Some b /\
  _fb s2 = Some b /\ _diff s2 = Some d /\ mem s2 = mem q /\
  bus s2 = bus q ++ [Cmd ILI9488_T4_CASET; Data16 (to_u16 x); Data16 ILI9488_T4_TFTWIDTH;
                     Cmd ILI9488_T4_PASET; Data16 (to_u16 y); Data16 ILI9488_T4_TFTHEIGHT].
Proof.
  intros Ha Hb.
  destruct (endframe_policy_fields q) as (He1 & He2 & _).
  destruct (endframe_fields q) as (_ & _ & _ & _ & _ & _ & Hebus & Hemem & _).
  set (s0 := set_dma_state ILI9488_T4_DMA_IDLE (_endframe q)).
  assert (Hs01 : _fb1 s0 = Some a) by (unfold s0; pnorm; congruence).
  assert (Hs02 : _fb2 s0 = Some b) by (unfold s0; pnorm; congruence).
  assert (Hs0m : mem s0 = mem q) by (unfold s0; pnorm; congruence).
  assert (Hs0b : bus s0 = bus q) by (unfold s0; pnorm; congruence).
  clearbody s0.
  destruct (promote_fields s0) as (Hpr1 & Hpr2 & _ & Hprm & _).
  assert (Hprmem : mem (promote s0) = mem s0 /\ bus (promote s0) = bus s0).
  { unfold promote. cbv zeta. destruct (_mirrorfb s0); split; reflexivity. }
  destruct Hprmem as [Hprmem Hprbus].
  destruct (launched_fields b d r x y o (promote s0))
    as (Hsp & _ & _ & Hfb & Hdf & _ & Hmem & _ & Hbus).
  destruct (same_policy_fields _ _ Hsp) as (Hl1 & Hl2 & Hlm & _).
  revert Hfb Hdf Hmem Hbus Hl1 Hl2 Hlm.
  generalize (launched b d r x y o (promote s0)). intros l Hfb Hdf Hmem Hbus Hl1 Hl2 Hlm.
  intros s2.
  assert (Hs2 : _pcb s2 = None /\ _fb1 s2 = _fb1 l /\ _fb2 s2 = _fb2 l /\
                _mirrorfb s2 = _mirrorfb l /\ _fb s2 = _fb l /\ _diff s2 = _diff l /\
                mem s2 = mem l /\ bus s2 = bus l) by (unfold s2; now destruct l).
  destruct Hs2 as (-> & -> & -> & -> & -> & -> & -> & ->).
  rewrite Hl1, Hl2, Hlm, Hfb, Hdf, Hmem, Hbus, Hpr1, Hpr2, Hprm, Hprmem, Hprbus.
  repeat split; congruence.
Qed.

(** A frame queued in the secondary buffer is promoted during a wait, and
    its upload is over when the wait ends. *)
Lemma wait_promotes_queued (n : nat) (s s1 : driver) (a b : ptr) (d : dptr)
    (r x y len : Z) (o : diffbuf) :
  _pcb s = Some buffer2fullCB -> asyncUpdateActive s = true ->
  _fb1 s = Some a -> _fb2 s = Some b -> pending_diff s = Some d -> _diff s <> Some d ->
  readDiff (initRead (diff_at d s)) 0 0 0 0 = (r, (x, y, len), o) -> 0 <= r ->
  waitUpdateAsyncComplete n s = Some s1 ->
  _fb1 s1 = Some b /\ _fb2 s1 = Some a /\ _mirrorfb s1 = Some b /\
  _fb s1 = Some b /\ _diff s1 = Some d /\ mem s1 = mem s /\
  exists evs1 evs2,
    bus s1 = bus s ++ evs1
             ++ [Cmd ILI9488_T4_CASET; Data16 (to_u16 x); Data16 ILI9488_T4_TFTWIDTH;
                 Cmd ILI9488_T4_PASET; Data16 (to_u16 y); Data16 ILI9488_T4_TFTHEIGHT]
             ++ evs2.
Proof.
  unfold waitUpdateAsyncComplete. revert s.
  induction n as [| n IH]; intros s Hp Hact Ha Hb Hd Hnd Hr Hpos Hw; cbn [spin] in Hw;
    rewrite Hact in Hw; cbn [negb] in Hw; [discriminate |].
  destruct (fire n s) as [s2 |] eqn:Ef; [| discriminate].
  destruct (fire_cases_diffs _ _ _ Ef) as (q & Hso & Hdiffs & (e1 & Hbq) & Hend).
  destruct (same_policy_fields _ _ (sched_only_same_policy _ _ Hso))
    as (Hqa & Hqb & Hqm & _ & _ & Hqd2 & _ & Hqdd2 & _).
  destruct (sched_only_fields _ _ Hso) as (Hqp & Hqdma & _ & Hqdiff & _ & _ & _ & _ & Hqmem).
  assert (Hqd : pending_diff q = Some d).
  { rewrite <- Hd. unfold pending_diff. now rewrite Hqm, Hqd2, Hqdd2. }
  assert (Hqr : readDiff (initRead (diff_at d q)) 0 0 0 0 = (r, (x, y, len), o)).
  { rewrite (Hdiffs d Hnd). exact Hr. }
  destruct Hend as [-> | Hfin].
  - destruct (IH q) as (A1 & A2 & A3 & A4 & A5 & A6 & e2 & e3 & A7);
      try congruence.
    { unfold asyncUpdateActive in *. now rewrite Hqdma. }
    repeat (split; [congruence |]).
    exists (e1 ++ e2), e3. rewrite A7, Hbq, <- !app_assoc. reflexivity.
  - destruct n as [| k].
    { exfalso. destruct (finish_transfer_cases _ _ _ Hfin) as (s3 & Hc & _).
      destruct (call_pcb_cases _ _ _ Hc) as [[Hn _] | (n' & Hn & _)]; [| discriminate].
      revert Hn. pnorm. destruct (endframe_fields q) as (-> & _). congruence. }
    rewrite (finish_transfer_promotes k q d b r x y len o) in Hfin by congruence.
    injection Hfin as Hs2.
    destruct (promoted_fields q a b d r x y o) as (B0 & B1 & B2 & B3 & B4 & B5 & B6 & B7);
      try congruence.
    rewrite Hs2 in B0, B1, B2, B3, B4, B5, B6, B7.
    destruct (spin_after_callback _ _ _ _ B0 Hw) as (Hsp & _ & C3 & C4 & C5 & e3 & C6).
    destruct (same_policy_fields _ _ Hsp) as (D1 & D2 & D3 & _).
    repeat (split; [congruence |]).
    exists e1, e3. rewrite C6, B7, Hbq, <- !app_assoc. reflexivity.
Qed.

(** C9, as amended.  [setRotation] to a new rotation and [setFramebuffers]
    first wait until the scheduler is idle, and reset the mirror only then:
    the state [s1] in which the wait ends is idle, and the operation returns
    [s1] with [_mirrorfb] and [_ongoingDiff] cleared, nothing more being sent
    to the panel.  A frame queued in the secondary buffer is not discarded.
    When the wait starts with the completion callback installed, the callback
    runs during the wait, so at its end the secondary buffer is free and the
    callback removed; and when the diff pending for the queued frame is not
    empty (and is not the diff being uploaded), the queued buffer has become
    the primary buffer and the mirror, its upload with the pending diff has
    been launched (the window of its first span was sent) and is over, and
    the memory of the framebuffers is as it was.  [setFramebuffers] clears
    [_fb2full]; [setRotation] leaves it as the wait left it. *)
Theorem reconfiguration_waits_first (n : nat) (m : Z) (fb1 fb2 : option ptr)
    (s s1 : driver) :
  waitUpdateAsyncComplete n s = Some s1 ->
  _dma_state s1 = ILI9488_T4_DMA_IDLE /\
  (_pcb s = Some buffer2fullCB -> asyncUpdateActive s = true ->
   _pcb s1 = None /\ _fb2full s1 = false /\
   forall (a b : ptr) (d : dptr) (r x y len : Z) (o : diffbuf),
     _fb1 s = Some a -> _fb2 s = Some b -> pending_diff s = Some d -> _diff s <> Some d ->
     readDiff (initRead (diff_at d s)) 0 0 0 0 = (r, (x, y, len), o) -> 0 <= r ->
     _fb1 s1 = Some b /\ _fb2 s1 = Some a /\ _mirrorfb s1 = Some b /\
     _fb s1 = Some b /\ _diff s1 = Some d /\ mem s1 = mem s /\
     exists evs1 evs2,
       bus s1 = bus s ++ evs1
                ++ [Cmd ILI9488_T4_CASET; Data16 (to_u16 x); Data16 ILI9488_T4_TFTWIDTH;
                    Cmd ILI9488_T4_PASET; Data16 (to_u16 y); Data16 ILI9488_T4_TFTHEIGHT]
                ++ evs2) /\
  (_clip m 0 3 <> _rotation s ->
   exists s', setRotation n m s = Some s' /\
     _mirrorfb s' = None /\ _ongoingDiff s' = None /\
     _dma_state s' = ILI9488_T4_DMA_IDLE /\ _fb2full s' = _fb2full s1 /\
     _pcb s' = _pcb s1 /\ bus s' = bus s1 /\ mem s' = mem s1 /\ armed s' = armed s1 /\
     _fb1 s' = _fb1 s1 /\ _fb2 s' = _fb2 s1) /\
  (exists s', setFramebuffers n fb1 fb2 s = Some s' /\
     _mirrorfb s' = None /\ _ongoingDiff s' = None /\
     _dma_state s' = ILI9488_T4_DMA_IDLE /\ _fb2full s' = false /\
     _pcb s' = _pcb s1 /\ bus s' = bus s1 /\ armed s' = armed s1).
Proof.
  intros Hw. pose proof (waitUpdateAsyncComplete_idle _ _ _ Hw) as Hidle.
  split; [exact Hidle |]. split; [| split].
  - intros Hp Ha.
    destruct (waitUpdateAsyncComplete_promotes _ _ _ Hp Ha Hw) as [Hp1 Hfull1].
    split; [exact Hp1 |]. split; [exact Hfull1 |].
    intros a b d r x y len o Hfa Hfb Hd Hnd Hr Hpos.
    exact (wait_promotes_queued n s s1 a b d r x y len o Hp Ha Hfa Hfb Hd Hnd Hr Hpos Hw).
  - intros Hne. unfold setRotation.
    destruct (_clip m 0 3 =? _rotation s) eqn:E; [apply Z.eqb_eq in E; contradiction |].
    rewrite Hw. eexists. split; [reflexivity |].
    now destruct ((_clip m 0 3 =? 0) || (_clip m 0 3 =? 2)),
                 ((_clip m 0 3 =? 1) || (_clip m 0 3 =? 3)).
  - unfold setFramebuffers. rewrite Hw. eexists. split; [reflexivity |].
    destruct fb1 as [p1 |], fb2 as [p2 |]; cbn [is_null]; pnorm; now rewrite ?Hidle.
Qed.
End DriverProperties.

(** * The theorems at work on the example drivers *)

Section Closed.

#[local] Existing Instance ListDiff.
#[local] Existing Instance example_header.

(** Splits a conjunction into its parts, and only a conjunction. *)
Ltac conjs := repeat match goal with |- _ /\ _ => split end.

(** A call on an example driver returns the state [after] it. *)
Ltac by_run := apply after_returned; vm_compute; reflexivity.

(** C1, counterexample.  Double buffering, the framebuffer mirrors the
    screen: [updateRegion] with [redrawNow] sends the one pixel of the region
    and nothing else, and the mirror is still the framebuffer. *)
Lemma updateRegion_partial_push_keeps_mirror :
  let s' := after double_mirrored (updateRegion 5 true [9] corner 1) in
  updateRegion 5 true [9] corner 1 double_mirrored = Some s' /\
  bus s' = [Cmd ILI9488_T4_CASET; Data16 0; Data16 0;
            Cmd ILI9488_T4_PASET; Data16 0; Data16 0;
            Cmd ILI9488_T4_RAMWR; RectPixels [9] corner 1; Cmd ILI9488_T4_NOP] /\
  _mirrorfb s' = Some 10%nat /\ _mirrorfb s' <> None.
Proof.
  cbv zeta. split; [by_run |]. conjs; [vm_compute; reflexivity .. |].
  vm_compute. discriminate.
Qed.

(** C1, witness of the amended statement on the same call. *)
Lemma updateRegion_mirror_witness :
  let s' := after double_mirrored (updateRegion 5 true [9] corner 1) in
  _mirrorfb s' = _fb1 s' /\ _fb1 s' <> None.
Proof.
  cbv zeta.
  refine (updateRegion_mirror 5 true [9] corner 1 double_mirrored _ _ _ _).
  - intros Hp. exfalso. apply Hp. reflexivity.
  - discriminate.
  - by_run.
Defined.



(** C3, witness: the table measured with a period of 16667 microseconds in
    mode 0 (60 Hz), at mode 21. *)
Lemma modeForRefreshRate_roundtrip_witness :
  (0 < 16667 < 2 ^ 32 /\ 0 <= 21 <= 31)
  /\ _modeForRefreshRate 16667 (_refreshRateForMode 16667 21) = 21.
Proof.
  split; [lia |]. apply modeForRefreshRate_roundtrip; lia.
Defined.

(** C4, witness: mode 20, in the halved range. *)
Lemma refreshRateForMode_formula_witness :
  _refreshRateForMode 16667 20 =
    fdiv (fmul (fdiv (baseHz 16667) (float_of_Z 2)) (float_of_Z 16))
         (fadd (float_of_Z 16) (float_of_Z 4)).
Proof. apply (refreshRateForMode_formula 16667 20). lia. Defined.

(** C5, witness: 1000 microseconds after a synchronisation at scanline 100,
    with a period of 16667 microseconds and 480 scanlines. *)
Lemma getScanLine_extrapolated_witness :
  let s := set_synced_scanline 100 (example_driver 0 [1000]) in
  _getScanLine false s = Some (128, set_clock [] s).
Proof.
  cbv zeta.
  refine (proj1 (getScanLine_extrapolated
                   (set_synced_scanline 100 (example_driver 0 [1000])) 1000 [] _ _ _ _ _)).
  - reflexivity.
  - lia.
  - change (0 < 16667 < 2 ^ 32). lia.
  - change (0 <= 100 < 2 ^ 32). lia.
  - change (0 < 480 < 2 ^ 31). lia.
Defined.





(** C8, witness: rotation 7 and refresh mode 32. *)
Lemma invalid_configuration_not_fatal_witness :
  setRefreshMode 5 32 (example_driver 0 []) = Some (example_driver 0 []) /\
  exists s', setRotation 5 7 (example_driver 0 []) = Some s' /\ _rotation s' = 3.
Proof.
  destruct (invalid_configuration_not_fatal 5 7 32 (example_driver 0 []))
    as (Hrot & Htot & Href).
  split; [apply Href; right; lia |].
  destruct (Htot eq_refl) as (s' & Hs').
  exists s'. split; [exact Hs' |].
  destruct (Hrot s' Hs') as (_ & _ & H3 & _). apply H3. lia.
Defined.

(** C9, counterexample.  A first frame is being uploaded and a second one is
    queued in the secondary buffer when [setRotation] is called: the call
    waits, and the queued frame is uploaded during the wait. *)
Lemma setRotation_uploads_queued_frame :
  let s := queued 0 in
  let s' := after s (setRotation 20 1) in
  (_fb2full s = true /\ _pcb s = Some buffer2fullCB /\
   frame_at 11%nat s = [2; 2; 2; 2] /\ uploaded (bus s) = []) /\
  setRotation 20 1 s = Some s' /\
  uploaded (bus s') = [[1; 1; 1; 1]; [2; 2; 2; 2]] /\
  _mirrorfb s' = None.
Proof. cbv zeta. conjs; try by_run; vm_compute; reflexivity. Qed.

(** C9, witness of the amended statement on the same call: the queued
    frame, in the buffer 11 with the diff 3, is the primary buffer and the
    mirror when the wait ends, and was the last one uploaded. *)
Lemma reconfiguration_waits_first_witness :
  let s := queued 0 in
  let s1 := after s (waitUpdateAsyncComplete 20) in
  _dma_state s1 = ILI9488_T4_DMA_IDLE /\ _pcb s1 = None /\ _fb2full s1 = false /\
  (_fb1 s1 = Some 11%nat /\ _fb2 s1 = Some 10%nat /\ _mirrorfb s1 = Some 11%nat /\
   _fb s1 = Some 11%nat /\ _diff s1 = Some 3%nat /\ mem s1 = mem s) /\
  exists s', setRotation 20 1 s = Some s' /\ _mirrorfb s' = None /\ bus s' = bus s1.
Proof.
  cbv zeta.
  assert (Hw : waitUpdateAsyncComplete 20 (queued 0)
               = Some (after (queued 0) (waitUpdateAsyncComplete 20))) by by_run.
  assert (Hcb : _pcb (queued 0) = Some buffer2fullCB) by (vm_compute; reflexivity).
  assert (Hact : asyncUpdateActive (queued 0) = true) by (vm_compute; reflexivity).
  assert (Hne : _clip 1 0 3 <> _rotation (queued 0)) by (vm_compute; discriminate).
  assert (Ha : _fb1 (queued 0) = Some 10%nat) by (vm_compute; reflexivity).
  assert (Hb : _fb2 (queued 0) = Some 11%nat) by (vm_compute; reflexivity).
  assert (Hd : pending_diff (queued 0) = Some 3%nat) by (vm_compute; reflexivity).
  assert (Hnd : _diff (queued 0) <> Some 3%nat) by (vm_compute; discriminate).
  assert (Hr : readDiff (initRead (diff_at 3%nat (queued 0))) 0 0 0 0
               = (0, (0, 0, 4), mkListDiff false [(0, 0, 4)] [(0, 0, 4)] false))
    by (vm_compute; reflexivity).
  destruct (reconfiguration_waits_first 20 1 None None (queued 0) _ Hw)
    as (Hidle & Hq & Hrot & _).
  destruct (Hq Hcb Hact) as (Hp & Hfull & Hprom).
  destruct (Hprom _ _ _ _ _ _ _ _ Ha Hb Hd Hnd Hr ltac:(lia))
    as (P1 & P2 & P3 & P4 & P5 & P6 & _).
  destruct (Hrot Hne) as (s' & Hs' & Hm & _ & _ & _ & _ & Hbus & _).
  conjs; try assumption. exists s'. conjs; assumption.
Defined.

(** C10, witness: an offset of -1 scrolls to line 159, which is 479 modulo
    320. *)
Lemma setScroll_address_witness :
  setScroll 5 (-1) (example_driver 0 [])
  = Some (send [Cmd ILI9488_T4_VSCRSADD; Data16 159; Cmd ILI9488_T4_RAMWR;
                Cmd ILI9488_T4_NOP] (example_driver 0 [])).
Proof.
  refine (proj1 (setScroll_address 5 (-1) (example_driver 0 []) (example_driver 0 []) _ _)).
  - unfold INT_MIN, INT_MAX. lia.
  - reflexivity.
Defined.

(** * The further properties on the example drivers *)

(** X1, witness: the colour 0x1234. *)
Lemma color24_faithful_witness :
  0 <= color24 0x1234 < 2 ^ 24 /\
  (color24 0x1234 / 2 ^ 19) * 2048 + (color24 0x1234 / 2 ^ 10 mod 64) * 32
    + color24 0x1234 / 2 ^ 3 mod 32 = 0x1234.
Proof.
  assert (Hc : 0 <= 0x1234 < 2 ^ 16) by lia.
  destruct (color24_faithful 0x1234 Hc) as (H1 & H2 & _). split; [exact H1 | exact H2].
Defined.

(** X2, witness: a count of zero still sends one word. *)
Lemma write16BitColor_count_words_witness :
  _write16BitColor_count 7 0 true = Some [Tx (color24 (to_u16 7))].
Proof. apply (write16BitColor_count_words 7 0 true). lia. Defined.

(** X3, witness: three pixels from the second one of a short frame. *)
Lemma pushpixels_mode0_span_witness :
  _pushpixels_mode0 [1; 2; 3; 4; 5] 1 0 3 =
    Some [Tx (color24 (to_u16 2)); Tx (color24 (to_u16 3)); Tx (color24 (to_u16 4))].
Proof.
  apply (pushpixels_mode0_span [1; 2; 3; 4; 5] 1 0 3).
  - lia.
  - unfold ILI9488_T4_TFTHEIGHT. lia.
  - vm_compute. discriminate.
Defined.

(** The example frame has the size of the panel, and its pixels are their
    indices. *)
Lemma ramp_frame_length : Z.of_nat (length ramp_frame) = ILI9488_T4_NB_PIXELS.
Proof.
  unfold ramp_frame. rewrite length_map, length_seqZ. apply Z2Nat.id. vm_compute. discriminate.
Qed.

Lemma ramp_frame_pixel (k : Z) :
  0 <= k < ILI9488_T4_NB_PIXELS -> pixel ramp_frame k = Some (to_u16 k).
Proof.
  intros Hk. rewrite pixel_lookup by lia. unfold ramp_frame.
  rewrite list_lookup_fmap.
  replace (seqZ 0 ILI9488_T4_NB_PIXELS !! Z.to_nat k) with (Some k); [reflexivity |].
  symmetry. apply lookup_seqZ. split; [lia |]. lia.
Qed.

(** X4, witness: two pixels of the ramp from the position (1, 1); they are
    the pixels 153278 and 153277, read downwards from the far end. *)
Lemma pushpixels_mode2_reverse_witness :
  _pushpixels_mode2 ramp_frame 1 1 2 = _pushpixels_mode0 (reverse ramp_frame) 1 1 2 /\
  _pushpixels_mode2 ramp_frame 1 1 2 =
    Some [Tx (color24 (to_u16 153278)); Tx (color24 (to_u16 153277))].
Proof.
  assert (H : _pushpixels_mode2 ramp_frame 1 1 2 = _pushpixels_mode0 (reverse ramp_frame) 1 1 2).
  { apply (pushpixels_mode2_reverse ramp_frame 1 1 2).
    - exact ramp_frame_length.
    - unfold ILI9488_T4_TFTWIDTH. lia.
    - unfold ILI9488_T4_TFTHEIGHT. lia. }
  split; [exact H |]. rewrite H.
  unfold _pushpixels_mode0. change (Z.to_nat 2) with 2%nat.
  change (1 + int_mul 1 ILI9488_T4_TFTWIDTH) with 321.
  cbn [pushpixels_run]. change (321 + 1) with 322.
  rewrite !pixel_reverse, ramp_frame_length.
  change (ILI9488_T4_NB_PIXELS - 1 - 321) with 153278.
  change (ILI9488_T4_NB_PIXELS - 1 - 322) with 153277.
  rewrite !ramp_frame_pixel by (vm_compute; split; [discriminate | reflexivity]).
  reflexivity.
Defined.

(** X5, witness: the same span in rotation 1; the pixels sent are one row
    of 480 apart, walking up a column of the landscape frame. *)
Lemma pushpixels_mode1_landscape_witness :
  _pushpixels_mode1 ramp_frame 1 1 2 = _pushpixels_mode0 (landscape_view ramp_frame) 1 1 2 /\
  _pushpixels_mode1 ramp_frame 1 1 2 =
    Some [Tx (color24 (to_u16 152641)); Tx (color24 (to_u16 152161))].
Proof.
  assert (H : _pushpixels_mode1 ramp_frame 1 1 2
              = _pushpixels_mode0 (landscape_view ramp_frame) 1 1 2).
  { apply (pushpixels_mode1_landscape ramp_frame 1 1 2).
    - exact ramp_frame_length.
    - unfold ILI9488_T4_TFTWIDTH. lia.
    - lia.
    - vm_compute. discriminate. }
  split; [exact H |]. rewrite H.
  unfold _pushpixels_mode0. change (Z.to_nat 2) with 2%nat.
  change (1 + int_mul 1 ILI9488_T4_TFTWIDTH) with 321.
  cbn [pushpixels_run]. change (321 + 1) with 322.
  rewrite (proj1 (landscape_view_lookup ramp_frame 321 ramp_frame_length
                    ltac:(vm_compute; split; [discriminate | reflexivity]))).
  rewrite (proj1 (landscape_view_lookup ramp_frame 322 ramp_frame_length
                    ltac:(vm_compute; split; [discriminate | reflexivity]))).
  change (landscape_index 321) with 152641. change (landscape_index 322) with 152161.
  rewrite !ramp_frame_pixel by (vm_compute; split; [discriminate | reflexivity]).
  reflexivity.
Defined.

(** X6, witness: the same span in rotation 3; the pixels sent walk down a
    column from the other end of the landscape frame. *)
Lemma pushpixels_mode3_reverse_witness :
  _pushpixels_mode3 ramp_frame 1 1 2 = _pushpixels_mode1 (reverse ramp_frame) 1 1 2 /\
  _pushpixels_mode3 ramp_frame 1 1 2 =
    Some [Tx (color24 (to_u16 958)); Tx (color24 (to_u16 1438))].
Proof.
  assert (H : _pushpixels_mode3 ramp_frame 1 1 2
              = _pushpixels_mode1 (reverse ramp_frame) 1 1 2).
  { apply (pushpixels_mode3_reverse ramp_frame 1 1 2).
    - exact ramp_frame_length.
    - unfold ILI9488_T4_TFTWIDTH. lia.
    - unfold ILI9488_T4_TFTHEIGHT. lia.
    - vm_compute. discriminate. }
  split; [exact H |]. rewrite H.
  unfold _pushpixels_mode1. change (Z.to_nat 2) with 2%nat.
  change (int_sub (int_sub ILI9488_T4_TFTWIDTH 1) 1) with 318.
  cbn [pushpixels_columns].
  change (int_add 1 (int_mul ILI9488_T4_TFTHEIGHT 318)) with 152641.
  change (int_sub 318 1) with 317. change (317 <? 0) with false. cbv iota.
  change (int_add 1 (int_mul ILI9488_T4_TFTHEIGHT 317)) with 152161.
  rewrite !pixel_reverse, ramp_frame_length.
  change (ILI9488_T4_NB_PIXELS - 1 - 152641) with 958.
  change (ILI9488_T4_NB_PIXELS - 1 - 152161) with 1438.
  rewrite !ramp_frame_pixel by (vm_compute; split; [discriminate | reflexivity]).
  reflexivity.
Defined.

(** X7, witness: two close measures and a distant one. *)
Lemma besttwoavg_closest_pair_witness :
  Z.min 100 (Z.min 104 300) <= _besttwoavg 100 104 300 <= Z.max 100 (Z.max 104 300).
Proof.
  refine (proj2 (besttwoavg_closest_pair 100 104 300 _ _ _)); lia.
Defined.

(** X8, witness: an idle driver in triple buffering. *)
Lemma clear_fills_panel_and_mirror_witness :
  exists s',
    clear 5 0xF800 (example_driver 0 []) = Some s' /\
    _mirrorfb s' = Some 10%nat /\
    frame_at 10%nat s' = repeat 0xF800 (Z.to_nat ILI9488_T4_NB_PIXELS).
Proof.
  assert (Hw : waitUpdateAsyncComplete 5 (example_driver 0 []) = Some (example_driver 0 []))
    by reflexivity.
  destruct (clear_fills_panel_and_mirror 5 0xF800 _ _ Hw) as (s' & Hs' & _ & _ & _ & Hfb).
  exists s'. split; [exact Hs' |].
  change (_fb1 (example_driver 0 [])) with (Some 10%nat) in Hfb.
  destruct Hfb as (Hm & _ & Hf). split; [exact Hm | exact Hf].
Defined.

(** X9, witness: a square of four pixels. *)
Lemma drawRect_forgets_mirror_witness :
  exists s',
    _drawRect 5 (mkBox 0 1 0 1) 0xF800 double_mirrored = Some s' /\
    _mirrorfb s' = None /\ mem s' = mem double_mirrored.
Proof.
  assert (Hw : waitUpdateAsyncComplete 5 double_mirrored = Some double_mirrored)
    by reflexivity.
  destruct (drawRect_forgets_mirror 5 (mkBox 0 1 0 1) 0xF800 _ _ Hw)
    as (s' & Hs' & _ & Hm & _ & Hmem & _); try (cbn [xmin xmax ymin ymax]; lia).
  exists s'. split; [exact Hs' |]. split; [exact Hm | exact Hmem].
Defined.

(** X10, witness: one buffer, given as the second argument. *)
Lemma setFramebuffers_modes_witness :
  exists s',
    setFramebuffers 5 None (Some 11%nat) (example_driver 0 []) = Some s' /\
    setFramebuffers 5 (Some 11%nat) None (example_driver 0 []) = Some s' /\
    bufferingMode s' = DOUBLE_BUFFERING.
Proof.
  assert (Hw : waitUpdateAsyncComplete 5 (example_driver 0 []) = Some (example_driver 0 []))
    by reflexivity.
  destruct (setFramebuffers_modes 5 None (Some 11%nat) _ _ Hw)
    as (s' & Hs' & Hswap & Hmode & _).
  exists s'. split; [exact Hs' |]. split; [apply Hswap; left; reflexivity | exact Hmode].
Defined.

(** X11, witness: one diff buffer, given as the second argument. *)
Lemma setDiffBuffers_order_witness :
  exists s',
    setDiffBuffers 5 None (Some 3%nat) (example_driver 0 []) = Some s' /\
    _diff1 s' = Some 3%nat /\ _diff2 s' = None.
Proof.
  assert (Hw : waitUpdateAsyncComplete 5 (example_driver 0 []) = Some (example_driver 0 []))
    by reflexivity.
  destruct (setDiffBuffers_order 5 None (Some 3%nat) _ _ Hw)
    as (s' & Hs' & _ & Hnone & Horder & _).
  exists s'. split; [exact Hs' |].
  destruct Horder as [[H1 H2] | [H1 H2]].
  - rewrite (Hnone H1) in H2. discriminate.
  - split; assumption.
Defined.

(** X13, witness.  With [vsync_spacing = -1] a third frame replaces the
    queued one and the upload ends while it is copied: [update] returns with
    the secondary buffer still marked full and no callback, and
    [updateRegion] then never returns. *)
Lemma stale_fb2full_blocks_witness :
  update 0 3 8 [3; 3; 3; 3] false (queued (-1)) = Some stale_queue /\
  updateRegion 50 false [4; 4; 4; 4] corner 1 stale_queue = None.
Proof.
  split; [unfold stale_queue; by_run |].
  refine (proj1 (stale_fb2full_blocks 0 0 50 false false [4; 4; 4; 4] corner 1
                   stale_queue _ _ _)); vm_compute; reflexivity.
Defined.

(** X14, witness: a frame sent without framebuffer. *)
Lemma update_unbuffered_synchronous_witness :
  let s' := after unbuffered (update 0 0 8 [1; 1; 1; 1] false) in
  _dma_state s' = ILI9488_T4_DMA_IDLE /\ _mirrorfb s' = None /\ mem s' = mem unbuffered.
Proof.
  cbv zeta.
  assert (Hu : update 0 0 8 [1; 1; 1; 1] false unbuffered
               = Some (after unbuffered (update 0 0 8 [1; 1; 1; 1] false))) by by_run.
  assert (Hm : bufferingMode unbuffered = NO_BUFFERING) by reflexivity.
  assert (Hp : _pcb unbuffered = None) by reflexivity.
  destruct (update_unbuffered_synchronous 0 0 8 [1; 1; 1; 1] false _ _ Hm Hp Hu)
    as (H1 & H2 & _ & _ & H5 & _).
  conjs; assumption.
Defined.

(** X15, witness: the first frame submitted in triple buffering. *)
Lemma update_idle_mirrors_frame_witness :
  let s' := uploading 0 [] in
  _mirrorfb s' = Some 10%nat /\
  frame_at 10%nat s' = copyfb (frame_at 10%nat (example_driver 0 [])) [1; 1; 1; 1] 0.
Proof.
  cbv zeta.
  assert (Hu : update 0 0 8 [1; 1; 1; 1] false (example_driver 0 [])
               = Some (uploading 0 [])) by (unfold uploading; by_run).
  assert (Hf : _fb1 (example_driver 0 []) = Some 10%nat) by reflexivity.
  assert (Ha : asyncUpdateActive (example_driver 0 []) = false) by reflexivity.
  assert (Hp : _pcb (example_driver 0 []) = None) by reflexivity.
  destruct (update_idle_mirrors_frame 0 0 8 [1; 1; 1; 1] false 10%nat _ _ Hf Ha Hp Hu)
    as (_ & _ & Hm & Hfr & _).
  split; [exact Hm | exact Hfr].
Defined.

(** Reads the position and the pixel off an instance of [touch_on_pixel]. *)
Ltac touched H :=
  let x := fresh "x" in let y := fresh "y" in let z := fresh "z" in let c := fresh "c" in
  let Hr := fresh "Hr" in let Hp := fresh "Hp" in let Hs := fresh "Hs" in
  destruct H as (x & y & z & c & Hr & _ & _ & Hp & Hs);
  vm_compute in Hr; injection Hr as <- <- <-;
  rewrite ramp_frame_pixel in Hp by (vm_compute; split; [discriminate | reflexivity]);
  injection Hp as <-; split; [reflexivity | exact Hs].

(** X16, witness: the touch of [example_touch], at the position (160, 120)
    of the panel, in the four rotations, on the ramp: the position reported
    changes with the rotation, and the pixel sent is the one found there. *)
Lemma readTouch_matches_pushpixels_witness :
  (readTouch linear_mapX linear_mapY 0 example_touch 0 0 0 = (true, (160, 120, 500)) /\
   _pushpixels_mode0 ramp_frame 160 120 1 = Some (_write16BitColor (160 + 320 * 120) false)) /\
  (readTouch linear_mapX linear_mapY 1 example_touch 0 0 0 = (true, (120, 159, 500)) /\
   _pushpixels_mode1 ramp_frame 160 120 1 = Some (_write16BitColor (120 + 480 * 159) false)) /\
  (readTouch linear_mapX linear_mapY 2 example_touch 0 0 0 = (true, (159, 359, 500)) /\
   _pushpixels_mode2 ramp_frame 160 120 1 = Some (_write16BitColor (159 + 320 * 359) false)) /\
  (readTouch linear_mapX linear_mapY 3 example_touch 0 0 0 = (true, (359, 160, 500)) /\
   _pushpixels_mode3 ramp_frame 160 120 1 = Some (_write16BitColor (359 + 480 * 160) false)).
Proof.
  assert (H : _touch_calib example_touch = (0, 4000, 0, 4000)) by reflexivity.
  destruct (readTouch_matches_pushpixels linear_mapX linear_mapY example_touch ramp_frame
              0 4000 0 4000 0 0 0 H) as (H0 & H1 & H2 & H3).
  - vm_compute. discriminate.
  - reflexivity.
  - vm_compute. split; [discriminate | reflexivity].
  - vm_compute. split; [discriminate | reflexivity].
  - exact ramp_frame_length.
  - split; [touched H0 |]. split; [touched H1 |]. split; [touched H2 | touched H3].
Defined.

(** X19, witness: mode 20 on an idle driver; ten frames take 166670
    microseconds. *)
Lemma setRefreshMode_valid_witness :
  let s := example_driver 0 sampling_ticks in
  let s' := after s (setRefreshMode 5 20) in
  setRefreshMode 5 20 s = Some s' /\ _refreshmode s' = 20 /\
  exists k, bus s' = [Cmd ILI9488_T4_FRMCTR1; Data8 1; Data8 20] ++ scanline_queries k.
Proof.
  cbv zeta.
  assert (Hs : setRefreshMode 5 20 (example_driver 0 sampling_ticks)
               = Some (after (example_driver 0 sampling_ticks) (setRefreshMode 5 20)))
    by by_run.
  assert (Hm : 0 <= 20 <= 31) by lia.
  destruct (setRefreshMode_valid 5 20 _ _ Hm Hs) as (s0 & k & Hw & Hbus & Hmode & _).
  split; [exact Hs |]. split; [exact Hmode |]. exists k.
  assert (Hw0 : waitUpdateAsyncComplete 5 (set_refreshmode 20 (example_driver 0 sampling_ticks))
                = Some (set_refreshmode 20 (example_driver 0 sampling_ticks)))
    by reflexivity.
  rewrite Hw0 in Hw. injection Hw as <-. exact Hbus.
Defined.

(** X20, witness: from the portrait orientation 0 to the landscape
    orientation 1. *)
Lemma setRotation_oriented_witness :
  let s' := after (example_driver 0 []) (setRotation 5 1) in
  oriented s' /\ _width s' * _height s' = ILI9488_T4_NB_PIXELS.
Proof.
  cbv zeta.
  assert (Hr : setRotation 5 1 (example_driver 0 [])
               = Some (after (example_driver 0 []) (setRotation 5 1))) by by_run.
  assert (Hne : _clip 1 0 3 <> _rotation (example_driver 0 [])) by (vm_compute; discriminate).
  exact (setRotation_oriented 5 1 _ _ Hr (or_intror Hne)).
Defined.

End Closed.
